(** * Error-feedback daemon: a filesystem-backed work queue

    A shallow embedding of the error-feedback daemon
    (bundle-writer.ts, daemon.ts, lifecycle.ts, paths.ts, types.ts,
    emit-on-error.ts and the cleanup of commands/error-feedback.ts) and
    the properties of its pending -> processed life cycle.

    Conventions of the model.
    - A directory is a finite map from file names to file contents; the
      three directories of the queue are [pending], [processed] and
      [processed/invalid].  [path.join dir name] and [path.basename]
      cancel, so a path inside a directory is its file name.
    - A file holds either text that [JSON.parse] rejects, or the JSON
      value its text denotes: [JSON.stringify] and [JSON.parse] belong to
      the platform and are inverse to each other on JSON values.
    - The [number] fields of a bundle and the times of the cleanup are
      IEEE-754 binary64 values with round-to-nearest-even arithmetic
      (section Numbers); the sign of zero is not represented.  The three
      counters of the daemon state start at 0 and grow by 1, and process
      ids are integers: they are in [Z].
    - The directories exist ([mkdir] changes nothing) and file operations
      succeed unless stated otherwise (a missing file cannot be read or
      renamed; [stat] and [unlink] of the cleanup may throw); the
      processor and the two notification handlers are caller code and
      may throw.
    - The clock, the UUID generator and the process table belong to the
      environment [Env]. *)

From stdpp Require Import gmap strings list fin_maps.
From Stdlib Require Import ZArith Lia Sorted Ascii.

Local Open Scope Z_scope.
Local Open Scope string_scope.
Local Open Scope list_scope.

(** ** Numbers

    A JavaScript number is an IEEE-754 binary64 value.  Every finite one
    is an integer multiple of [2^-1074], the smallest positive one, so a
    finite number is represented by that multiple: [Finite u] is the
    value [u * 2^-1074].  The doubles among them are the [u] with at most
    53 significant bits and a magnitude of at most [MAX_VALUE]; the
    results of the operations below are doubles. *)

Inductive number :=
| NaN
| Infinity (negative : bool)
| Finite (u : Z).

(** The number 1, and [Number.MAX_VALUE], in units of [2^-1074]. *)
Definition UNIT : Z := 2 ^ 1074.
Definition MAX_VALUE : Z := (2 ^ 53 - 1) * 2 ^ 2045.

(** The number whose value is the integer [n]; a double when [n] has at
    most 53 significant bits, in particular for [-2^53 <= n <= 2^53]. *)
Definition num (n : Z) : number := Finite (n * UNIT).

Coercion num : Z >-> number.
Arguments num : simpl never.

(** [a / 2^sh] rounded to the nearest integer, ties to even. *)
Definition roundShift (a sh : Z) : Z :=
  if (sh <=? 0)%Z then a
  else
    let q := a / 2 ^ sh in
    let r := a mod 2 ^ sh in
    let half := 2 ^ (sh - 1) in
    if (r <? half)%Z then q
    else if (half <? r)%Z then q + 1
    else if Z.even q then q else q + 1.

(** The double nearest to the magnitude [a * 2^-(1074 + k)], with the
    given sign: [a] keeps its 53 leading bits and loses at least its [k]
    last ones; a result above [MAX_VALUE] is an infinity. *)
Definition roundMagnitude (negative : bool) (a k : Z) : number :=
  let sh := Z.max k (Z.log2 a + 1 - 53) in
  let a' := roundShift a sh * 2 ^ (sh - k) in
  if (MAX_VALUE <? a')%Z then Infinity negative
  else Finite (if negative then - a' else a').

Definition roundUnits (z k : Z) : number :=
  roundMagnitude (z <? 0)%Z (Z.abs z) k.

(** [x + y] *)
Definition jsAdd (x y : number) : number :=
  match x, y with
  | NaN, _ | _, NaN => NaN
  | Infinity s, Infinity t => if Bool.eqb s t then Infinity s else NaN
  | Infinity s, Finite _ | Finite _, Infinity s => Infinity s
  | Finite u, Finite v => roundUnits (u + v) 0
  end.

(** [- x] *)
Definition jsNeg (x : number) : number :=
  match x with
  | NaN => NaN
  | Infinity s => Infinity (negb s)
  | Finite u => Finite (- u)
  end.

(** [x - y] *)
Definition jsSub (x y : number) : number := jsAdd x (jsNeg y).

(** [x * y] *)
Definition jsMul (x y : number) : number :=
  match x, y with
  | NaN, _ | _, NaN => NaN
  | Infinity s, Infinity t => Infinity (xorb s t)
  | Infinity s, Finite v | Finite v, Infinity s =>
      if (v =? 0)%Z then NaN else Infinity (xorb s (v <? 0)%Z)
  | Finite u, Finite v => roundUnits (u * v) 1074
  end.

(** [x < y] *)
Definition jsLt (x y : number) : bool :=
  match x, y with
  | NaN, _ | _, NaN => false
  | Infinity s, Infinity t => s && negb t
  | Infinity s, Finite _ => s
  | Finite _, Infinity t => negb t
  | Finite u, Finite v => (u <? v)%Z
  end.

(** [x === y] *)
Definition jsStrictEq (x y : number) : bool :=
  match x, y with
  | Infinity s, Infinity t => Bool.eqb s t
  | Finite u, Finite v => (u =? v)%Z
  | _, _ => false
  end.

(** A number as a condition: [0] and [NaN] are falsy. *)
Definition numberTruthy (x : number) : bool :=
  match x with
  | NaN => false
  | Infinity _ => true
  | Finite u => negb (u =? 0)%Z
  end.

(** A finite number within the range of the doubles. *)
Definition inRange (x : number) : bool :=
  match x with
  | Finite u => (Z.abs u <=? MAX_VALUE)%Z
  | _ => false
  end.

(** The number nearest to the integer [n]. *)
Definition ofInteger (n : Z) : number := roundUnits (n * UNIT) 0.

(** ** JSON values

    A parsed number is a double; [JSON.parse] gives an infinity for a
    literal beyond the range and never [NaN]. *)

#[warnings="-register-all"]
Inductive json : Type :=
| JNull
| JBool (b : bool)
| JNum (n : number)
| JStr (s : string)
| JArr (items : list json)
| JObj (fields : list (string * json)).

(** Own-property lookup in the key/value list of an object. *)
Fixpoint assoc (k : string) (fields : list (string * json)) : option json :=
  match fields with
  | [] => None
  | (k', v) :: rest => if String.eqb k k' then Some v else assoc k rest
  end.

(** [j.k] for a non-null value: [None] is [undefined]. *)
Definition getProp (k : string) (j : json) : option json :=
  match j with
  | JObj fields => assoc k fields
  | _ => None
  end.

(** JavaScript truthiness of a property value ([None] is [undefined]). *)
Definition truthy (v : option json) : bool :=
  match v with
  | None => false
  | Some JNull => false
  | Some (JBool b) => b
  | Some (JNum n) => numberTruthy n
  | Some (JStr s) => negb (String.eqb s "")
  | Some (JArr _) => true
  | Some (JObj _) => true
  end.

(** ** types.ts *)

Inductive ErrorBundleSeverity := SevError | SevWarning | SevFatal.

Record ErrorBundleSource := mkSource {
  skillName : option string;
  agentId : option string;
  sessionKey : option string;
  cronJobId : option string;
  channel : option string
}.

Record ErrorBundleContext := mkContext {
  command : option string;
  workspaceDir : option string;
  environment : option (list (string * string));
  relatedFiles : option (list string);
  skillContent : option string
}.

Record ErrorBundleEntry := mkEntry {
  message : string;
  stack : option string;
  severity : ErrorBundleSeverity;
  code : option string
}.

Record ErrorBundleResolution := mkResolution {
  resolved : bool;
  action : string;
  modifiedFiles : option (list string);
  retryTriggered : bool
}.

Record ErrorBundle := mkBundle {
  id : string;
  createdAt : string;
  version : number;
  source : ErrorBundleSource;
  context : ErrorBundleContext;
  errors : list ErrorBundleEntry;
  retryCount : number;
  maxRetries : number;
  processed : bool;
  processedAt : option string;
  resolution : option ErrorBundleResolution
}.

Inductive ErrorFeedbackDaemonStatus := Running | Stopped | Error.

Record ErrorFeedbackDaemonState := mkState {
  status : ErrorFeedbackDaemonStatus;
  startedAt : option string;
  lastPollAt : option string;
  bundlesProcessed : Z;
  bundlesResolved : Z;
  bundlesFailed : Z;
  pid : option Z
}.

(** ** What [JSON.stringify] writes for a bundle

    A property whose value is [undefined] is left out; a number that is
    not finite is written as [null]. *)

Definition optField {A} (k : string) (enc : A -> json) (v : option A)
  : list (string * json) :=
  match v with
  | Some a => [(k, enc a)]
  | None => []
  end.

Definition jsonOfNumber (n : number) : json :=
  match n with
  | Finite _ => JNum n
  | _ => JNull
  end.

Definition jsonOfStrings (l : list string) : json := JArr (map JStr l).

Definition jsonOfRecord (l : list (string * string)) : json :=
  JObj (map (fun kv => (fst kv, JStr (snd kv))) l).

Definition jsonOfSeverity (s : ErrorBundleSeverity) : json :=
  match s with
  | SevError => JStr "error"
  | SevWarning => JStr "warning"
  | SevFatal => JStr "fatal"
  end.

Definition jsonOfSource (s : ErrorBundleSource) : json :=
  JObj (optField "skillName" JStr (skillName s)
        ++ optField "agentId" JStr (agentId s)
        ++ optField "sessionKey" JStr (sessionKey s)
        ++ optField "cronJobId" JStr (cronJobId s)
        ++ optField "channel" JStr (channel s)).

Definition jsonOfContext (c : ErrorBundleContext) : json :=
  JObj (optField "command" JStr (command c)
        ++ optField "workspaceDir" JStr (workspaceDir c)
        ++ optField "environment" jsonOfRecord (environment c)
        ++ optField "relatedFiles" jsonOfStrings (relatedFiles c)
        ++ optField "skillContent" JStr (skillContent c)).

Definition jsonOfEntry (e : ErrorBundleEntry) : json :=
  JObj (("message", JStr (message e))
        :: optField "stack" JStr (stack e)
        ++ ("severity", jsonOfSeverity (severity e))
        :: optField "code" JStr (code e)).

Definition jsonOfResolution (r : ErrorBundleResolution) : json :=
  JObj (("resolved", JBool (resolved r))
        :: ("action", JStr (action r))
        :: optField "modifiedFiles" jsonOfStrings (modifiedFiles r)
        ++ [("retryTriggered", JBool (retryTriggered r))]).

Definition jsonOfBundle (b : ErrorBundle) : json :=
  JObj (("id", JStr (id b))
        :: ("createdAt", JStr (createdAt b))
        :: ("version", jsonOfNumber (version b))
        :: ("source", jsonOfSource (source b))
        :: ("context", jsonOfContext (context b))
        :: ("errors", JArr (map jsonOfEntry (errors b)))
        :: ("retryCount", jsonOfNumber (retryCount b))
        :: ("maxRetries", jsonOfNumber (maxRetries b))
        :: ("processed", JBool (processed b))
        :: optField "processedAt" JStr (processedAt b)
        ++ optField "resolution" jsonOfResolution (resolution b)).

(** ** The parsed value seen through the [ErrorBundle] type

    [JSON.parse(raw) as ErrorBundle] is an unchecked cast.  The typed
    view below reads every declared property; it is defined on the values
    that have the declared shape, with finite numbers, and undefined
    ([None]) elsewhere. *)

Definition asString (v : json) : option string :=
  match v with JStr s => Some s | _ => None end.

Definition asNumber (v : json) : option number :=
  match v with
  | JNum n => if inRange n then Some n else None
  | _ => None
  end.

Definition asBoolean (v : json) : option bool :=
  match v with JBool b => Some b | _ => None end.

Definition asStrings (v : json) : option (list string) :=
  match v with JArr l => mapM asString l | _ => None end.

Definition asRecord (v : json) : option (list (string * string)) :=
  match v with
  | JObj fs => mapM (fun kv => s ← asString (snd kv); Some (fst kv, s)) fs
  | _ => None
  end.

Definition asSeverity (v : json) : option ErrorBundleSeverity :=
  match v with
  | JStr s =>
      if String.eqb s "error" then Some SevError
      else if String.eqb s "warning" then Some SevWarning
      else if String.eqb s "fatal" then Some SevFatal
      else None
  | _ => None
  end.

(** A required property. *)
Definition reqProp {A} (dec : json -> option A) (k : string) (j : json)
  : option A :=
  getProp k j ≫= dec.

(** An optional property: absent is [undefined]. *)
Definition optProp {A} (dec : json -> option A) (k : string) (j : json)
  : option (option A) :=
  match getProp k j with
  | None => Some None
  | Some v => Some <$> dec v
  end.

Definition asSource (j : json) : option ErrorBundleSource :=
  match j with
  | JObj _ =>
      a ← optProp asString "skillName" j;
      b ← optProp asString "agentId" j;
      c ← optProp asString "sessionKey" j;
      d ← optProp asString "cronJobId" j;
      e ← optProp asString "channel" j;
      Some (mkSource a b c d e)
  | _ => None
  end.

Definition asContext (j : json) : option ErrorBundleContext :=
  match j with
  | JObj _ =>
      a ← optProp asString "command" j;
      b ← optProp asString "workspaceDir" j;
      c ← optProp asRecord "environment" j;
      d ← optProp asStrings "relatedFiles" j;
      e ← optProp asString "skillContent" j;
      Some (mkContext a b c d e)
  | _ => None
  end.

Definition asEntry (j : json) : option ErrorBundleEntry :=
  a ← reqProp asString "message" j;
  b ← optProp asString "stack" j;
  c ← reqProp asSeverity "severity" j;
  d ← optProp asString "code" j;
  Some (mkEntry a b c d).

Definition asEntries (v : json) : option (list ErrorBundleEntry) :=
  match v with JArr l => mapM asEntry l | _ => None end.

Definition asResolution (j : json) : option ErrorBundleResolution :=
  a ← reqProp asBoolean "resolved" j;
  b ← reqProp asString "action" j;
  c ← optProp asStrings "modifiedFiles" j;
  d ← reqProp asBoolean "retryTriggered" j;
  Some (mkResolution a b c d).

Definition asErrorBundle (j : json) : option ErrorBundle :=
  a ← reqProp asString "id" j;
  b ← reqProp asString "createdAt" j;
  c ← reqProp asNumber "version" j;
  d ← reqProp asSource "source" j;
  e ← reqProp asContext "context" j;
  f ← reqProp asEntries "errors" j;
  g ← reqProp asNumber "retryCount" j;
  h ← reqProp asNumber "maxRetries" j;
  i ← reqProp asBoolean "processed" j;
  k ← optProp asString "processedAt" j;
  l ← optProp asResolution "resolution" j;
  Some (mkBundle a b c d e f g h i k l).

(** ** Environment and filesystem *)

(** Modelled from the spec: infra/errors.js ([formatErrorMessage],
    [extractErrorCode]) is not among the sources, and the spec asks only
    that a failure be described.  A thrown or reported value is
    represented by what the code reads from it: the text
    [formatErrorMessage] gives, its [stack] when it is an [Error], and
    the code [extractErrorCode] finds. *)
Record Thrown := mkThrown {
  thrownMessage : string;
  thrownStack : option string;
  thrownCode : option string
}.

Definition formatErrorMessage (err : Thrown) : string := thrownMessage err.
Definition extractErrorCode (err : Thrown) : option string := thrownCode err.

(** What [process.kill(pid, 0)] does: it returns when the process exists
    and may be signalled, and throws otherwise, with [ESRCH] when there
    is no such process and [EPERM] when the process exists and belongs
    to someone else. *)
Inductive KillResult := Signalled | ESRCH | EPERM.

Record Env := mkEnv {
  (** the n-th value of [new Date().toISOString()] *)
  clockAt : nat -> string;
  (** the n-th value of [randomUUID()] *)
  uuidAt : nat -> string;
  (** [process.pid] *)
  processPid : Z;
  (** [process.kill(pid, 0)] *)
  processKill : Z -> KillResult;
  (** [chokidar.watch] returns a watcher *)
  watcherAvailable : bool
}.

(** [process.kill(pid, 0)] returns normally. *)
Definition processAlive (env : Env) (p : Z) : bool :=
  match processKill env p with
  | Signalled => true
  | _ => false
  end.

(** A process with this id exists. *)
Definition processExists (env : Env) (p : Z) : bool :=
  match processKill env p with
  | ESRCH => false
  | _ => true
  end.

Inductive FileContent :=
| Unparseable (raw : string)
| Json (j : json).

Record World := mkWorld {
  pendingDir : gmap string FileContent;
  processedDir : gmap string FileContent;
  invalidDir : gmap string FileContent;
  (** the daemon state file; [None] when missing or unreadable *)
  stateFile : option ErrorFeedbackDaemonState;
  (** clock readings and UUIDs drawn so far *)
  ticks : nat;
  uuids : nat;
  (** ghost: the files a batch loop has picked up, oldest first *)
  visited : list string
}.

Definition setPending (p : gmap string FileContent) (w : World) : World :=
  mkWorld p (processedDir w) (invalidDir w) (stateFile w) (ticks w) (uuids w)
          (visited w).

Definition setProcessed (p : gmap string FileContent) (w : World) : World :=
  mkWorld (pendingDir w) p (invalidDir w) (stateFile w) (ticks w) (uuids w)
          (visited w).

Definition setInvalid (p : gmap string FileContent) (w : World) : World :=
  mkWorld (pendingDir w) (processedDir w) p (stateFile w) (ticks w) (uuids w)
          (visited w).

Definition setStateFile (s : option ErrorFeedbackDaemonState) (w : World)
  : World :=
  mkWorld (pendingDir w) (processedDir w) (invalidDir w) s (ticks w) (uuids w)
          (visited w).

Definition visit (name : string) (w : World) : World :=
  mkWorld (pendingDir w) (processedDir w) (invalidDir w) (stateFile w)
          (ticks w) (uuids w) (visited w ++ [name]).

(** [new Date().toISOString()] *)
Definition now (env : Env) (w : World) : string * World :=
  (clockAt env (ticks w),
   mkWorld (pendingDir w) (processedDir w) (invalidDir w) (stateFile w)
           (S (ticks w)) (uuids w) (visited w)).

(** [randomUUID()] *)
Definition randomUUID (env : Env) (w : World) : string * World :=
  (uuidAt env (uuids w),
   mkWorld (pendingDir w) (processedDir w) (invalidDir w) (stateFile w)
           (ticks w) (S (uuids w)) (visited w)).

(** [fs.rename] inside one directory; a missing source fails and leaves
    the directory as it is. *)
Definition renameIn (src dst : string) (dir : gmap string FileContent)
  : gmap string FileContent :=
  match dir !! src with
  | Some c => <[dst := c]> (delete src dir)
  | None => dir
  end.

(** ** paths.ts *)

Definition buildBundleFilename (bundleId : string) : string :=
  "error-" +:+ bundleId +:+ ".json".

(** ** bundle-writer.ts *)

Definition DEFAULT_MAX_RETRIES : number := 3.

Record RawError := mkRawError {
  error : Thrown;
  rawSeverity : option ErrorBundleSeverity
}.

Record WriteErrorBundleParams := mkParams {
  paramSource : ErrorBundleSource;
  paramContext : option ErrorBundleContext;
  paramErrors : list RawError;
  paramMaxRetries : option number
}.

Definition toErrorEntry (raw : RawError) : ErrorBundleEntry :=
  let err := error raw in
  mkEntry (formatErrorMessage err) (thrownStack err)
          (default SevError (rawSeverity raw)) (extractErrorCode err).

Definition writeErrorBundle (env : Env) (params : WriteErrorBundleParams)
    (w : World) : ErrorBundle * World :=
  let '(ident, w) := randomUUID env w in
  let '(stamp, w) := now env w in
  let entries := map toErrorEntry (paramErrors params) in
  let bundle :=
    mkBundle ident stamp 1 (paramSource params)
      (mkContext (paramContext params ≫= command)
                 (paramContext params ≫= workspaceDir)
                 (paramContext params ≫= environment)
                 (paramContext params ≫= relatedFiles)
                 (paramContext params ≫= skillContent))
      entries 0 (default DEFAULT_MAX_RETRIES (paramMaxRetries params))
      false None None in
  let filePath := buildBundleFilename ident in
  let '(u, w) := randomUUID env w in
  let tmpPath := filePath +:+ "." +:+ u +:+ ".tmp" in
  let w := setPending (<[tmpPath := Json (jsonOfBundle bundle)]> (pendingDir w)) w in
  let w := setPending (renameIn tmpPath filePath (pendingDir w)) w in
  (bundle, w).

(** The test of [readErrorBundle] on the parsed value:
    [!parsed.id || parsed.version !== 1]. *)
Definition isVersionOne (v : option json) : bool :=
  match v with
  | Some (JNum n) => jsStrictEq n 1
  | _ => false
  end.

Definition rejected (j : json) : bool :=
  negb (truthy (getProp "id" j)) || negb (isVersionOne (getProp "version" j)).

(** The value that [readErrorBundle(filePath)] returns for a file of
    directory [dir]; [None] is [null].  A parsed value that passes the
    test is returned as it is, unchecked; reading a property of a parsed
    [null] throws, which the [catch] turns into [null]. *)
Definition readErrorBundleValue (dir : gmap string FileContent)
    (name : string) : option json :=
  match dir !! name with
  | None => None
  | Some (Unparseable _) => None
  | Some (Json JNull) => None
  | Some (Json j) => if rejected j then None else Some j
  end.

(** The result of [readErrorBundle(filePath)] under the [ErrorBundle]
    type it is declared with.  The daemon is modelled on the values that
    have that shape (see [conventional]). *)
Definition readErrorBundle (dir : gmap string FileContent) (name : string)
  : option ErrorBundle :=
  readErrorBundleValue dir name ≫= asErrorBundle.

Definition startsWith (s p : string) : bool := String.prefix p s.

Definition endsWith (s p : string) : bool :=
  (String.length p <=? String.length s)%nat
  && String.eqb (String.substring (String.length s - String.length p)
                           (String.length p) s) p.

Definition isBundleName (name : string) : bool :=
  startsWith name "error-" && endsWith name ".json".

Fixpoint insertSorted (x : string) (l : list string) : list string :=
  match l with
  | [] => [x]
  | y :: rest => if String.leb x y then x :: l else y :: insertSorted x rest
  end.

(** [Array.prototype.sort()] on strings. *)
Definition sortNames (l : list string) : list string :=
  foldr insertSorted [] l.

Definition readdir (dir : gmap string FileContent) : list string :=
  fst <$> map_to_list dir.

Definition listPendingBundles (w : World) : list string :=
  sortNames (List.filter isBundleName (readdir (pendingDir w))).

(** ** daemon.ts *)

Definition MAX_BATCH_SIZE : nat := 10.

Inductive ProcessorResult :=
| Returns (r : ErrorBundleResolution)
| Throws (err : Thrown).

Definition ErrorBundleProcessor : Type := ErrorBundle -> ProcessorResult.

(** A notification handler returns ([None]) or throws ([Some err]). *)
Record ErrorFeedbackDaemonOptions := mkOptions {
  pollIntervalMs : option Z;
  processor : option ErrorBundleProcessor;
  onBundleProcessed :
    option (ErrorBundle -> ErrorBundleResolution -> option Thrown);
  onProcessError : option (ErrorBundle -> Thrown -> option Thrown)
}.

(** The console output of the default processor is not modelled. *)
Definition defaultProcessor : ErrorBundleProcessor :=
  fun bundle =>
    Returns (mkResolution false "relayed to Claude Code for analysis" None
                          (jsLt (retryCount bundle) (maxRetries bundle))).

Record ErrorFeedbackDaemon := mkDaemon {
  watcher : bool;
  pollTimer : bool;
  debounceTimer : bool;
  processing : bool;
  state : ErrorFeedbackDaemonState;
  options : ErrorFeedbackDaemonOptions;
  stopped : bool
}.

(** [this.processor = options.processor ?? defaultProcessor] *)
Definition processorOf (d : ErrorFeedbackDaemon) : ErrorBundleProcessor :=
  default defaultProcessor (processor (options d)).

Definition newDaemon (opts : ErrorFeedbackDaemonOptions) : ErrorFeedbackDaemon :=
  mkDaemon false false false false (mkState Stopped None None 0 0 0 None)
           opts false.

Definition setState (s : ErrorFeedbackDaemonState) (d : ErrorFeedbackDaemon)
  : ErrorFeedbackDaemon :=
  mkDaemon (watcher d) (pollTimer d) (debounceTimer d) (processing d) s
           (options d) (stopped d).

Definition setProcessing (p : bool) (d : ErrorFeedbackDaemon)
  : ErrorFeedbackDaemon :=
  mkDaemon (watcher d) (pollTimer d) (debounceTimer d) p (state d)
           (options d) (stopped d).

Definition setDebounce (t : bool) (d : ErrorFeedbackDaemon)
  : ErrorFeedbackDaemon :=
  mkDaemon (watcher d) (pollTimer d) t (processing d) (state d)
           (options d) (stopped d).

Definition withStatus (st : ErrorFeedbackDaemonStatus)
    (s : ErrorFeedbackDaemonState) : ErrorFeedbackDaemonState :=
  mkState st (startedAt s) (lastPollAt s) (bundlesProcessed s)
          (bundlesResolved s) (bundlesFailed s) (pid s).

Definition withLastPollAt (t : string) (s : ErrorFeedbackDaemonState)
  : ErrorFeedbackDaemonState :=
  mkState (status s) (startedAt s) (Some t) (bundlesProcessed s)
          (bundlesResolved s) (bundlesFailed s) (pid s).

Definition incProcessed (s : ErrorFeedbackDaemonState)
  : ErrorFeedbackDaemonState :=
  mkState (status s) (startedAt s) (lastPollAt s) (bundlesProcessed s + 1)
          (bundlesResolved s) (bundlesFailed s) (pid s).

Definition incResolved (s : ErrorFeedbackDaemonState)
  : ErrorFeedbackDaemonState :=
  mkState (status s) (startedAt s) (lastPollAt s) (bundlesProcessed s)
          (bundlesResolved s + 1) (bundlesFailed s) (pid s).

Definition incFailed (s : ErrorFeedbackDaemonState)
  : ErrorFeedbackDaemonState :=
  mkState (status s) (startedAt s) (lastPollAt s) (bundlesProcessed s)
          (bundlesResolved s) (bundlesFailed s + 1) (pid s).

Definition withResolution (r : ErrorBundleResolution) (b : ErrorBundle)
  : ErrorBundle :=
  mkBundle (id b) (createdAt b) (version b) (source b) (context b) (errors b)
           (retryCount b) (maxRetries b) (processed b) (processedAt b)
           (Some r).

(** [bundle.retryCount += 1] *)
Definition incRetryCount (b : ErrorBundle) : ErrorBundle :=
  mkBundle (id b) (createdAt b) (version b) (source b) (context b) (errors b)
           (jsAdd (retryCount b) 1) (maxRetries b) (processed b)
           (processedAt b) (resolution b).

(** [{ ...bundle, processed: true, processedAt: stamp }] *)
Definition stampProcessed (stamp : string) (b : ErrorBundle) : ErrorBundle :=
  mkBundle (id b) (createdAt b) (version b) (source b) (context b) (errors b)
           (retryCount b) (maxRetries b) true (Some stamp) (resolution b).

(** Writes the stamped bundle into [processed], then unlinks the pending
    file of the same identifier (a missing file is ignored). *)
Definition moveBundleToProcessed (env : Env) (bundle : ErrorBundle)
    (w : World) : World :=
  let name := buildBundleFilename (id bundle) in
  let '(stamp, w) := now env w in
  let updated := stampProcessed stamp bundle in
  let w := setProcessed (<[name := Json (jsonOfBundle updated)]> (processedDir w)) w in
  setPending (delete name (pendingDir w)) w.

Definition persistState (d : ErrorFeedbackDaemon) (w : World) : World :=
  setStateFile (Some (state d)) w.

(** The result of a step that may let an exception escape. *)
Definition Outcome : Type := ErrorFeedbackDaemon * World * option Thrown.

(** The [catch] block of [processBundle]; an exception of the
    [onProcessError] handler escapes it. *)
Definition processBundleCatch (env : Env) (bundle : ErrorBundle) (err : Thrown)
    (d : ErrorFeedbackDaemon) (w : World) : Outcome :=
  let d := setState (incFailed (state d)) d in
  match onProcessError (options d) ≫= (fun h => h bundle err) with
  | Some escaped => (d, w, Some escaped)
  | None =>
      let bundle :=
        withResolution
          (mkResolution false ("processing failed: " +:+ formatErrorMessage err)
                        None false) bundle in
      (d, moveBundleToProcessed env bundle w, None)
  end.

(** The end of the [try] block of [processBundle]: the move to
    [processed] and the [onBundleProcessed] notification, whose exception
    is caught like one of the processor. *)
Definition processBundleMove (env : Env) (bundle : ErrorBundle)
    (res : ErrorBundleResolution) (d : ErrorFeedbackDaemon) (w : World)
  : Outcome :=
  let w := moveBundleToProcessed env bundle w in
  match onBundleProcessed (options d) ≫= (fun h => h bundle res) with
  | Some err => processBundleCatch env bundle err d w
  | None => (d, w, None)
  end.

Definition processBundle (env : Env) (bundle : ErrorBundle)
    (d : ErrorFeedbackDaemon) (w : World) : Outcome :=
  match processorOf d bundle with
  | Throws err => processBundleCatch env bundle err d w
  | Returns res =>
      let bundle := withResolution res bundle in
      let d := setState (incProcessed (state d)) d in
      if resolved res then
        processBundleMove env bundle res (setState (incResolved (state d)) d) w
      else if retryTriggered res && jsLt (retryCount bundle) (maxRetries bundle)
      then
        let bundle := incRetryCount bundle in
        let pendingPath := buildBundleFilename (id bundle) in
        (d,
         setPending (<[pendingPath := Json (jsonOfBundle bundle)]> (pendingDir w)) w,
         None)
      else
        processBundleMove env bundle res (setState (incFailed (state d)) d) w
  end.

(** [fs.rename(filePath, invalid/basename).catch(() => {})] *)
Definition quarantine (filePath : string) (w : World) : World :=
  match pendingDir w !! filePath with
  | Some c =>
      setPending (delete filePath (pendingDir w))
        (setInvalid (<[filePath := c]> (invalidDir w)) w)
  | None => w
  end.

(** The body of the batch loop for one file. *)
Definition processFile (env : Env) (filePath : string)
    (d : ErrorFeedbackDaemon) (w : World) : Outcome :=
  let w := visit filePath w in
  match readErrorBundle (pendingDir w) filePath with
  | None => (d, quarantine filePath w, None)
  | Some bundle =>
      if processed bundle then (d, moveBundleToProcessed env bundle w, None)
      else processBundle env bundle d w
  end.

(** [stop()] *)
Definition stop (d : ErrorFeedbackDaemon) (w : World)
  : ErrorFeedbackDaemon * World :=
  let d := mkDaemon false false false (processing d)
                    (withStatus Stopped (state d)) (options d) true in
  (d, persistState d w).

(** One turn of the [for] loop of [processBatch].  The run is suspended
    while a file is processed (file operations, the processor, the pause
    between two bundles), and [stop()] can be called meanwhile:
    [stopAt = Some i] places that call in the [i]-th turn. *)
Definition turn (env : Env) (stopAt : option nat) (i : nat)
    (filePath : string) (d : ErrorFeedbackDaemon) (w : World) : Outcome :=
  let '(d, w, thrown) := processFile env filePath d w in
  let '(d, w) := if decide (stopAt = Some i) then stop d w else (d, w) in
  (d, w, thrown).

(** The [for] loop of [processBatch]; an escaped exception ends it. *)
Fixpoint batchLoop (env : Env) (stopAt : option nat) (i : nat)
    (batch : list string) (d : ErrorFeedbackDaemon) (w : World) : Outcome :=
  match batch with
  | [] => (d, w, None)
  | filePath :: rest =>
      if stopped d then (d, w, None)
      else
        let '(d, w, thrown) := turn env stopAt i filePath d w in
        match thrown with
        | Some err => (d, w, Some err)
        | None => batchLoop env stopAt (S i) rest d w
        end
  end.

Definition processBatch (env : Env) (stopAt : option nat)
    (d : ErrorFeedbackDaemon) (w : World) : ErrorFeedbackDaemon * World :=
  if processing d || stopped d then (d, w)
  else
    let d := setProcessing true d in
    let '(stamp, w) := now env w in
    let d := setState (withLastPollAt stamp (state d)) d in
    let pendingFiles := listPendingBundles w in
    let batch := take MAX_BATCH_SIZE pendingFiles in
    let '(d, w, thrown) := batchLoop env stopAt 0 batch d w in
    let d :=
      match thrown with
      | Some _ => setState (withStatus Error (state d)) d
      | None => d
      end in
    let d := setProcessing false d in
    (d, persistState d w).

Definition scheduleBatch (d : ErrorFeedbackDaemon) : ErrorFeedbackDaemon :=
  if stopped d then d else setDebounce true d.

(** The debounce timer fires. *)
Definition debounceFires (env : Env) (stopAt : option nat)
    (d : ErrorFeedbackDaemon) (w : World) : ErrorFeedbackDaemon * World :=
  if debounceTimer d then processBatch env stopAt (setDebounce false d) w
  else (d, w).

(** The poll timer fires. *)
Definition pollFires (d : ErrorFeedbackDaemon) : ErrorFeedbackDaemon :=
  if pollTimer d then scheduleBatch d else d.

(** The watcher reports an added or changed file. *)
Definition watcherFires (filePath : string) (d : ErrorFeedbackDaemon)
  : ErrorFeedbackDaemon :=
  if watcher d && endsWith filePath ".json" then scheduleBatch d else d.

Definition isRunning (st : ErrorFeedbackDaemonStatus) : bool :=
  match st with Running => true | _ => false end.

(** [start()] *)
Definition start (env : Env) (d : ErrorFeedbackDaemon) (w : World)
  : ErrorFeedbackDaemon * World :=
  if isRunning (status (state d)) then (d, w)
  else
    let '(stamp, w) := now env w in
    let st := mkState Running (Some stamp) None 0 0 0 (Some (processPid env)) in
    let d := mkDaemon (watcher d) (pollTimer d) (debounceTimer d)
                      (processing d) st (options d) false in
    let w := persistState d w in
    let d := mkDaemon (watcherAvailable env || watcher d) true
                      (debounceTimer d) (processing d) (state d) (options d)
                      (stopped d) in
    (scheduleBatch d, w).

Definition getState (d : ErrorFeedbackDaemon) : ErrorFeedbackDaemonState :=
  state d.

Definition readDaemonState (w : World) : option ErrorFeedbackDaemonState :=
  stateFile w.

(** ** lifecycle.ts

    [activeDaemon] is the module variable holding the in-process
    instance. *)

Definition startErrorFeedbackDaemon (env : Env)
    (opts : ErrorFeedbackDaemonOptions)
    (activeDaemon : option ErrorFeedbackDaemon) (w : World)
  : option ErrorFeedbackDaemon * World :=
  match activeDaemon with
  | Some d =>
      if isRunning (status (getState d)) then (Some d, w)
      else let '(d', w) := start env (newDaemon opts) w in (Some d', w)
  | None => let '(d', w) := start env (newDaemon opts) w in (Some d', w)
  end.

Definition stopErrorFeedbackDaemon
    (activeDaemon : option ErrorFeedbackDaemon) (w : World)
  : option ErrorFeedbackDaemon * World :=
  match activeDaemon with
  | None => (None, w)
  | Some d => let '(_, w) := stop d w in (None, w)
  end.

(** [persisted.pid] as a condition: a recorded, non-zero number. *)
Definition pidTruthy (p : option Z) : bool :=
  match p with
  | Some n => negb (n =? 0)%Z
  | None => false
  end.

Definition getErrorFeedbackDaemonStatus (env : Env)
    (activeDaemon : option ErrorFeedbackDaemon) (w : World)
  : ErrorFeedbackDaemonState * World :=
  match activeDaemon with
  | Some d => (getState d, w)
  | None =>
      match readDaemonState w with
      | Some persisted =>
          if isRunning (status persisted) && pidTruthy (pid persisted) then
            if processAlive env (default 0%Z (pid persisted))
            then (persisted, w)
            else (withStatus Stopped persisted, w)
          else (persisted, w)
      | None => (mkState Stopped None None 0 0 0 None, w)
      end
  end.

(** ** lifecycle.ts: pruning the processed directory *)

(** [7 * 24 * 60 * 60 * 1000] *)
Definition DEFAULT_MAX_AGE_MS : number :=
  jsMul (jsMul (jsMul (jsMul 7 24) 60) 60) 1000.

(** The file system as the cleanup sees it: [nowMs] is [Date.now()],
    [mtimeMs entry] is [stat.mtimeMs] of the entry, [None] when [fs.stat]
    throws, and [unlinkThrows entry] says that [fs.unlink] of the entry
    throws (a directory, a file that may not be removed). *)
Record CleanupFs := mkCleanupFs {
  nowMs : number;
  mtimeMs : string -> option number;
  unlinkThrows : string -> bool
}.

(** One entry of the [for] loop of [cleanupProcessedBundles]; an
    exception of [fs.stat] or [fs.unlink] is ignored, and an entry whose
    [fs.unlink] throws is neither removed nor counted. *)
Definition cleanupEntry (fs : CleanupFs) (maxAgeMs : number)
    (acc : nat * World) (entry : string) : nat * World :=
  let '(cleaned, w) := acc in
  if negb (endsWith entry ".json") then (cleaned, w)
  else
    match mtimeMs fs entry with
    | Some m =>
        if jsLt maxAgeMs (jsSub (nowMs fs) m)
        then
          if unlinkThrows fs entry then (cleaned, w)
          else (S cleaned, setProcessed (delete entry (processedDir w)) w)
        else (cleaned, w)
    | None => (cleaned, w)
    end.

(** [cleanupProcessedBundles(maxAgeMs = 7 days)]: the number of deleted
    files and the world afterwards. *)
Definition cleanupProcessedBundles (fs : CleanupFs) (maxAgeMs : option number)
    (w : World) : nat * World :=
  foldl (cleanupEntry fs (default DEFAULT_MAX_AGE_MS maxAgeMs))
        (0%nat, w) (readdir (processedDir w)).

(** [getActiveDaemon()] *)
Definition getActiveDaemon (activeDaemon : option ErrorFeedbackDaemon)
  : option ErrorFeedbackDaemon := activeDaemon.

(** ** emit-on-error.ts

    A failure of [writeErrorBundle] would be logged and swallowed; file
    operations succeed in the model, so the [catch] is never entered. *)

Record EmitErrorBundleParams := mkEmit {
  emitSource : ErrorBundleSource;
  emitContext : option ErrorBundleContext;
  emitError : Thrown;
  emitSeverity : option ErrorBundleSeverity
}.

Definition emitErrorBundle (env : Env) (params : EmitErrorBundleParams)
    (w : World) : World :=
  (writeErrorBundle env
     (mkParams (emitSource params) (emitContext params)
               [mkRawError (emitError params)
                           (Some (default SevError (emitSeverity params)))]
               None) w).2.

Record CronJobErrorParams := mkCronParams {
  cronJobIdParam : string;
  cronJobName : string;
  cronAgentId : option string;
  cronSessionKey : option string;
  cronMessage : option string;
  cronWorkspaceDir : option string;
  cronError : string
}.

(** [newError s] is what [new Error(s)] looks like to the writer. *)
Definition emitCronJobErrorBundle (env : Env) (newError : string -> Thrown)
    (params : CronJobErrorParams) (w : World) : World :=
  emitErrorBundle env
    (mkEmit (mkSource (Some (cronJobName params)) (cronAgentId params)
                      (cronSessionKey params) (Some (cronJobIdParam params))
                      None)
            (Some (mkContext (cronMessage params) (cronWorkspaceDir params)
                             None None None))
            (newError (cronError params)) None) w.

Record SkillErrorParams := mkSkillParams {
  skillNameParam : string;
  skillAgentId : option string;
  skillSessionKey : option string;
  skillWorkspaceDir : option string;
  skillCommand : option string;
  skillContentParam : option string;
  skillRelatedFiles : option (list string);
  skillError : Thrown;
  skillSeverity : option ErrorBundleSeverity
}.

Definition emitSkillErrorBundle (env : Env) (params : SkillErrorParams)
    (w : World) : World :=
  emitErrorBundle env
    (mkEmit (mkSource (Some (skillNameParam params)) (skillAgentId params)
                      (skillSessionKey params) None None)
            (Some (mkContext (skillCommand params) (skillWorkspaceDir params)
                             None (skillRelatedFiles params)
                             (skillContentParam params)))
            (skillError params) (skillSeverity params)) w.

(** ** commands/error-feedback.ts: the age limit of [cleanup] *)

(** [\d]: an ASCII digit. *)
Definition isDigit (c : ascii) : bool :=
  (48 <=? nat_of_ascii c)%nat && (nat_of_ascii c <=? 57)%nat.

Fixpoint allDigits (s : string) : bool :=
  match s with
  | EmptyString => true
  | String c rest => isDigit c && allDigits rest
  end.

(** The decimal value of a string of digits, [acc] being the value of
    the digits read so far. *)
Fixpoint parseDigits (acc : Z) (s : string) : Z :=
  match s with
  | EmptyString => acc
  | String c rest =>
      parseDigits (acc * 10 + (Z.of_nat (nat_of_ascii c) - 48))%Z rest
  end.

(** The string without its last character, and that character. *)
Fixpoint splitLast (s : string) : option (string * ascii) :=
  match s with
  | EmptyString => None
  | String c rest =>
      match splitLast rest with
      | None => Some (EmptyString, c)
      | Some (front, last) => Some (String c front, last)
      end
  end.

Definition isUnit (c : ascii) : bool :=
  Ascii.eqb c "d"%char || Ascii.eqb c "h"%char || Ascii.eqb c "m"%char.

(** [maxAge.match(/^(\d+)([dhm])$/)]: the two groups. *)
Definition matchMaxAge (s : string) : option (string * ascii) :=
  match splitLast s with
  | Some (digits, unit) =>
      if negb (String.eqb digits "") && allDigits digits && isUnit unit
      then Some (digits, unit)
      else None
  | None => None
  end.

(** [parseInt(s, 10)] on a string of digits: the number nearest to
    their decimal value.  (Past 20 significant digits the language lets
    an implementation drop digits before it rounds; the model rounds the
    exact value.) *)
Definition parseInt (s : string) : number := ofInteger (parseDigits 0 s).

(** The [maxAgeMs] that [cleanupBundles] computes from its option. *)
Definition parseMaxAge (maxAge : option string) : number :=
  match maxAge with
  | None => DEFAULT_MAX_AGE_MS
  | Some s =>
      if String.eqb s "" then DEFAULT_MAX_AGE_MS
      else
        match matchMaxAge s with
        | Some (digits, unit) =>
            let value := parseInt digits in
            if Ascii.eqb unit "d"%char
            then jsMul (jsMul (jsMul (jsMul value 24) 60) 60) 1000
            else if Ascii.eqb unit "h"%char
            then jsMul (jsMul (jsMul value 60) 60) 1000
            else if Ascii.eqb unit "m"%char then jsMul (jsMul value 60) 1000
            else DEFAULT_MAX_AGE_MS
        | None => DEFAULT_MAX_AGE_MS
        end
  end.

Definition cleanupBundles (fs : CleanupFs) (maxAge : option string)
    (w : World) : nat * World :=
  cleanupProcessedBundles fs (Some (parseMaxAge maxAge)) w.

(** * Vocabulary of the properties *)

(** A bundle as [readErrorBundle] accepts it: identifier present,
    schema version 1. *)
Definition validBundle (b : ErrorBundle) : Prop :=
  id b <> "" /\ version b = 1%Z.

(** The naming convention of the queue: a pending file that passes the
    test of [readErrorBundle] holds a value of the [ErrorBundle] shape
    and is named after its identifier ([error-<id>.json]).
    [writeErrorBundle] creates such files and the daemon keeps the
    directory that way. *)
Definition fileOk (name : string) (c : FileContent) : bool :=
  match c with
  | Unparseable _ => true
  | Json j =>
      rejected j
      || match asErrorBundle j with
         | Some b => String.eqb name (buildBundleFilename (id b))
         | None => false
         end
  end.

Definition conventional (dir : gmap string FileContent) : Prop :=
  map_Forall (fun name c => fileOk name c = true) dir.

(** The three directories hold the same thing under [name]. *)
Definition sameFile (name : string) (w w' : World) : Prop :=
  pendingDir w !! name = pendingDir w' !! name
  /\ processedDir w !! name = processedDir w' !! name
  /\ invalidDir w !! name = invalidDir w' !! name.

(** Only the files called [name] may differ. *)
Definition onlyAt (name : string) (w w' : World) : Prop :=
  forall g, g <> name -> sameFile g w w'.

(** The step leaves the configuration and the stop flag of the daemon
    and the visit log of the world alone. *)
Definition untouched (d d' : ErrorFeedbackDaemon) (w w' : World) : Prop :=
  options d' = options d /\ stopped d' = stopped d
  /\ visited w' = visited w.

(** The files visited between two worlds of a run. *)
Definition visitedDuring (w w' : World) : list string :=
  drop (length (visited w)) (visited w').

(** The daemon and the world with which a run enters its loop. *)
Definition enterBatch (env : Env) (d : ErrorFeedbackDaemon) (w : World)
  : ErrorFeedbackDaemon * World :=
  (setState (withLastPollAt (clockAt env (ticks w)) (state (setProcessing true d)))
            (setProcessing true d),
   (now env w).2).


(** What a file looks like once its bundle was moved. *)
Definition movedTo (w' : World) (f : string) (b : ErrorBundle) : Prop :=
  pendingDir w' !! f = None
  /\ processedDir w' !! f = Some (Json (jsonOfBundle b))
  /\ processed b = true.

(** The files a loop visits. *)
Definition visits (env : Env) (stopAt : option nat) (i : nat)
    (batch : list string) (d : ErrorFeedbackDaemon) (w : World) : list string :=
  visitedDuring w (batchLoop env stopAt i batch d w).1.2.





(** [y] is [x] increased by exactly 1. *)
Definition exactlyOneMore (x y : number) : Prop :=
  exists u, x = Finite u /\ y = Finite (u + UNIT).

(** Content that [readErrorBundle] turns down: text that does not parse,
    or a value whose [id] is missing (or otherwise falsy) or whose
    [version] is not the number 1. *)
Definition unreadable (c : FileContent) : Prop :=
  match c with
  | Unparseable _ => True
  | Json j =>
      truthy (getProp "id" j) = false \/ getProp "version" j <> Some (JNum 1)
  end.

(** [n] runs in a row, none of them interrupted. *)
Fixpoint runs (env : Env) (n : nat) (d : ErrorFeedbackDaemon) (w : World)
  : ErrorFeedbackDaemon * World :=
  match n with
  | O => (d, w)
  | S n => let '(d, w) := processBatch env None d w in runs env n d w
  end.

(** The names are in ascending order. *)
Definition ascending (l : list string) : Prop :=
  Sorted (fun a b => String.leb a b = true) l.

(** The number fields of a bundle are finite, as numbers in a JSON text
    are. *)
Definition finiteCounts (b : ErrorBundle) : Prop :=
  inRange (version b) = true /\ inRange (retryCount b) = true
  /\ inRange (maxRetries b) = true.

(** The retry ceiling that the caller gives, when it gives one, is a
    finite number. *)
Definition finiteMaxRetries (params : WriteErrorBundleParams) : Prop :=
  forall m, paramMaxRetries params = Some m -> inRange m = true.

(** The counts of a bundle are integers that doubles count exactly, and
    the bundle has used no more retries than it has. *)
Definition countsWithinBudget (b : ErrorBundle) : Prop :=
  exists r m : Z,
    retryCount b = r /\ maxRetries b = m
    /\ (- 2 ^ 53 <= r)%Z /\ (r <= m)%Z /\ (m <= 2 ^ 53)%Z.

(** Every readable pending bundle is within its budget. *)
Definition withinBudget (dir : gmap string FileContent) : Prop :=
  forall name b, readErrorBundle dir name = Some b -> countsWithinBudget b.


(** What the default processor answers while retries are left. *)
Definition relayed : ErrorBundleResolution :=
  mkResolution false "relayed to Claude Code for analysis" None true.

(** A processed entry is due for deletion: its name ends with ".json",
    its [stat] succeeds and its age exceeds the limit. *)
Definition expired (fs : CleanupFs) (maxAgeMs : number) (entry : string)
  : bool :=
  endsWith entry ".json"
  && match mtimeMs fs entry with
     | Some m => jsLt maxAgeMs (jsSub (nowMs fs) m)
     | None => false
     end.

(** The cleanup removes the entry: it is due and its [unlink] works. *)
Definition removable (fs : CleanupFs) (maxAgeMs : number) (entry : string)
  : bool :=
  expired fs maxAgeMs entry && negb (unlinkThrows fs entry).

(** A trigger of the scheduler: a tick of the poll timer or an event of
    the watcher for a path. *)
Inductive Trigger :=
| PollTick
| WatcherEvent (filePath : string).

Definition trigger (d : ErrorFeedbackDaemon) (t : Trigger)
  : ErrorFeedbackDaemon :=
  match t with
  | PollTick => pollFires d
  | WatcherEvent filePath => watcherFires filePath d
  end.

(** * Sample queues

    Concrete bundles, environments and queues on which the properties
    are exercised. *)

(** A fresh bundle with three retries. *)
Definition sampleBundle : ErrorBundle :=
  mkBundle "b1" "2026-01-01T00:00:00.000Z" 1
           (mkSource None None None None None)
           (mkContext None None None None None)
           [mkEntry "boom" None SevError None] 0 3 false None None.

Definition sampleEnv : Env :=
  mkEnv (fun n => if Nat.eqb n 0 then "2026-01-02T00:00:00.000Z"
                  else "2026-01-03T00:00:00.000Z")
        (fun n => if Nat.eqb n 0 then "u0" else "u1") 4242
        (fun p => if (p =? 4242)%Z then Signalled
                  else if (p =? 1)%Z then EPERM else ESRCH) true.

Definition emptyWorld : World := mkWorld ∅ ∅ ∅ None 0 0 [].

Definition noOptions : ErrorFeedbackDaemonOptions :=
  mkOptions None None None None.

(** A queue with the sample bundle as its only pending file. *)
Definition sampleWorld : World :=
  mkWorld {[ "error-b1.json" := Json (jsonOfBundle sampleBundle) ]} ∅ ∅ None
          0 0 [].

(** A pending file whose bundle is already marked processed. *)
Definition staleBundle : ErrorBundle :=
  mkBundle "b1" "2026-01-01T00:00:00.000Z" 1
           (mkSource None None None None None)
           (mkContext None None None None None)
           [mkEntry "boom" None SevError None] 1 3 true
           (Some "2026-01-01T12:00:00.000Z")
           (Some (mkResolution true "patched" None false)).

Definition staleWorld : World :=
  mkWorld {[ "error-b1.json" := Json (jsonOfBundle staleBundle) ]} ∅ ∅ None
          0 0 [].

Definition sampleBundle2 : ErrorBundle :=
  mkBundle "b2" "2026-01-01T00:00:01.000Z" 1
           (mkSource None None None None None)
           (mkContext None None None None None)
           [mkEntry "bang" None SevFatal None] 0 3 false None None.

(** Two pending bundles. *)
Definition twoWorld : World :=
  mkWorld (<[ "error-b2.json" := Json (jsonOfBundle sampleBundle2) ]>
             {[ "error-b1.json" := Json (jsonOfBundle sampleBundle) ]})
          ∅ ∅ None 0 0 [].

Definition sampleParams : WriteErrorBundleParams :=
  mkParams (mkSource (Some "deploy") None None None None)
           (Some (mkContext (Some "run") None (Some [("HOME", "/root")])
                            (Some ["a.ts"; "b.ts"]) None))
           [mkRawError (mkThrown "boom" (Some "Error: boom") (Some "ENOENT")) None]
           None.

(** A report that asks for retries without end. *)
Definition unboundedParams : WriteErrorBundleParams :=
  mkParams (mkSource (Some "deploy") None None None None) None
           [mkRawError (mkThrown "boom" None None) None]
           (Some (Infinity false)).

(** A state file left behind by a daemon whose process is gone. *)
Definition crashedState : ErrorFeedbackDaemonState :=
  mkState Running (Some "2026-01-01T00:00:00.000Z")
          (Some "2026-01-01T00:05:00.000Z") 5 3 2 (Some 999).

Definition crashedWorld : World := mkWorld ∅ ∅ ∅ (Some crashedState) 0 0 [].

(** A state file of a daemon that runs under another user: its process,
    number 1, exists, and the process that asks may not signal it. *)
Definition foreignState : ErrorFeedbackDaemonState :=
  mkState Running (Some "2026-01-01T00:00:00.000Z")
          (Some "2026-01-01T00:05:00.000Z") 5 3 2 (Some 1).

Definition foreignWorld : World := mkWorld ∅ ∅ ∅ (Some foreignState) 0 0 [].

(** A state file that records process id 0. *)
Definition unprobedState : ErrorFeedbackDaemonState :=
  mkState Running (Some "2026-01-01T00:00:00.000Z") None 0 0 0 (Some 0).

Definition unprobedWorld : World := mkWorld ∅ ∅ ∅ (Some unprobedState) 0 0 [].



(** A bundle whose retry count is too large to be counted up by 1. *)
Definition saturatedBundle : ErrorBundle :=
  mkBundle "b1" "2026-01-01T00:00:00.000Z" 1
           (mkSource None None None None None)
           (mkContext None None None None None)
           [mkEntry "boom" None SevError None]
           9007199254740992 9007199254740994 false None None.

Definition saturatedWorld : World :=
  mkWorld {[ "error-b1.json" := Json (jsonOfBundle saturatedBundle) ]} ∅ ∅ None
          0 0 [].

Definition retryAlways : ErrorBundleProcessor :=
  fun _ => Returns (mkResolution false "try again" None true).

Definition retryOptions : ErrorFeedbackDaemonOptions :=
  mkOptions None (Some retryAlways) None None.





(** A pending file of schema version 2. *)
Definition futureContent : FileContent :=
  Json (JObj [("id", JStr "b9"); ("version", JNum 2)]).

Definition futureWorld : World :=
  mkWorld {[ "error-b9.json" := futureContent ]} ∅ ∅ None 0 0 [].

Definition noRetryBundle (ident : string) : ErrorBundle :=
  mkBundle ident "2026-01-01T00:00:00.000Z" 1
           (mkSource None None None None None)
           (mkContext None None None None None)
           [mkEntry "boom" None SevError None] 0 0 false None None.

Definition threeWorld : World :=
  mkWorld (<[ "error-c.json" := Json (jsonOfBundle (noRetryBundle "c")) ]>
          (<[ "error-b.json" := Json (jsonOfBundle (noRetryBundle "b")) ]>
          {[ "error-a.json" := Json (jsonOfBundle (noRetryBundle "a")) ]}))
          ∅ ∅ None 0 0 [].

(** Twelve pending bundles, two more than a batch takes. *)
Definition crowdedWorld : World :=
  mkWorld
    (list_to_map
       (map (fun ident => (buildBundleFilename ident,
                           Json (jsonOfBundle (noRetryBundle ident))))
            ["01"; "02"; "03"; "04"; "05"; "06"; "07"; "08"; "09"; "10";
             "11"; "12"]))
    ∅ ∅ None 0 0 [].

Definition giveUp : ErrorBundleProcessor :=
  fun _ => Returns (mkResolution false "no idea" None false).

(** * Properties *)

(** ** Arithmetic of the numbers *)

Lemma UNIT_pos : (0 < UNIT)%Z.
Proof. unfold UNIT. apply Z.pow_pos_nonneg; lia. Qed.

(** Rounding changes nothing when the dropped bits are zero. *)
Lemma roundShift_div a sh :
  (0 <= sh)%Z -> (a mod 2 ^ sh = 0)%Z -> roundShift a sh = (a / 2 ^ sh)%Z.
Proof.
  intros Hsh Hm. unfold roundShift.
  destruct (sh <=? 0)%Z eqn:H0.
  - apply Z.leb_le in H0. assert (sh = 0)%Z as -> by lia.
    rewrite Z.pow_0_r, Z.div_1_r. reflexivity.
  - apply Z.leb_gt in H0. cbn zeta. rewrite Hm.
    assert (0 < 2 ^ (sh - 1))%Z as Hh by (apply Z.pow_pos_nonneg; lia).
    apply Z.ltb_lt in Hh. rewrite Hh. reflexivity.
Qed.

(** Rounding goes to one of the two neighbours, and up only from the
    upper half. *)
Lemma roundShift_cases a sh :
  (0 < sh)%Z ->
  roundShift a sh = (a / 2 ^ sh)%Z
  \/ (roundShift a sh = (a / 2 ^ sh + 1)%Z
      /\ (2 ^ (sh - 1) <= a mod 2 ^ sh)%Z).
Proof.
  intros Hsh. unfold roundShift.
  destruct (Z.leb_spec sh 0); [lia|]. cbn zeta.
  destruct (Z.ltb_spec (a mod 2 ^ sh) (2 ^ (sh - 1))); [left; reflexivity|].
  destruct (2 ^ (sh - 1) <? a mod 2 ^ sh)%Z;
    [right; split; [reflexivity|assumption]|].
  destruct (Z.even (a / 2 ^ sh)); [left; reflexivity|].
  right. split; [reflexivity|assumption].
Qed.

(** A magnitude [c * 2^t] with [c] below [2^53] is kept as it is. *)
Lemma roundMagnitude_exact s c t k :
  (0 < c < 2 ^ 53)%Z -> (0 <= k <= t)%Z -> (c * 2 ^ (t - k) <= MAX_VALUE)%Z ->
  roundMagnitude s (c * 2 ^ t) k
  = Finite (if s then - (c * 2 ^ (t - k)) else c * 2 ^ (t - k))%Z.
Proof.
  intros Hc Hk Hmax. unfold roundMagnitude.
  rewrite Z.log2_mul_pow2 by lia.
  assert (Z.log2 c < 53)%Z as Hl by (apply Z.log2_lt_pow2; lia).
  pose proof (Z.log2_nonneg c) as Hl0.
  set (sh := Z.max k (t + Z.log2 c + 1 - 53)).
  assert (k <= sh <= t)%Z as Hsh by (subst sh; lia).
  assert (c * 2 ^ t = c * 2 ^ (t - sh) * 2 ^ sh)%Z as Hsplit.
  { rewrite <- Z.mul_assoc, <- Z.pow_add_r by lia. f_equal. f_equal. lia. }
  assert (0 < 2 ^ sh)%Z as Hp by (apply Z.pow_pos_nonneg; lia).
  rewrite roundShift_div; [|lia|].
  2:{ rewrite Hsplit. apply Z_mod_mult. }
  assert (c * 2 ^ t / 2 ^ sh * 2 ^ (sh - k) = c * 2 ^ (t - k))%Z as ->.
  { rewrite Hsplit, Z.div_mul by lia.
    rewrite <- Z.mul_assoc, <- Z.pow_add_r by lia. f_equal. f_equal. lia. }
  apply Z.ltb_ge in Hmax. rewrite Hmax. reflexivity.
Qed.

Lemma MAX_VALUE_bound c : (0 <= c <= 2 ^ 53)%Z -> (c * UNIT <= MAX_VALUE)%Z.
Proof.
  intros Hc. unfold MAX_VALUE, UNIT.
  replace (2 ^ 2045)%Z with (2 ^ 971 * 2 ^ 1074)%Z
    by (rewrite <- Z.pow_add_r by lia; reflexivity).
  rewrite Z.mul_assoc. apply Z.mul_le_mono_nonneg_r; [apply Z.pow_nonneg; lia|].
  assert (2 ^ 53 <= (2 ^ 53 - 1) * 2 ^ 971)%Z; [|lia].
  change (2 ^ 971)%Z with (2 * 2 ^ 970)%Z.
  assert (0 < 2 ^ 970)%Z by (apply Z.pow_pos_nonneg; lia).
  assert (2 <= 2 ^ 53)%Z
    by (change 2%Z with (2 ^ 1)%Z at 1; apply Z.pow_le_mono_r; lia).
  nia.
Qed.

(** The product [n * 2^-1074 * 2^-k'] of an integer [n] of at most 53
    bits, given with [t - 1074] extra binary places, is the number [n]. *)
Lemma roundUnits_integer n t :
  (- 2 ^ 53 <= n <= 2 ^ 53)%Z -> (1074 <= t)%Z ->
  roundUnits (n * 2 ^ t) (t - 1074) = num n.
Proof.
  intros Hn Ht. unfold roundUnits, num.
  assert (0 < 2 ^ t)%Z as HU by (apply Z.pow_pos_nonneg; lia).
  assert (roundMagnitude false 0 (t - 1074) = Finite 0) as Hzero.
  { unfold roundMagnitude. change (Z.log2 0) with 0%Z.
    replace (Z.max (t - 1074) (0 + 1 - 53)) with (t - 1074)%Z by lia.
    rewrite roundShift_div; [|lia|apply Z.mod_0_l; apply Z.pow_nonzero; lia].
    rewrite Z.div_0_l by (apply Z.pow_nonzero; lia). reflexivity. }
  destruct (Z.eq_dec n 0) as [->|Hne]; [exact Hzero|].
  assert (Z.abs (n * 2 ^ t) = Z.abs n * 2 ^ t)%Z as ->
      by (rewrite Z.abs_mul; lia).
  assert ((n * 2 ^ t <? 0) = (n <? 0))%Z as ->.
  { destruct (Z.ltb_spec n 0); [apply Z.ltb_lt|apply Z.ltb_ge]; nia. }
  assert (forall c e, (0 < c < 2 ^ 53)%Z -> (0 <= e)%Z -> Z.abs n = (c * 2 ^ e)%Z ->
            roundMagnitude (n <? 0)%Z (Z.abs n * 2 ^ t) (t - 1074)
            = Finite (n * UNIT)) as Hgo.
  { intros c e Hc He Heq.
    assert (Z.abs n * 2 ^ t = c * 2 ^ (e + t))%Z as ->.
    { rewrite Heq, Z.pow_add_r by lia. ring. }
    assert (c * 2 ^ (e + t - (t - 1074)) = Z.abs n * UNIT)%Z as Hval.
    { rewrite Heq. unfold UNIT. rewrite <- Z.mul_assoc, <- Z.pow_add_r by lia.
      f_equal. f_equal. lia. }
    rewrite (roundMagnitude_exact (n <? 0)%Z c (e + t) (t - 1074) Hc); [|lia|].
    - rewrite Hval. destruct (Z.ltb_spec n 0); f_equal; lia.
    - rewrite Hval. apply MAX_VALUE_bound. lia. }
  destruct (Z.eq_dec (Z.abs n) (2 ^ 53)) as [He|He].
  - apply (Hgo 1%Z 53%Z); [|lia|lia].
    split; [lia|]. change 1%Z with (2 ^ 0)%Z. apply Z.pow_lt_mono_r; lia.
  - apply (Hgo (Z.abs n) 0%Z); [lia|lia|]. rewrite Z.pow_0_r. lia.
Qed.

(** The integers from [-2^53] to [2^53] are doubles, and [parseInt]
    reads them exactly. *)
Lemma ofInteger_num n : (- 2 ^ 53 <= n <= 2 ^ 53)%Z -> ofInteger n = num n.
Proof.
  intros Hn. unfold ofInteger, UNIT.
  apply (roundUnits_integer n 1074 Hn). lia.
Qed.

(** Sums of integers are exact while they stay from [-2^53] to [2^53]. *)
Lemma jsAdd_num n m :
  (- 2 ^ 53 <= n + m <= 2 ^ 53)%Z -> jsAdd (num n) (num m) = num (n + m).
Proof.
  intros H.
  change (jsAdd (num n) (num m)) with (roundUnits (n * UNIT + m * UNIT) 0).
  rewrite <- Z.mul_add_distr_r. apply (ofInteger_num _ H).
Qed.

(** So are products. *)
Lemma jsMul_num n m :
  (- 2 ^ 53 <= n * m <= 2 ^ 53)%Z -> jsMul (num n) (num m) = num (n * m).
Proof.
  intros H.
  change (jsMul (num n) (num m))
    with (roundUnits (n * UNIT * (m * UNIT)) (2148 - 1074)).
  replace (n * UNIT * (m * UNIT))%Z with (n * m * 2 ^ 2148)%Z.
  - apply (roundUnits_integer _ 2148 H). lia.
  - unfold UNIT. replace (2 ^ 2148)%Z with (2 ^ 1074 * 2 ^ 1074)%Z; [ring|].
    rewrite <- Z.pow_add_r by lia. reflexivity.
Qed.

Lemma jsLt_num n m : jsLt (num n) (num m) = (n <? m)%Z.
Proof.
  unfold jsLt, num. pose proof UNIT_pos.
  destruct (Z.ltb_spec n m); [apply Z.ltb_lt|apply Z.ltb_ge]; nia.
Qed.


Lemma num_inj n m : num n = num m -> n = m.
Proof.
  unfold num. intros H. injection H as H. pose proof UNIT_pos. nia.
Qed.

Lemma inRange_num n : (- 2 ^ 53 <= n <= 2 ^ 53)%Z -> inRange (num n) = true.
Proof.
  intros Hn. unfold inRange, num. apply Z.leb_le.
  rewrite Z.abs_mul, (Z.abs_eq UNIT) by (pose proof UNIT_pos; lia).
  apply MAX_VALUE_bound. lia.
Qed.

Lemma jsStrictEq_eq x y : jsStrictEq x y = true -> x = y.
Proof.
  destruct x as [|s|u], y as [|t|v]; try discriminate; cbn [jsStrictEq].
  - intros H. apply Bool.eqb_prop in H. congruence.
  - intros H. apply Z.eqb_eq in H. congruence.
Qed.

(** Rounding a magnitude of at most [MAX_VALUE + 1] does not overflow. *)
Lemma roundMagnitude_range s a :
  (0 <= a <= MAX_VALUE + UNIT)%Z ->
  exists a', roundMagnitude s a 0 = Finite (if s then - a' else a')%Z
             /\ (0 <= a' <= MAX_VALUE)%Z.
Proof.
  intros Ha. unfold roundMagnitude.
  set (sh := Z.max 0 (Z.log2 a + 1 - 53)). rewrite Z.sub_0_r.
  assert (0 <= roundShift a sh * 2 ^ sh <= MAX_VALUE)%Z as Hb.
  { assert (2 ^ 53 <= MAX_VALUE)%Z as H53 by (vm_compute; discriminate).
    destruct (Z.eq_dec sh 0) as [Hz|Hz].
    - rewrite Hz. unfold roundShift. cbn [Z.leb Z.compare]. rewrite Z.mul_1_r.
      destruct (Z.eq_dec a 0) as [->|Hne]; [lia|].
      assert (Z.log2 a < 53)%Z as Hl by lia.
      apply Z.log2_lt_pow2 in Hl; lia.
    - assert (0 < a)%Z as Hpos.
      { destruct (Z.eq_dec a 0) as [->|]; [|lia]. subst sh. cbn in Hz. lia. }
      assert (sh = Z.log2 a - 52)%Z as Hsh by lia.
      assert (0 < sh)%Z as Hsh0 by lia.
      assert (a < 2 ^ 2098)%Z as Htop.
      { assert (MAX_VALUE + UNIT < 2 ^ 2098)%Z by (vm_compute; reflexivity).
        lia. }
      assert (sh <= 2045)%Z as Hsh1.
      { apply Z.log2_lt_pow2 in Htop; lia. }
      pose proof (Z.log2_spec a Hpos) as [Hlo Hhi].
      assert (0 < 2 ^ sh)%Z as Hp by (apply Z.pow_pos_nonneg; lia).
      assert (2 ^ Z.succ (Z.log2 a) = 2 ^ 53 * 2 ^ sh)%Z as Hpow.
      { rewrite <- Z.pow_add_r by lia. f_equal. lia. }
      rewrite Hpow in Hhi.
      assert (a / 2 ^ sh < 2 ^ 53)%Z as Hq.
      { apply Z.div_lt_upper_bound; lia. }
      assert (0 <= a / 2 ^ sh)%Z as Hq0 by (apply Z.div_pos; lia).
      pose proof (Z.div_mod a (2 ^ sh) ltac:(lia)) as Hdm.
      pose proof (Z.mod_pos_bound a (2 ^ sh) Hp) as Hr.
      destruct (Z.eq_dec sh 2045) as [He|He].
      + rewrite He in *.
        assert (MAX_VALUE = (2 ^ 53 - 1) * 2 ^ 2045)%Z as HM by reflexivity.
        assert (2 * UNIT < 2 ^ (2045 - 1))%Z as HU by (vm_compute; reflexivity).
        destruct (roundShift_cases a 2045 ltac:(lia)) as [->|[-> Hhalf]].
        * nia.
        * destruct (Z.eq_dec (a / 2 ^ 2045) (2 ^ 53 - 1)) as [Heq|Hneq]; [|nia].
          exfalso. rewrite Heq in Hdm. pose proof UNIT_pos. nia.
      + assert (2 ^ 53 * 2 ^ 2044 <= MAX_VALUE)%Z as HM
            by (vm_compute; discriminate).
        assert (2 ^ sh <= 2 ^ 2044)%Z as Hle by (apply Z.pow_le_mono_r; lia).
        destruct (roundShift_cases a sh Hsh0) as [->|[-> _]]; nia. }
  exists (roundShift a sh * 2 ^ sh)%Z.
  destruct Hb as [Hb0 Hb1]. apply Z.ltb_ge in Hb1. rewrite Hb1.
  split; [reflexivity|]. apply Z.ltb_ge in Hb1. lia.
Qed.

(** A finite number stays finite when 1 is added to it. *)
Lemma inRange_jsAdd_one x :
  inRange x = true -> inRange (jsAdd x (num 1)) = true.
Proof.
  destruct x as [| |u]; try discriminate. cbn [inRange]. intros Hu.
  apply Z.leb_le in Hu.
  change (jsAdd (Finite u) (num 1)) with (roundUnits (u + 1 * UNIT) 0).
  unfold roundUnits.
  destruct (roundMagnitude_range (u + 1 * UNIT <? 0)%Z (Z.abs (u + 1 * UNIT)))
    as (a' & -> & Ha').
  { pose proof UNIT_pos. lia. }
  cbn [inRange]. apply Z.leb_le. destruct (_ <? 0)%Z; lia.
Qed.

(** ** Round trip of the typed view *)

Lemma asStrings_jsonOfStrings (l : list string) :
  asStrings (jsonOfStrings l) = Some l.
Proof.
  unfold asStrings, jsonOfStrings.
  induction l as [|s l IH]; [reflexivity|].
  cbn. cbn in IH. rewrite IH. reflexivity.
Qed.

Lemma asRecord_jsonOfRecord (l : list (string * string)) :
  asRecord (jsonOfRecord l) = Some l.
Proof.
  unfold asRecord, jsonOfRecord.
  induction l as [|[k v] l IH]; [reflexivity|].
  cbn. cbn in IH. rewrite IH. reflexivity.
Qed.

Lemma asSeverity_jsonOfSeverity (s : ErrorBundleSeverity) :
  asSeverity (jsonOfSeverity s) = Some s.
Proof. destruct s; reflexivity. Qed.

Lemma asSource_jsonOfSource (s : ErrorBundleSource) :
  asSource (jsonOfSource s) = Some s.
Proof. destruct s as [[?|] [?|] [?|] [?|] [?|]]; reflexivity. Qed.

Lemma asContext_jsonOfContext (c : ErrorBundleContext) :
  asContext (jsonOfContext c) = Some c.
Proof.
  destruct c as [[?|] [?|] e r [?|]];
    (destruct e as [e|]; destruct r as [r|];
     cbn -[asRecord asStrings jsonOfRecord jsonOfStrings];
     rewrite ?asRecord_jsonOfRecord, ?asStrings_jsonOfStrings; reflexivity).
Qed.

Lemma asEntry_jsonOfEntry (e : ErrorBundleEntry) :
  asEntry (jsonOfEntry e) = Some e.
Proof. destruct e as [m [?|] [] [?|]]; reflexivity. Qed.

Lemma asEntries_jsonOfEntries (l : list ErrorBundleEntry) :
  asEntries (JArr (map jsonOfEntry l)) = Some l.
Proof.
  unfold asEntries.
  induction l as [|e l IH]; [reflexivity|].
  change (map jsonOfEntry (e :: l)) with (jsonOfEntry e :: map jsonOfEntry l).
  change (mapM asEntry (jsonOfEntry e :: map jsonOfEntry l))
    with (x ← asEntry (jsonOfEntry e); k ← mapM asEntry (map jsonOfEntry l); Some (x :: k)).
  rewrite asEntry_jsonOfEntry, IH. reflexivity.
Qed.

Lemma asResolution_jsonOfResolution (r : ErrorBundleResolution) :
  asResolution (jsonOfResolution r) = Some r.
Proof.
  destruct r as [a b [m|] d]; cbn -[asStrings jsonOfStrings];
    rewrite ?asStrings_jsonOfStrings; reflexivity.
Qed.

Lemma asNumber_jsonOfNumber (n : number) :
  inRange n = true -> asNumber (jsonOfNumber n) = Some n.
Proof.
  destruct n as [| |u]; try discriminate. intros H.
  cbn [jsonOfNumber asNumber]. rewrite H. reflexivity.
Qed.

(** A number that the typed view accepts is finite. *)
Lemma asNumber_inRange (v : json) (n : number) :
  asNumber v = Some n -> inRange n = true.
Proof.
  destruct v as [| |m| | |]; try discriminate. cbn [asNumber].
  destruct (inRange m) eqn:H; [|discriminate]. intros [= <-]. exact H.
Qed.

Lemma asErrorBundle_jsonOfBundle (b : ErrorBundle) :
  finiteCounts b -> asErrorBundle (jsonOfBundle b) = Some b.
Proof.
  destruct b as [a c v s x e rc mr p pa r]. intros (Hv & Hrc & Hmr).
  cbn [version retryCount maxRetries] in Hv, Hrc, Hmr.
  unfold asErrorBundle, jsonOfBundle, reqProp, optProp. cbn [getProp assoc String.eqb Ascii.eqb Bool.eqb
    id createdAt version source context errors retryCount maxRetries processed processedAt resolution].
  cbn [mbind option_bind asString asBoolean].
  rewrite !asNumber_jsonOfNumber by assumption.
  rewrite asSource_jsonOfSource, asContext_jsonOfContext, asEntries_jsonOfEntries.
  cbn [mbind option_bind].
  destruct pa as [pa|], r as [r|]; cbn [optField app assoc String.eqb Ascii.eqb Bool.eqb fmap option_fmap option_map mbind option_bind asString];
    rewrite ?asResolution_jsonOfResolution; reflexivity.
Qed.

(** ** Reading back what was written *)

Lemma rejected_null : rejected JNull = true.
Proof. reflexivity. Qed.

Lemma rejected_jsonOfBundle (b : ErrorBundle) :
  validBundle b -> rejected (jsonOfBundle b) = false.
Proof.
  intros [Hid Hv]. unfold rejected, jsonOfBundle.
  cbn [getProp assoc String.eqb Ascii.eqb Bool.eqb truthy].
  rewrite Hv. change (jsonOfNumber 1) with (JNum 1).
  cbn [isVersionOne]. unfold num at 1 2. cbn [jsStrictEq].
  rewrite Z.eqb_refl. cbn [negb orb].
  apply String.eqb_neq in Hid. rewrite Hid. reflexivity.
Qed.

Lemma readErrorBundleValue_lookup (dir dir' : gmap string FileContent) name :
  dir !! name = dir' !! name ->
  readErrorBundleValue dir name = readErrorBundleValue dir' name.
Proof. unfold readErrorBundleValue. intros ->. reflexivity. Qed.

Lemma readErrorBundle_lookup (dir dir' : gmap string FileContent) name :
  dir !! name = dir' !! name ->
  readErrorBundle dir name = readErrorBundle dir' name.
Proof.
  intros H. unfold readErrorBundle.
  rewrite (readErrorBundleValue_lookup dir dir' name H). reflexivity.
Qed.

(** What the function returns is the parsed content of the file, and it
    passed the test. *)
Lemma readErrorBundleValue_Some (dir : gmap string FileContent) name j :
  readErrorBundleValue dir name = Some j <->
  dir !! name = Some (Json j) /\ rejected j = false.
Proof.
  unfold readErrorBundleValue. split.
  - destruct (dir !! name) as [[raw|j']|]; try discriminate.
    destruct j'; try discriminate;
      (destruct (rejected _) eqn:Hrej; [discriminate|];
       intros [= <-]; split; [reflexivity|exact Hrej]).
  - intros [-> Hrej]. destruct j; try (rewrite Hrej; reflexivity).
    discriminate.
Qed.

Lemma readErrorBundle_Some (dir : gmap string FileContent) name b :
  readErrorBundle dir name = Some b <->
  exists j, dir !! name = Some (Json j) /\ rejected j = false
            /\ asErrorBundle j = Some b.
Proof.
  unfold readErrorBundle. split.
  - destruct (readErrorBundleValue dir name) as [j|] eqn:Hv; [|discriminate].
    apply readErrorBundleValue_Some in Hv as [Hl Hrej].
    intros Has. exists j. repeat split; assumption.
  - intros (j & Hl & Hrej & Has).
    rewrite (proj2 (readErrorBundleValue_Some dir name j) (conj Hl Hrej)).
    exact Has.
Qed.

Lemma readErrorBundle_None (dir : gmap string FileContent) name :
  dir !! name = None -> readErrorBundle dir name = None.
Proof.
  intros Hn. unfold readErrorBundle, readErrorBundleValue. rewrite Hn.
  reflexivity.
Qed.

Lemma readErrorBundleValue_written (dir : gmap string FileContent) name b :
  validBundle b ->
  dir !! name = Some (Json (jsonOfBundle b)) ->
  readErrorBundleValue dir name = Some (jsonOfBundle b).
Proof.
  intros Hb Hl. apply readErrorBundleValue_Some.
  split; [exact Hl|apply rejected_jsonOfBundle; exact Hb].
Qed.

Lemma readErrorBundle_written (dir : gmap string FileContent) name b :
  validBundle b -> finiteCounts b ->
  dir !! name = Some (Json (jsonOfBundle b)) ->
  readErrorBundle dir name = Some b.
Proof.
  intros Hb Hfin Hl. apply readErrorBundle_Some. exists (jsonOfBundle b).
  split; [exact Hl|]. split; [apply rejected_jsonOfBundle; exact Hb|].
  apply asErrorBundle_jsonOfBundle. exact Hfin.
Qed.

(** The typed view of a value that passed the test is a valid bundle
    with finite numbers. *)
Lemma asErrorBundle_valid (j : json) (b : ErrorBundle) :
  rejected j = false -> asErrorBundle j = Some b ->
  validBundle b /\ finiteCounts b.
Proof.
  intros Hrej. unfold rejected in Hrej.
  apply orb_false_elim in Hrej as [Hid Hv].
  apply negb_false_iff in Hid. apply negb_false_iff in Hv.
  unfold asErrorBundle, reqProp. intros H.
  destruct (getProp "id" j) as [vi|] eqn:Ei; [|discriminate].
  destruct vi as [| | |s| |]; try discriminate.
  cbn [mbind option_bind asString] in H.
  destruct (getProp "createdAt" j ≫= asString) as [c|]; [|discriminate].
  cbn [mbind option_bind] in H.
  destruct (getProp "version" j) as [vv|] eqn:Ev; [|discriminate].
  cbn [mbind option_bind] in H.
  destruct (asNumber vv) as [n|] eqn:Hn; [|discriminate].
  cbn [mbind option_bind] in H.
  destruct (getProp "source" j ≫= asSource); [|discriminate].
  cbn [mbind option_bind] in H.
  destruct (getProp "context" j ≫= asContext); [|discriminate].
  cbn [mbind option_bind] in H.
  destruct (getProp "errors" j ≫= asEntries); [|discriminate].
  cbn [mbind option_bind] in H.
  destruct (getProp "retryCount" j) as [vr|]; [|discriminate].
  cbn [mbind option_bind] in H.
  destruct (asNumber vr) as [rc|] eqn:Hrc; [|discriminate].
  cbn [mbind option_bind] in H.
  destruct (getProp "maxRetries" j) as [vm|]; [|discriminate].
  cbn [mbind option_bind] in H.
  destruct (asNumber vm) as [mr|] eqn:Hmr; [|discriminate].
  cbn [mbind option_bind] in H.
  repeat match type of H with
         | (?m ≫= _) = Some _ =>
             destruct m; [cbn [mbind option_bind] in H|discriminate]
         end.
  injection H as <-. split; [split|repeat split]; cbn.
  - cbn in Hid. apply negb_true_iff in Hid. apply String.eqb_neq in Hid.
    exact Hid.
  - destruct vv as [| |m| | |]; try discriminate.
    cbn [isVersionOne] in Hv. apply jsStrictEq_eq in Hv.
    cbn [asNumber] in Hn. destruct (inRange m); [|discriminate].
    congruence.
  - exact (asNumber_inRange _ _ Hn).
  - exact (asNumber_inRange _ _ Hrc).
  - exact (asNumber_inRange _ _ Hmr).
Qed.

(** A bundle that [readErrorBundle] returns passed the test. *)
Lemma readErrorBundle_valid (dir : gmap string FileContent) name b :
  readErrorBundle dir name = Some b -> validBundle b.
Proof.
  intros Hr. apply readErrorBundle_Some in Hr as (j & _ & Hrej & Has).
  exact (proj1 (asErrorBundle_valid j b Hrej Has)).
Qed.

Lemma readErrorBundle_finite (dir : gmap string FileContent) name b :
  readErrorBundle dir name = Some b -> finiteCounts b.
Proof.
  intros Hr. apply readErrorBundle_Some in Hr as (j & _ & Hrej & Has).
  exact (proj2 (asErrorBundle_valid j b Hrej Has)).
Qed.

Lemma renameIn_lookup_dst (src dst : string) (c : FileContent)
    (dir : gmap string FileContent) :
  renameIn src dst (<[src := c]> dir) !! dst = Some c.
Proof.
  unfold renameIn. rewrite lookup_insert_eq. apply lookup_insert_eq.
Qed.

Lemma writeErrorBundle_bundle env params w :
  version (writeErrorBundle env params w).1 = 1%Z
  /\ id (writeErrorBundle env params w).1 = uuidAt env (uuids w)
  /\ retryCount (writeErrorBundle env params w).1 = 0%Z
  /\ maxRetries (writeErrorBundle env params w).1
     = default DEFAULT_MAX_RETRIES (paramMaxRetries params)
  /\ processed (writeErrorBundle env params w).1 = false.
Proof. repeat split. Qed.

Lemma writeErrorBundle_finite env params w :
  finiteMaxRetries params -> finiteCounts (writeErrorBundle env params w).1.
Proof.
  intros Hm. destruct (writeErrorBundle_bundle env params w)
    as (Hv & _ & Hrc & Hmr & _).
  unfold finiteCounts. rewrite Hv, Hrc, Hmr.
  split; [apply inRange_num; lia|]. split; [apply inRange_num; lia|].
  destruct (paramMaxRetries params) as [m|] eqn:Hp.
  - change (inRange m = true). apply Hm. exact Hp.
  - change (inRange DEFAULT_MAX_RETRIES = true). apply inRange_num. lia.
Qed.

(** C8, as stated, fails: a valid bundle is not always read back equal.
    Written with [maxRetries = Infinity], the bundle of [unboundedParams]
    is valid; its file holds [null] under [maxRetries], because
    [JSON.stringify] writes a number that is not finite as [null]; the
    value that [readErrorBundle] returns for that file holds that [null],
    and it is not equal to the bundle that was written. *)
Lemma round_trip_counterexample :
  let out := writeErrorBundle sampleEnv unboundedParams emptyWorld in
  validBundle out.1
  /\ maxRetries out.1 = Infinity false
  /\ (exists j,
         readErrorBundleValue (pendingDir out.2) (buildBundleFilename (id out.1))
         = Some j
         /\ getProp "maxRetries" j = Some JNull)
  /\ readErrorBundle (pendingDir out.2) (buildBundleFilename (id out.1))
     <> Some out.1.
Proof.
  cbn zeta. split; [split; [discriminate|reflexivity]|].
  split; [reflexivity|]. split.
  - eexists. split; vm_compute; reflexivity.
  - vm_compute. discriminate.
Qed.

(** C8, amended.  Round trip: when [writeErrorBundle] has written a valid
    bundle (identifier present, version 1) whose retry ceiling is the
    default or a finite number, [readErrorBundle] on the file it created
    in [pending] returns the parsed content of that file, which is what
    [JSON.stringify] wrote for the bundle, and every declared field of
    it reads equal to the field of the bundle that [writeErrorBundle]
    returned. *)
Theorem writeErrorBundle_readErrorBundle env params w bundle w' :
  writeErrorBundle env params w = (bundle, w') ->
  validBundle bundle ->
  finiteMaxRetries params ->
  readErrorBundleValue (pendingDir w') (buildBundleFilename (id bundle))
  = Some (jsonOfBundle bundle)
  /\ readErrorBundle (pendingDir w') (buildBundleFilename (id bundle))
     = Some bundle.
Proof.
  intros Hw Hvalid Hm.
  assert (pendingDir w' !! buildBundleFilename (id bundle)
          = Some (Json (jsonOfBundle bundle))) as Hl.
  { unfold writeErrorBundle in Hw. cbn in Hw.
    injection Hw as <- <-. cbn [pendingDir setPending id].
    apply renameIn_lookup_dst. }
  split.
  - apply readErrorBundleValue_written; assumption.
  - apply readErrorBundle_written; [exact Hvalid| |exact Hl].
    pose proof (writeErrorBundle_finite env params w Hm) as Hfin.
    rewrite Hw in Hfin. exact Hfin.
Qed.

(** ** Status queries *)

(** What a status query answers from a state file that says [running]
    and records a process id, when there is no in-process instance: a
    recorded 0 counts as no process id, and any exception of the probe
    counts as a process that is gone. *)
Lemma status_query_probe env w persisted p :
  readDaemonState w = Some persisted ->
  status persisted = Running ->
  pid persisted = Some p ->
  getErrorFeedbackDaemonStatus env None w
  = (if (p =? 0)%Z then persisted
     else match processKill env p with
          | Signalled => persisted
          | ESRCH | EPERM => withStatus Stopped persisted
          end, w).
Proof.
  intros Hread Hst Hpid.
  unfold getErrorFeedbackDaemonStatus. rewrite Hread, Hst, Hpid.
  cbn [isRunning pidTruthy andb]. destruct (p =? 0)%Z; cbn [negb].
  - reflexivity.
  - change (default 0%Z (Some p)) with p. unfold processAlive.
    destruct (processKill env p); reflexivity.
Qed.

(** C7: the code at the failing input.  The state file of
    [foreignWorld] says [running] and records process id 1.  That
    process exists, but the caller may not signal it: the probe throws
    [EPERM], the [catch] takes that for a process that is gone, and the
    query answers [stopped] for a live process.  And the state file of
    [unprobedWorld] records process id 0, which is no live process: the
    query does not probe it and answers [running]. *)
Theorem status_query_misreports_live_process :
  (readDaemonState foreignWorld = Some foreignState
   /\ status foreignState = Running
   /\ pid foreignState = Some 1%Z
   /\ processExists sampleEnv 1 = true
   /\ getErrorFeedbackDaemonStatus sampleEnv None foreignWorld
      = (withStatus Stopped foreignState, foreignWorld))
  /\ (readDaemonState unprobedWorld = Some unprobedState
      /\ status unprobedState = Running
      /\ pid unprobedState = Some 0%Z
      /\ processExists sampleEnv 0 = false
      /\ getErrorFeedbackDaemonStatus sampleEnv None unprobedWorld
         = (unprobedState, unprobedWorld)).
Proof.
  split.
  - do 4 (split; [reflexivity|]).
    rewrite (status_query_probe sampleEnv foreignWorld foreignState 1);
      reflexivity.
  - do 4 (split; [reflexivity|]).
    rewrite (status_query_probe sampleEnv unprobedWorld unprobedState 0);
      reflexivity.
Qed.

(** ** Starting the daemon *)

(** C10.  Starting a daemon that is not running replaces its in-memory
    state: the three counters are 0, the status is [running], [startedAt]
    is the current time and [pid] the current process id.  Nothing is
    taken from the state file, whatever it held, and the new state is
    what the file holds afterwards. *)
Theorem start_reinitializes_state env d w :
  status (state d) <> Running ->
  state (start env d w).1
  = mkState Running (Some (clockAt env (ticks w))) None 0 0 0
            (Some (processPid env))
  /\ stopped (start env d w).1 = false
  /\ stateFile (start env d w).2 = Some (state (start env d w).1).
Proof.
  intros Hst. unfold start.
  destruct (status (state d)); [contradiction| |]; cbn;
    unfold scheduleBatch; cbn; repeat split.
Qed.

(** ** Counters of one processing step *)

Lemma processBundleCatch_counters env bundle err d w :
  let d' := (processBundleCatch env bundle err d w).1.1 in
  bundlesProcessed (state d') = bundlesProcessed (state d)
  /\ bundlesResolved (state d') = bundlesResolved (state d)
  /\ bundlesFailed (state d') = (bundlesFailed (state d) + 1)%Z.
Proof.
  unfold processBundleCatch. cbn.
  destruct (onProcessError (options d) ≫= _); cbn; repeat split.
Qed.

Lemma processBundleMove_processed env bundle res d w :
  bundlesProcessed (state (processBundleMove env bundle res d w).1.1)
  = bundlesProcessed (state d).
Proof.
  unfold processBundleMove.
  destruct (onBundleProcessed (options d) ≫= _); [|reflexivity].
  apply processBundleCatch_counters.
Qed.

(** C9.  In one [processBundle] step: when the processor returns,
    [bundlesProcessed] grows by exactly 1 in every case, the retry case
    included; when the processor throws, [bundlesProcessed] and
    [bundlesResolved] stay and [bundlesFailed] grows by 1.  So
    [bundlesProcessed] differs in general from
    [bundlesResolved + bundlesFailed]: a step from all-zero counters can
    end with 1, 0 and 0. *)
Theorem processBundle_counters :
  (forall env bundle d w res,
      processorOf d bundle = Returns res ->
      bundlesProcessed (state (processBundle env bundle d w).1.1)
      = (bundlesProcessed (state d) + 1)%Z)
  /\ (forall env bundle d w err,
        processorOf d bundle = Throws err ->
        let d' := (processBundle env bundle d w).1.1 in
        bundlesProcessed (state d') = bundlesProcessed (state d)
        /\ bundlesResolved (state d') = bundlesResolved (state d)
        /\ bundlesFailed (state d') = (bundlesFailed (state d) + 1)%Z)
  /\ (exists env bundle d w,
        let s := state d in
        let s' := state (processBundle env bundle d w).1.1 in
        bundlesProcessed s = 0%Z /\ bundlesResolved s = 0%Z
        /\ bundlesFailed s = 0%Z
        /\ bundlesProcessed s' <> (bundlesResolved s' + bundlesFailed s')%Z).
Proof.
  split; [|split].
  - intros env bundle d w res Hp. unfold processBundle. rewrite Hp.
    destruct (resolved res).
    + rewrite processBundleMove_processed. reflexivity.
    + destruct (retryTriggered res && _).
      * reflexivity.
      * rewrite processBundleMove_processed. reflexivity.
  - intros env bundle d w err Hp. unfold processBundle. rewrite Hp.
    apply processBundleCatch_counters.
  - exists sampleEnv, sampleBundle, (newDaemon noOptions), emptyWorld.
    cbn. repeat split; discriminate.
Qed.

Lemma processBundle_counters_witness :
  bundlesProcessed
    (state (processBundle sampleEnv sampleBundle (newDaemon noOptions)
                          emptyWorld).1.1) = 1%Z.
Proof.
  destruct processBundle_counters as [H _].
  apply (H sampleEnv sampleBundle (newDaemon noOptions) emptyWorld
           (mkResolution false "relayed to Claude Code for analysis" None true)).
  reflexivity.
Defined.

(** ** The naming convention of the queue *)

Lemma sameFile_refl name w : sameFile name w w.
Proof. repeat split. Qed.

Lemma sameFile_trans name w1 w2 w3 :
  sameFile name w1 w2 -> sameFile name w2 w3 -> sameFile name w1 w3.
Proof.
  intros (a & b & c) (a' & b' & c'). repeat split; congruence.
Qed.

Lemma sameFile_sym name w1 w2 : sameFile name w1 w2 -> sameFile name w2 w1.
Proof. intros (a & b & c). repeat split; congruence. Qed.

Lemma onlyAt_refl name w : onlyAt name w w.
Proof. intros g _. apply sameFile_refl. Qed.

Lemma onlyAt_trans name w1 w2 w3 :
  onlyAt name w1 w2 -> onlyAt name w2 w3 -> onlyAt name w1 w3.
Proof.
  intros H1 H2 g Hg. eapply sameFile_trans; [apply H1|apply H2]; exact Hg.
Qed.

Lemma conventional_read dir name b :
  conventional dir -> readErrorBundle dir name = Some b ->
  name = buildBundleFilename (id b).
Proof.
  intros Hc Hr. apply readErrorBundle_Some in Hr as (j & Hl & Hrej & Has).
  specialize (Hc _ _ Hl). unfold fileOk in Hc. rewrite Hrej, Has in Hc.
  cbn [orb] in Hc. apply String.eqb_eq in Hc. exact Hc.
Qed.

Lemma fileOk_jsonOfBundle b :
  validBundle b -> finiteCounts b ->
  fileOk (buildBundleFilename (id b)) (Json (jsonOfBundle b)) = true.
Proof.
  intros Hb Hfin. unfold fileOk.
  rewrite rejected_jsonOfBundle by exact Hb.
  rewrite asErrorBundle_jsonOfBundle by exact Hfin. cbn [orb].
  apply String.eqb_refl.
Qed.

(** The retry step keeps the numbers of a bundle finite. *)
Lemma finiteCounts_retry res b :
  finiteCounts b -> finiteCounts (incRetryCount (withResolution res b)).
Proof.
  intros (Hv & Hrc & Hmr). unfold finiteCounts. cbn.
  split; [exact Hv|]. split; [|exact Hmr].
  apply inRange_jsAdd_one. exact Hrc.
Qed.

(** *** What one step touches *)

Lemma moveBundleToProcessed_dirs env b w :
  pendingDir (moveBundleToProcessed env b w)
  = delete (buildBundleFilename (id b)) (pendingDir w)
  /\ processedDir (moveBundleToProcessed env b w)
     = <[buildBundleFilename (id b) :=
           Json (jsonOfBundle (stampProcessed (clockAt env (ticks w)) b))]>
         (processedDir w)
  /\ invalidDir (moveBundleToProcessed env b w) = invalidDir w
  /\ visited (moveBundleToProcessed env b w) = visited w.
Proof. repeat split. Qed.

Lemma moveBundleToProcessed_onlyAt env b w :
  onlyAt (buildBundleFilename (id b)) w (moveBundleToProcessed env b w).
Proof.
  intros g Hg.
  destruct (moveBundleToProcessed_dirs env b w) as (Hp & Hq & Hi & _).
  unfold sameFile. rewrite Hp, Hq, Hi.
  rewrite lookup_delete_ne, lookup_insert_ne by congruence.
  repeat split.
Qed.

Lemma processBundleCatch_onlyAt env b err d w :
  onlyAt (buildBundleFilename (id b)) w (processBundleCatch env b err d w).1.2.
Proof.
  unfold processBundleCatch.
  destruct (onProcessError _ ≫= _); cbn [fst snd].
  - apply onlyAt_refl.
  - apply (moveBundleToProcessed_onlyAt env (withResolution _ b)).
Qed.

Lemma processBundleMove_onlyAt env b res d w :
  onlyAt (buildBundleFilename (id b)) w (processBundleMove env b res d w).1.2.
Proof.
  unfold processBundleMove.
  destruct (onBundleProcessed _ ≫= _); cbn [fst snd].
  - eapply onlyAt_trans; [apply moveBundleToProcessed_onlyAt|].
    apply processBundleCatch_onlyAt.
  - apply moveBundleToProcessed_onlyAt.
Qed.

Lemma processBundle_onlyAt env b d w :
  onlyAt (buildBundleFilename (id b)) w (processBundle env b d w).1.2.
Proof.
  unfold processBundle.
  destruct (processorOf d b) as [res|err].
  - destruct (resolved res).
    + apply (processBundleMove_onlyAt env (withResolution res b)).
    + destruct (retryTriggered res && _); cbn [fst snd].
      * intros g Hg. unfold sameFile. cbn.
        rewrite lookup_insert_ne by congruence. repeat split.
      * apply (processBundleMove_onlyAt env (withResolution res b)).
  - apply processBundleCatch_onlyAt.
Qed.

Lemma quarantine_onlyAt f w : onlyAt f w (quarantine f w).
Proof.
  intros g Hg. unfold quarantine.
  destruct (pendingDir w !! f); [|apply sameFile_refl].
  unfold sameFile. cbn.
  rewrite lookup_delete_ne, lookup_insert_ne by congruence. repeat split.
Qed.

Lemma visit_sameFile f g w : sameFile g w (visit f w).
Proof. repeat split. Qed.

Lemma processFile_onlyAt env f d w :
  conventional (pendingDir w) ->
  onlyAt f w (processFile env f d w).1.2.
Proof.
  intros Hc. unfold processFile.
  destruct (readErrorBundle (pendingDir (visit f w)) f) as [b|] eqn:Hr.
  - assert (f = buildBundleFilename (id b)) as Hf
        by (eapply conventional_read; [exact Hc|exact Hr]).
    rewrite Hf at 1.
    eapply onlyAt_trans with (w2 := visit f w).
    { intros g _. apply visit_sameFile. }
    destruct (processed b); cbn [fst snd].
    + apply moveBundleToProcessed_onlyAt.
    + apply processBundle_onlyAt.
  - cbn [fst snd]. eapply onlyAt_trans with (w2 := visit f w).
    { intros g _. apply visit_sameFile. }
    apply (quarantine_onlyAt f (visit f w)).
Qed.

(** *** What one step keeps *)

Lemma processBundleCatch_untouched env b err d w :
  untouched d (processBundleCatch env b err d w).1.1
            w (processBundleCatch env b err d w).1.2.
Proof.
  unfold processBundleCatch.
  destruct (onProcessError _ ≫= _); repeat split.
Qed.

Lemma processBundleMove_untouched env b res d w :
  untouched d (processBundleMove env b res d w).1.1
            w (processBundleMove env b res d w).1.2.
Proof.
  unfold processBundleMove.
  destruct (onBundleProcessed _ ≫= _); [|repeat split].
  destruct (processBundleCatch_untouched env b t d (moveBundleToProcessed env b w))
    as (Ho & Hs & Hv).
  repeat split; assumption.
Qed.

Lemma processBundle_untouched env b d w :
  untouched d (processBundle env b d w).1.1 w (processBundle env b d w).1.2.
Proof.
  unfold processBundle.
  destruct (processorOf d b) as [res|err].
  - destruct (resolved res).
    + apply (processBundleMove_untouched env _ res (setState _ (setState _ d))).
    + destruct (retryTriggered res && _); [repeat split|].
      apply (processBundleMove_untouched env _ res (setState _ (setState _ d))).
  - apply processBundleCatch_untouched.
Qed.

Lemma processFile_control env f d w :
  options (processFile env f d w).1.1 = options d
  /\ stopped (processFile env f d w).1.1 = stopped d
  /\ visited (processFile env f d w).1.2 = (visited w ++ [f])%list.
Proof.
  unfold processFile.
  destruct (readErrorBundle _ f) as [b|]; [destruct (processed b)|].
  - repeat split.
  - destruct (processBundle_untouched env b d (visit f w)) as (Ho & Hs & Hv).
    repeat split; assumption.
  - unfold quarantine. destruct (pendingDir (visit f w) !! f); repeat split.
Qed.

Lemma moveBundleToProcessed_conventional env b w :
  conventional (pendingDir w) ->
  conventional (pendingDir (moveBundleToProcessed env b w)).
Proof. intros Hc. apply map_Forall_delete. exact Hc. Qed.

Lemma processBundleCatch_conventional env b err d w :
  conventional (pendingDir w) ->
  conventional (pendingDir (processBundleCatch env b err d w).1.2).
Proof.
  intros Hc. unfold processBundleCatch.
  destruct (onProcessError _ ≫= _); cbn [fst snd]; [exact Hc|].
  apply moveBundleToProcessed_conventional. exact Hc.
Qed.

Lemma processBundleMove_conventional env b res d w :
  conventional (pendingDir w) ->
  conventional (pendingDir (processBundleMove env b res d w).1.2).
Proof.
  intros Hc. unfold processBundleMove.
  destruct (onBundleProcessed _ ≫= _); cbn [fst snd].
  - apply processBundleCatch_conventional.
    apply moveBundleToProcessed_conventional. exact Hc.
  - apply moveBundleToProcessed_conventional. exact Hc.
Qed.

Lemma processBundle_conventional env b d w :
  validBundle b -> finiteCounts b ->
  conventional (pendingDir w) ->
  conventional (pendingDir (processBundle env b d w).1.2).
Proof.
  intros Hb Hfin Hc. unfold processBundle.
  destruct (processorOf d b) as [res|err].
  - destruct (resolved res).
    + apply processBundleMove_conventional. exact Hc.
    + destruct (retryTriggered res && _); cbn [fst snd].
      * apply map_Forall_insert_2; [|exact Hc].
        apply (fileOk_jsonOfBundle (incRetryCount (withResolution res b))).
        { exact Hb. }
        apply finiteCounts_retry. exact Hfin.
      * apply processBundleMove_conventional. exact Hc.
  - apply processBundleCatch_conventional. exact Hc.
Qed.

Lemma processFile_conventional env f d w :
  conventional (pendingDir w) ->
  conventional (pendingDir (processFile env f d w).1.2).
Proof.
  intros Hc. unfold processFile.
  destruct (readErrorBundle _ f) as [b|] eqn:Hr.
  - destruct (processed b); cbn [fst snd].
    + apply moveBundleToProcessed_conventional. exact Hc.
    + apply processBundle_conventional; [| |exact Hc].
      * eapply readErrorBundle_valid. exact Hr.
      * eapply readErrorBundle_finite. exact Hr.
  - cbn [fst snd]. unfold quarantine.
    destruct (pendingDir (visit f w) !! f); [|exact Hc].
    apply map_Forall_delete. exact Hc.
Qed.

Lemma processBundleCatch_ticks env b err d w :
  (ticks w <= ticks (processBundleCatch env b err d w).1.2)%nat.
Proof.
  unfold processBundleCatch.
  destruct (onProcessError _ ≫= _); cbn; lia.
Qed.

Lemma processBundleMove_ticks env b res d w :
  (ticks w <= ticks (processBundleMove env b res d w).1.2)%nat.
Proof.
  unfold processBundleMove.
  destruct (onBundleProcessed _ ≫= _); [|cbn; lia].
  etransitivity; [|apply processBundleCatch_ticks]. cbn. lia.
Qed.

Lemma processFile_ticks env f d w :
  (ticks w <= ticks (processFile env f d w).1.2)%nat.
Proof.
  unfold processFile.
  destruct (readErrorBundle _ f) as [b|]; [destruct (processed b)|].
  - cbn. lia.
  - unfold processBundle. destruct (processorOf d b) as [res|err].
    + destruct (resolved res); [apply (processBundleMove_ticks env _ res _ (visit f w))|].
      destruct (retryTriggered res && _); [cbn; lia|].
      apply (processBundleMove_ticks env _ res _ (visit f w)).
    + apply (processBundleCatch_ticks env b err d (visit f w)).
  - unfold quarantine. destruct (pendingDir (visit f w) !! f); cbn; lia.
Qed.

Lemma stop_control d w :
  options (stop d w).1 = options d
  /\ stopped (stop d w).1 = true
  /\ visited (stop d w).2 = visited w
  /\ pendingDir (stop d w).2 = pendingDir w
  /\ processedDir (stop d w).2 = processedDir w
  /\ invalidDir (stop d w).2 = invalidDir w.
Proof. repeat split. Qed.

(** ** The batch loop *)

Lemma batchLoop_cons env stopAt i f rest d w :
  batchLoop env stopAt i (f :: rest) d w
  = if stopped d then (d, w, None)
    else match (turn env stopAt i f d w).2 with
         | Some err => turn env stopAt i f d w
         | None => batchLoop env stopAt (S i) rest
                             (turn env stopAt i f d w).1.1
                             (turn env stopAt i f d w).1.2
         end.
Proof.
  cbn [batchLoop].
  destruct (stopped d); [reflexivity|].
  destruct (turn env stopAt i f d w) as [[d1 w1] [err|]]; reflexivity.
Qed.

Lemma turn_spec env stopAt i f d w :
  conventional (pendingDir w) ->
  let out := turn env stopAt i f d w in
  options out.1.1 = options d
  /\ visited out.1.2 = (visited w ++ [f])%list
  /\ conventional (pendingDir out.1.2)
  /\ onlyAt f w out.1.2
  /\ sameFile f (processFile env f d w).1.2 out.1.2
  /\ out.2 = (processFile env f d w).2
  /\ stopped out.1.1 = (stopped d || bool_decide (stopAt = Some i))
  /\ (ticks w <= ticks out.1.2)%nat.
Proof.
  intros Hc. unfold turn.
  pose proof (processFile_ticks env f d w) as Ht.
  pose proof (processFile_control env f d w) as (Ho & Hs & Hv).
  pose proof (processFile_conventional env f d w Hc) as Hc'.
  pose proof (processFile_onlyAt env f d w Hc) as Hf.
  destruct (processFile env f d w) as [[d1 w1] thrown].
  cbn [fst snd] in *.
  destruct (decide (stopAt = Some i)) as [He|He].
  - rewrite (bool_decide_eq_true_2 _ He), orb_true_r.
    split; [exact Ho|]. split; [exact Hv|]. split; [exact Hc'|].
    split; [intros g Hg; exact (Hf g Hg)|]. repeat split. exact Ht.
  - rewrite (bool_decide_eq_false_2 _ He), orb_false_r.
    split; [exact Ho|]. split; [exact Hv|]. split; [exact Hc'|].
    split; [exact Hf|]. split; [apply sameFile_refl|]. split; [reflexivity|].
    split; [exact Hs|exact Ht].
Qed.

Lemma insertSorted_perm x l : insertSorted x l ≡ₚ x :: l.
Proof.
  induction l as [|y l IH]; [reflexivity|].
  cbn [insertSorted]. destruct (String.leb x y); [reflexivity|].
  rewrite IH. apply perm_swap.
Qed.

Lemma sortNames_perm l : sortNames l ≡ₚ l.
Proof.
  induction l as [|x l IH]; [reflexivity|].
  cbn [sortNames foldr]. rewrite insertSorted_perm.
  apply perm_skip. exact IH.
Qed.

Lemma listPendingBundles_NoDup w : NoDup (listPendingBundles w).
Proof.
  unfold listPendingBundles. rewrite sortNames_perm.
  apply NoDup_ListNoDup, List.NoDup_filter, NoDup_ListNoDup.
  apply NoDup_fst_map_to_list.
Qed.

Lemma listPendingBundles_elem w name :
  name ∈ listPendingBundles w
  <-> is_Some (pendingDir w !! name) /\ isBundleName name = true.
Proof.
  unfold listPendingBundles. rewrite sortNames_perm.
  rewrite list_elem_of_In, List.filter_In, <- list_elem_of_In.
  unfold readdir. rewrite list_elem_of_fmap.
  split.
  - intros [([k c] & -> & Hin) Hn]. split; [|exact Hn].
    apply elem_of_map_to_list in Hin. cbn. eauto.
  - intros [[c Hc] Hn]. split; [|exact Hn].
    exists (name, c). split; [reflexivity|].
    apply elem_of_map_to_list. exact Hc.
Qed.

Lemma batch_NoDup w n : NoDup (take n (listPendingBundles w)).
Proof.
  eapply sublist_NoDup; [apply listPendingBundles_NoDup|apply sublist_take].
Qed.

Lemma visitedDuring_app w w' vs :
  visited w' = (visited w ++ vs)%list -> visitedDuring w w' = vs.
Proof. unfold visitedDuring. intros ->. apply drop_app_length. Qed.

Lemma batchLoop_stopped env stopAt i batch d w :
  stopped d = true -> batchLoop env stopAt i batch d w = (d, w, None).
Proof. intros Hs. destruct batch; cbn [batchLoop]; rewrite ?Hs; reflexivity. Qed.

(** The loop visits a prefix of the batch, keeps the naming convention
    and leaves every file it did not visit as it was. *)
Lemma batchLoop_spec env stopAt batch :
  forall i d w,
    conventional (pendingDir w) ->
    let out := batchLoop env stopAt i batch d w in
    exists vs,
      visited out.1.2 = (visited w ++ vs)%list
      /\ vs `prefix_of` batch
      /\ options out.1.1 = options d
      /\ conventional (pendingDir out.1.2)
      /\ (forall g, g ∉ vs -> sameFile g w out.1.2).
Proof.
  induction batch as [|f rest IH]; intros i d w Hc.
  - exists []. cbn. rewrite app_nil_r.
    repeat split; [apply prefix_nil|exact Hc].
  - intros out. subst out. rewrite batchLoop_cons.
    destruct (stopped d).
    { exists []. cbn. rewrite app_nil_r.
      repeat split; [apply prefix_nil|exact Hc]. }
    destruct (turn_spec env stopAt i f d w Hc)
      as (Ho & Hv & Hc1 & Hf & _ & _ & _).
    destruct (turn env stopAt i f d w) as [[d1 w1] [err|]]; cbn [fst snd] in *.
    + exists [f]. split; [exact Hv|]. split.
      { apply prefix_cons, prefix_nil. }
      split; [exact Ho|]. split; [exact Hc1|].
      intros g Hg. apply Hf. intros ->. apply Hg. left.
    + destruct (IH (S i) d1 w1 Hc1) as (vs & Hvs & Hpre & Ho' & Hc' & Hfr).
      exists (f :: vs). split.
      { rewrite Hvs, Hv, <- app_assoc. reflexivity. }
      split; [apply prefix_cons; exact Hpre|].
      split; [congruence|]. split; [exact Hc'|].
      intros g Hg. apply not_elem_of_cons in Hg as [Hne Hg].
      eapply sameFile_trans; [apply Hf; exact Hne|apply Hfr; exact Hg].
Qed.

(** A file the loop visited was processed by [processFile] from a state
    in which it was as at the start, and is at the end as that step left
    it. *)
Lemma batchLoop_file env stopAt f batch :
  forall i d w,
    conventional (pendingDir w) ->
    NoDup batch ->
    let out := batchLoop env stopAt i batch d w in
    f ∈ visitedDuring w out.1.2 ->
    exists d0 w0,
      options d0 = options d
      /\ conventional (pendingDir w0)
      /\ (ticks w <= ticks w0)%nat
      /\ sameFile f w w0
      /\ sameFile f (processFile env f d0 w0).1.2 out.1.2.
Proof.
  induction batch as [|g rest IH]; intros i d w Hc Hnd out Hin; subst out.
  - cbn in Hin. unfold visitedDuring in Hin. rewrite drop_all in Hin.
    apply elem_of_nil in Hin. contradiction.
  - rewrite batchLoop_cons in Hin |- *.
    destruct (stopped d).
    { cbn in Hin. unfold visitedDuring in Hin. rewrite drop_all in Hin.
      apply elem_of_nil in Hin. contradiction. }
    apply NoDup_cons in Hnd as [Hg Hnd].
    destruct (turn_spec env stopAt i g d w Hc)
      as (Ho & Hv & Hc1 & Hf & Hsame & _ & _ & Ht).
    destruct (turn env stopAt i g d w) as [[d1 w1] [err|]]; cbn [fst snd] in *.
    + rewrite (visitedDuring_app _ _ _ Hv) in Hin.
      apply list_elem_of_singleton in Hin as ->.
      exists d, w. repeat split; try exact Hc; try apply Hsame. lia.
    + destruct (batchLoop_spec env stopAt rest (S i) d1 w1 Hc1)
        as (vs & Hvs & Hpre & _ & _ & Hfr).
      assert (visitedDuring w (batchLoop env stopAt (S i) rest d1 w1).1.2
              = g :: vs) as Hvd.
      { apply visitedDuring_app. rewrite Hvs, Hv, <- app_assoc. reflexivity. }
      rewrite Hvd in Hin. apply elem_of_cons in Hin as [->|Hin].
      * exists d, w. split; [reflexivity|]. split; [exact Hc|].
        split; [lia|]. split; [apply sameFile_refl|].
        eapply sameFile_trans; [apply Hsame|apply Hfr].
        intros Hin'. apply Hg. eapply elem_of_prefix; eauto.
      * assert (f <> g) as Hne.
        { intros ->. apply Hg. eapply elem_of_prefix; eauto. }
        destruct (IH (S i) d1 w1 Hc1 Hnd)
          as (d0 & w0 & Ho0 & Hc0 & Ht0 & Hs0 & Hs1).
        { rewrite (visitedDuring_app _ _ _ Hvs). exact Hin. }
        exists d0, w0. split; [congruence|]. split; [exact Hc0|].
        split; [lia|]. split; [|exact Hs1].
        eapply sameFile_trans; [apply Hf; exact Hne|exact Hs0].
Qed.

(** ** One batch run *)

Lemma processBatch_idle env stopAt d w :
  processing d || stopped d = true -> processBatch env stopAt d w = (d, w).
Proof. unfold processBatch. intros ->. reflexivity. Qed.

Lemma processBatch_run env stopAt d w :
  processing d || stopped d = false ->
  let out := batchLoop env stopAt 0 (take MAX_BATCH_SIZE (listPendingBundles w))
                       (enterBatch env d w).1 (enterBatch env d w).2 in
  let w' := (processBatch env stopAt d w).2 in
  pendingDir w' = pendingDir out.1.2
  /\ processedDir w' = processedDir out.1.2
  /\ invalidDir w' = invalidDir out.1.2
  /\ visited w' = visited out.1.2.
Proof.
  intros Hg. unfold processBatch. rewrite Hg.
  cbn [now]. unfold enterBatch. cbn [now fst snd].
  change (listPendingBundles
            (mkWorld (pendingDir w) (processedDir w) (invalidDir w)
                     (stateFile w) (S (ticks w)) (uuids w) (visited w)))
    with (listPendingBundles w).
  destruct (batchLoop _ _ _ _ _ _) as [[d1 w1] thrown].
  repeat split.
Qed.

(** The daemon with which a started run ends, in terms of its loop. *)
Lemma processBatch_daemon env stopAt d w :
  processing d || stopped d = false ->
  let out := batchLoop env stopAt 0 (take MAX_BATCH_SIZE (listPendingBundles w))
                       (enterBatch env d w).1 (enterBatch env d w).2 in
  (processBatch env stopAt d w).1
  = setProcessing false
      (match out.2 with
       | Some _ => setState (withStatus Error (state out.1.1)) out.1.1
       | None => out.1.1
       end)
  /\ stateFile (processBatch env stopAt d w).2
     = Some (state (processBatch env stopAt d w).1).
Proof.
  intros Hg. unfold processBatch. rewrite Hg.
  cbn [now]. unfold enterBatch. cbn [now fst snd].
  change (listPendingBundles
            (mkWorld (pendingDir w) (processedDir w) (invalidDir w)
                     (stateFile w) (S (ticks w)) (uuids w) (visited w)))
    with (listPendingBundles w).
  destruct (batchLoop _ _ _ _ _ _) as [[d1 w1] [err|]]; split; reflexivity.
Qed.

Lemma processBatch_file env stopAt d w f :
  conventional (pendingDir w) ->
  f ∈ visitedDuring w (processBatch env stopAt d w).2 ->
  exists d0 w0,
    options d0 = options d
    /\ conventional (pendingDir w0)
    /\ (ticks w <= ticks w0)%nat
    /\ sameFile f w w0
    /\ sameFile f (processFile env f d0 w0).1.2 (processBatch env stopAt d w).2.
Proof.
  intros Hc Hin.
  destruct (processing d || stopped d) eqn:Hg.
  { rewrite processBatch_idle in Hin by exact Hg. cbn in Hin.
    unfold visitedDuring in Hin. rewrite drop_all in Hin.
    apply elem_of_nil in Hin. contradiction. }
  destruct (processBatch_run env stopAt d w Hg) as (Hp & Hq & Hi & Hv).
  unfold visitedDuring in Hin. rewrite Hv in Hin.
  destruct (batchLoop_file env stopAt f _ 0 (enterBatch env d w).1
              (enterBatch env d w).2 Hc (batch_NoDup w MAX_BATCH_SIZE) Hin)
    as (d0 & w0 & Ho & Hc0 & Ht0 & Hs0 & Hs1).
  exists d0, w0. split; [exact Ho|]. split; [exact Hc0|].
  split; [cbn in Ht0; lia|]. split; [exact Hs0|].
  destruct Hs1 as (a & b & c). unfold sameFile. rewrite Hp, Hq, Hi.
  repeat split; assumption.
Qed.

Lemma processBatch_frame env stopAt d w g :
  conventional (pendingDir w) ->
  g ∉ visitedDuring w (processBatch env stopAt d w).2 ->
  sameFile g w (processBatch env stopAt d w).2.
Proof.
  intros Hc Hin.
  destruct (processing d || stopped d) eqn:Hg.
  { rewrite processBatch_idle by exact Hg. apply sameFile_refl. }
  destruct (processBatch_run env stopAt d w Hg) as (Hp & Hq & Hi & Hv).
  destruct (batchLoop_spec env stopAt (take MAX_BATCH_SIZE (listPendingBundles w))
              0 (enterBatch env d w).1 (enterBatch env d w).2 Hc)
    as (vs & Hvs & _ & _ & _ & Hfr).
  unfold visitedDuring in Hin. rewrite Hv in Hin.
  change (length (visited w)) with (length (visited (enterBatch env d w).2)) in Hin.
  rewrite Hvs, drop_app_length in Hin.
  destruct (Hfr g Hin) as (a & b & c).
  unfold sameFile. rewrite Hp, Hq, Hi. repeat split; assumption.
Qed.

Lemma processorOf_options d d' :
  options d' = options d -> processorOf d' = processorOf d.
Proof. unfold processorOf. intros ->. reflexivity. Qed.

(** *** The retry step *)

Lemma processFile_read env f d w b :
  readErrorBundle (pendingDir w) f = Some b ->
  processed b = false ->
  processFile env f d w = processBundle env b d (visit f w).
Proof.
  intros Hr Hp. unfold processFile.
  change (pendingDir (visit f w)) with (pendingDir w).
  rewrite Hr, Hp. reflexivity.
Qed.

Lemma processBundle_retry env b d w res :
  processorOf d b = Returns res ->
  resolved res = false -> retryTriggered res = true ->
  jsLt (retryCount b) (maxRetries b) = true ->
  processBundle env b d w
  = (setState (incProcessed (state d)) d,
     setPending (<[buildBundleFilename (id b) :=
                     Json (jsonOfBundle (incRetryCount (withResolution res b)))]>
                   (pendingDir w)) w,
     None).
Proof.
  intros Hp Hr Ht Hlt. unfold processBundle. rewrite Hp, Hr, Ht.
  cbn [withResolution retryCount maxRetries andb].
  rewrite Hlt. reflexivity.
Qed.

(** The bundle that a retry step of a visited file leaves in [pending]. *)
Lemma processBatch_retried env stopAt d w f b res :
  conventional (pendingDir w) ->
  f ∈ visitedDuring w (processBatch env stopAt d w).2 ->
  readErrorBundle (pendingDir w) f = Some b ->
  processed b = false ->
  jsLt (retryCount b) (maxRetries b) = true ->
  processorOf d b = Returns res ->
  resolved res = false ->
  retryTriggered res = true ->
  let w' := (processBatch env stopAt d w).2 in
  readErrorBundle (pendingDir w') f
  = Some (incRetryCount (withResolution res b))
  /\ processedDir w' !! f = processedDir w !! f.
Proof.
  intros Hc Hin Hr Hproc Hlt Hp Hres Hretry w'. subst w'.
  destruct (processBatch_file env stopAt d w f Hc Hin)
    as (d0 & w0 & Ho & Hc0 & _ & (Hs0 & Hs0' & _) & (Hs1 & Hs1' & _)).
  assert (readErrorBundle (pendingDir w0) f = Some b) as Hr0.
  { rewrite <- Hr. apply readErrorBundle_lookup. symmetry. exact Hs0. }
  pose proof (conventional_read _ _ _ Hc Hr) as Hf.
  rewrite (processFile_read env f d0 w0 b Hr0 Hproc) in Hs1, Hs1'.
  rewrite <- (processorOf_options d d0 Ho) in Hp.
  rewrite (processBundle_retry env b d0 (visit f w0) res Hp Hres Hretry Hlt)
    in Hs1, Hs1'.
  cbn [fst snd pendingDir processedDir setPending visit] in Hs1, Hs1'.
  rewrite <- Hf, lookup_insert_eq in Hs1.
  split; [|congruence].
  apply readErrorBundle_written; [| |symmetry; exact Hs1].
  - apply (readErrorBundle_valid _ _ _ Hr).
  - apply finiteCounts_retry. apply (readErrorBundle_finite _ _ _ Hr).
Qed.

Lemma sampleWorld_conventional : conventional (pendingDir sampleWorld).
Proof.
  apply map_Forall_singleton. vm_compute. reflexivity.
Qed.

Lemma twoWorld_conventional : conventional (pendingDir twoWorld).
Proof.
  apply map_Forall_insert_2; [vm_compute; reflexivity|].
  apply map_Forall_singleton. vm_compute. reflexivity.
Qed.

Lemma saturatedWorld_conventional : conventional (pendingDir saturatedWorld).
Proof.
  apply map_Forall_singleton. vm_compute. reflexivity.
Qed.

(** C1, as stated, fails: the retry step does not always increase
    [retryCount] by exactly 1.  The bundle of [saturatedWorld] has
    [retryCount = 2^53] below [maxRetries = 2^53 + 2]; its processor
    asks for a retry, and [bundle.retryCount += 1] leaves the count at
    [2^53], the double nearest to [2^53 + 1]. *)
Lemma retry_adds_exactly_one_counterexample :
  ~ (forall env stopAt d w f b res,
        conventional (pendingDir w) ->
        f ∈ visitedDuring w (processBatch env stopAt d w).2 ->
        readErrorBundle (pendingDir w) f = Some b ->
        processed b = false ->
        jsLt (retryCount b) (maxRetries b) = true ->
        processorOf d b = Returns res ->
        resolved res = false ->
        retryTriggered res = true ->
        exists b',
          readErrorBundle (pendingDir (processBatch env stopAt d w).2) f
          = Some b'
          /\ exactlyOneMore (retryCount b) (retryCount b')).
Proof.
  intros H.
  assert (In "error-b1.json"
            (visitedDuring saturatedWorld
               (processBatch sampleEnv None (newDaemon retryOptions)
                             saturatedWorld).2))
    as Hin by (vm_compute; left; reflexivity).
  apply list_elem_of_In in Hin.
  destruct (H sampleEnv None (newDaemon retryOptions) saturatedWorld
              "error-b1.json" saturatedBundle
              (mkResolution false "try again" None true)
              saturatedWorld_conventional Hin)
    as (b' & Hr & u & Hu & Hu'); try (vm_compute; reflexivity).
  vm_compute in Hr. injection Hr as <-.
  vm_compute in Hu. injection Hu as <-.
  vm_compute in Hu'. discriminate Hu'.
Qed.

(** C1, amended.  A bundle of [pending] with [retryCount < maxRetries]
    that a batch run picks up and whose processor invocation returns
    [resolved = false] with [retryTriggered = true] is, at the end of
    that run, still in [pending], with [retryCount] replaced by the
    double-precision sum [retryCount + 1] and the resolution recorded,
    and otherwise unchanged; the run has put no copy of it into
    [processed].  The sum is [retryCount] increased by exactly 1
    whenever [retryCount] is an integer from [-2^53] to [2^53 - 1], as
    is every count that started at 0. *)
Theorem retry_keeps_bundle_pending env stopAt d w f b res :
  conventional (pendingDir w) ->
  f ∈ visitedDuring w (processBatch env stopAt d w).2 ->
  readErrorBundle (pendingDir w) f = Some b ->
  processed b = false ->
  jsLt (retryCount b) (maxRetries b) = true ->
  processorOf d b = Returns res ->
  resolved res = false ->
  retryTriggered res = true ->
  let w' := (processBatch env stopAt d w).2 in
  exists b',
    readErrorBundle (pendingDir w') f = Some b'
    /\ retryCount b' = jsAdd (retryCount b) 1
    /\ (forall n : Z,
           (- 2 ^ 53 <= n < 2 ^ 53)%Z -> retryCount b = num n ->
           retryCount b' = num (n + 1)
           /\ exactlyOneMore (retryCount b) (retryCount b'))
    /\ id b' = id b /\ createdAt b' = createdAt b /\ version b' = version b
    /\ source b' = source b /\ context b' = context b
    /\ errors b' = errors b /\ maxRetries b' = maxRetries b
    /\ processed b' = false /\ processedAt b' = processedAt b
    /\ resolution b' = Some res
    /\ processedDir w' !! f = processedDir w !! f.
Proof.
  intros Hc Hin Hr Hproc Hlt Hp Hres Hretry w'. subst w'.
  destruct (processBatch_retried env stopAt d w f b res Hc Hin Hr Hproc Hlt
              Hp Hres Hretry) as [Hr' Hq].
  exists (incRetryCount (withResolution res b)).
  split; [exact Hr'|]. split; [reflexivity|]. split.
  { intros n Hn He. cbn [incRetryCount withResolution retryCount].
    rewrite He. rewrite jsAdd_num by lia. split; [reflexivity|].
    exists (n * UNIT)%Z. split; [reflexivity|].
    unfold num. f_equal. ring. }
  cbn [incRetryCount withResolution id createdAt version source context
       errors maxRetries processed processedAt resolution].
  do 7 (split; [reflexivity|]). split; [exact Hproc|].
  split; [reflexivity|]. split; [reflexivity|exact Hq].
Qed.

Lemma retry_keeps_bundle_pending_witness :
  exists b',
    readErrorBundle
      (pendingDir (processBatch sampleEnv None (newDaemon noOptions) sampleWorld).2)
      "error-b1.json" = Some b'
    /\ retryCount b' = num 1
    /\ maxRetries b' = maxRetries sampleBundle
    /\ resolution b'
       = Some (mkResolution false "relayed to Claude Code for analysis" None true)
    /\ processedDir (processBatch sampleEnv None (newDaemon noOptions) sampleWorld).2
         !! "error-b1.json" = processedDir sampleWorld !! "error-b1.json".
Proof.
  destruct (retry_keeps_bundle_pending sampleEnv None (newDaemon noOptions)
              sampleWorld "error-b1.json" sampleBundle
              (mkResolution false "relayed to Claude Code for analysis" None true))
    as (b' & Hr & _ & Hone & _ & _ & _ & _ & _ & _ & Hm & _ & _ & Hres & Hq).
  - exact sampleWorld_conventional.
  - vm_compute. left.
  - vm_compute. reflexivity.
  - reflexivity.
  - vm_compute. reflexivity.
  - vm_compute. reflexivity.
  - reflexivity.
  - reflexivity.
  - exists b'. split; [exact Hr|]. split.
    { apply (Hone 0%Z); [lia|reflexivity]. }
    split; [exact Hm|]. split; [exact Hres|exact Hq].
Defined.

(** *** The steps that end in [processed] *)



Lemma moveBundleToProcessed_movedTo env b w :
  movedTo (moveBundleToProcessed env b w) (buildBundleFilename (id b))
          (stampProcessed (clockAt env (ticks w)) b).
Proof.
  destruct (moveBundleToProcessed_dirs env b w) as (Hp & Hq & _).
  unfold movedTo. rewrite Hp, Hq, lookup_delete_eq, lookup_insert_eq.
  repeat split.
Qed.

Lemma movedTo_sameFile w w' f b :
  sameFile f w w' -> movedTo w f b -> movedTo w' f b.
Proof.
  intros (Hp & Hq & _) (H1 & H2 & H3). unfold movedTo.
  rewrite <- Hp, <- Hq. repeat split; assumption.
Qed.




(** *** The files a loop visits *)

Lemma visitedDuring_same w : visitedDuring w w = [].
Proof. apply drop_all. Qed.

Lemma visits_nil env stopAt i d w : visits env stopAt i [] d w = [].
Proof. apply visitedDuring_same. Qed.

Lemma visits_stopped env stopAt i batch d w :
  stopped d = true -> visits env stopAt i batch d w = [].
Proof.
  intros Hs. unfold visits. rewrite batchLoop_stopped by exact Hs.
  apply visitedDuring_same.
Qed.

Lemma visits_cons env stopAt i f rest d w :
  conventional (pendingDir w) ->
  stopped d = false ->
  visits env stopAt i (f :: rest) d w
  = f :: match (turn env stopAt i f d w).2 with
         | Some _ => []
         | None => visits env stopAt (S i) rest
                          (turn env stopAt i f d w).1.1
                          (turn env stopAt i f d w).1.2
         end.
Proof.
  intros Hc Hs. unfold visits. rewrite batchLoop_cons, Hs.
  destruct (turn_spec env stopAt i f d w Hc) as (_ & Hv & Hc1 & _).
  destruct (turn env stopAt i f d w) as [[d1 w1] [err|]]; cbn [fst snd] in *.
  - apply visitedDuring_app. exact Hv.
  - destruct (batchLoop_spec env stopAt rest (S i) d1 w1 Hc1)
      as (vs & Hvs & _).
    rewrite (visitedDuring_app _ _ _ Hvs).
    apply visitedDuring_app. rewrite Hvs, Hv, <- app_assoc. reflexivity.
Qed.







(** *** Quarantine *)

Lemma isVersionOne_false v : v <> Some (JNum 1) -> isVersionOne v = false.
Proof.
  intros Hv. destruct v as [[| |n| | |]|]; try reflexivity.
  cbn [isVersionOne]. destruct (jsStrictEq n 1) eqn:He; [|reflexivity].
  apply jsStrictEq_eq in He. congruence.
Qed.

Lemma unreadable_read dir name c :
  dir !! name = Some c -> unreadable c -> readErrorBundle dir name = None.
Proof.
  intros Hl Hu. unfold readErrorBundle, readErrorBundleValue. rewrite Hl.
  destruct c as [raw|j]; [reflexivity|].
  assert (rejected j = true) as Hrej.
  { unfold rejected. destruct Hu as [Hid|Hv].
    - rewrite Hid. reflexivity.
    - rewrite (isVersionOne_false _ Hv). apply orb_true_r. }
  rewrite Hrej. destruct j; reflexivity.
Qed.

Lemma processFile_unreadable env f d w c :
  pendingDir w !! f = Some c -> unreadable c ->
  processFile env f d w
  = (d, setPending (delete f (pendingDir w))
          (setInvalid (<[f := c]> (invalidDir w)) (visit f w)), None).
Proof.
  intros Hl Hu. unfold processFile.
  change (pendingDir (visit f w)) with (pendingDir w).
  rewrite (unreadable_read _ _ _ Hl Hu). unfold quarantine.
  change (pendingDir (visit f w)) with (pendingDir w).
  rewrite Hl. reflexivity.
Qed.

(** C4.  Reading a file that is missing, does not parse, has no
    identifier or has a schema version other than 1 gives [null] and
    raises nothing.  When a batch run picks up such a pending file, then
    at the end of the run the file is no longer in [pending] nor among
    the candidates of a next run; it lies under [processed/invalid] with
    the content it had, the run put nothing under its name into
    [processed], and its step neither called the processor nor changed a
    counter. *)
Theorem invalid_file_is_quarantined env stopAt d w f c :
  conventional (pendingDir w) ->
  f ∈ visitedDuring w (processBatch env stopAt d w).2 ->
  pendingDir w !! f = Some c ->
  unreadable c ->
  let w' := (processBatch env stopAt d w).2 in
  (forall dir name, dir !! name = None -> readErrorBundle dir name = None)
  /\ readErrorBundle (pendingDir w) f = None
  /\ pendingDir w' !! f = None
  /\ (f ∉ listPendingBundles w')
  /\ invalidDir w' !! f = Some c
  /\ processedDir w' !! f = processedDir w !! f
  /\ (forall d0 w0,
         pendingDir w0 !! f = Some c ->
         (processFile env f d0 w0).1.1 = d0
         /\ (processFile env f d0 w0).2 = None).
Proof.
  intros Hc Hin Hl Hu w'. subst w'.
  destruct (processBatch_file env stopAt d w f Hc Hin)
    as (d0 & w0 & Ho & Hc0 & _ & (Hs0 & Hs0' & _) & (Hs1 & Hs1' & Hs1'')).
  assert (pendingDir w0 !! f = Some c) as Hl0 by congruence.
  rewrite (processFile_unreadable env f d0 w0 c Hl0 Hu) in Hs1, Hs1', Hs1''.
  cbn [fst snd pendingDir processedDir invalidDir setPending setInvalid visit]
    in Hs1, Hs1', Hs1''.
  rewrite lookup_delete_eq in Hs1. rewrite lookup_insert_eq in Hs1''.
  split.
  { intros dir name Hn. apply readErrorBundle_None. exact Hn. }
  split; [exact (unreadable_read _ _ _ Hl Hu)|].
  split; [symmetry; exact Hs1|].
  split.
  { rewrite listPendingBundles_elem, <- Hs1. intros [[x Hx] _]. discriminate. }
  split; [symmetry; exact Hs1''|].
  split; [congruence|].
  intros d1 w1 Hl1.
  rewrite (processFile_unreadable env f d1 w1 c Hl1 Hu). split; reflexivity.
Qed.

(** *** Stale processed bundles *)

Lemma processFile_stale env f d w b :
  readErrorBundle (pendingDir w) f = Some b ->
  processed b = true ->
  processFile env f d w = (d, moveBundleToProcessed env b (visit f w), None).
Proof.
  intros Hr Hp. unfold processFile.
  change (pendingDir (visit f w)) with (pendingDir w).
  rewrite Hr, Hp. reflexivity.
Qed.

Lemma staleWorld_conventional : conventional (pendingDir staleWorld).
Proof. apply map_Forall_singleton. vm_compute. reflexivity. Qed.

(** C6, as stated, fails: the catch-up step does not keep all fields.
    The stale bundle of [staleWorld] carries
    [processedAt = 2026-01-01T12:00:00.000Z]; the copy that the run
    leaves in [processed] is not equal to it. *)
Lemma catch_up_keeps_all_fields_counterexample :
  ~ (forall env stopAt d w f b,
        conventional (pendingDir w) ->
        f ∈ visitedDuring w (processBatch env stopAt d w).2 ->
        readErrorBundle (pendingDir w) f = Some b ->
        processed b = true ->
        readErrorBundle (processedDir (processBatch env stopAt d w).2) f
        = Some b).
Proof.
  intros H.
  specialize (H sampleEnv None (newDaemon noOptions) staleWorld
                "error-b1.json" staleBundle staleWorld_conventional).
  assert (In "error-b1.json"
            (visitedDuring staleWorld
               (processBatch sampleEnv None (newDaemon noOptions) staleWorld).2))
    as Hin by (vm_compute; left; reflexivity).
  apply list_elem_of_In in Hin.
  specialize (H Hin eq_refl eq_refl).
  vm_compute in H. discriminate H.
Qed.

(** C6, amended.  A stale bundle (already marked processed) that a batch
    run picks up is in [processed] and not in [pending] at the end of
    the run, with every field as it was in [pending] except
    [processedAt], which is the time of the move; its resolution is
    kept, and the step neither calls the processor nor changes a
    counter. *)
Theorem stale_bundle_is_moved_and_restamped env stopAt d w f b :
  conventional (pendingDir w) ->
  f ∈ visitedDuring w (processBatch env stopAt d w).2 ->
  readErrorBundle (pendingDir w) f = Some b ->
  processed b = true ->
  (exists n b',
      (ticks w <= n)%nat
      /\ movedTo (processBatch env stopAt d w).2 f b'
      /\ processedAt b' = Some (clockAt env n)
      /\ id b' = id b /\ createdAt b' = createdAt b /\ version b' = version b
      /\ source b' = source b /\ context b' = context b
      /\ errors b' = errors b /\ retryCount b' = retryCount b
      /\ maxRetries b' = maxRetries b /\ processed b' = processed b
      /\ resolution b' = resolution b)
  /\ (forall d0 w0,
         readErrorBundle (pendingDir w0) f = Some b ->
         (processFile env f d0 w0).1.1 = d0
         /\ (processFile env f d0 w0).2 = None).
Proof.
  intros Hc Hin Hr Hproc. split.
  - destruct (processBatch_file env stopAt d w f Hc Hin)
      as (d0 & w0 & Ho & Hc0 & Ht0 & Hs0 & Hs1).
    assert (readErrorBundle (pendingDir w0) f = Some b) as Hr0.
    { rewrite <- Hr. apply readErrorBundle_lookup. symmetry. apply Hs0. }
    pose proof (conventional_read _ _ _ Hc Hr) as Hf.
    rewrite (processFile_stale env f d0 w0 b Hr0 Hproc) in Hs1.
    cbn [fst snd] in Hs1.
    exists (ticks w0), (stampProcessed (clockAt env (ticks w0)) b).
    split; [exact Ht0|]. split.
    { eapply movedTo_sameFile; [exact Hs1|]. rewrite Hf at 2.
      apply (moveBundleToProcessed_movedTo env b (visit f w0)). }
    cbn. rewrite Hproc. repeat split.
  - intros d0 w0 Hr0.
    rewrite (processFile_stale env f d0 w0 b Hr0 Hproc). split; reflexivity.
Qed.

(** *** Stopping during a run *)

(** After [stop()] was called during the turn of [cur], the loop visits
    nothing behind [cur]. *)
Lemma visits_until_stop env cur post pre :
  forall i d w,
    conventional (pendingDir w) ->
    visits env (Some (i + length pre)%nat) i (pre ++ cur :: post) d w
      `prefix_of` (pre ++ [cur]).
Proof.
  induction pre as [|p pre IH]; intros i d w Hc.
  - cbn [app length]. rewrite Nat.add_0_r.
    destruct (stopped d) eqn:Hs.
    { rewrite visits_stopped by exact Hs. apply prefix_nil. }
    rewrite visits_cons by assumption.
    destruct (turn_spec env (Some i) i cur d w Hc)
      as (_ & _ & _ & _ & _ & _ & Hstopped & _).
    rewrite bool_decide_eq_true_2, orb_true_r in Hstopped by reflexivity.
    destruct (turn env (Some i) i cur d w).2; [reflexivity|].
    rewrite visits_stopped by exact Hstopped. reflexivity.
  - cbn [app length].
    destruct (stopped d) eqn:Hs.
    { rewrite visits_stopped by exact Hs. apply prefix_nil. }
    rewrite visits_cons by assumption.
    apply prefix_cons.
    destruct (turn_spec env (Some (i + S (length pre))%nat) i p d w Hc)
      as (_ & _ & Hc1 & _).
    destruct (turn env _ i p d w) as [[d1 w1] [err|]]; cbn [fst snd] in *.
    { apply prefix_nil. }
    replace (i + S (length pre))%nat with (S i + length pre)%nat by lia.
    apply IH. exact Hc1.
Qed.

(** C5, as stated, fails: a run that started before [stop()] does not
    process every bundle of its batch.  With two pending bundles and
    [stop()] called while the first is processed, the second is in the
    batch and the run never picks it up. *)
Lemma stop_never_cuts_batch_counterexample :
  ~ (forall env stopAt d w f,
        conventional (pendingDir w) ->
        processing d = false ->
        stopped d = false ->
        options d = noOptions ->
        f ∈ take MAX_BATCH_SIZE (listPendingBundles w) ->
        f ∈ visitedDuring w (processBatch env stopAt d w).2).
Proof.
  intros H.
  assert (In "error-b2.json" (take MAX_BATCH_SIZE (listPendingBundles twoWorld)))
    as Hin by (vm_compute; right; left; reflexivity).
  apply list_elem_of_In in Hin.
  specialize (H sampleEnv (Some 0%nat) (newDaemon noOptions) twoWorld
                "error-b2.json" twoWorld_conventional eq_refl eq_refl eq_refl Hin).
  apply list_elem_of_In in H. vm_compute in H.
  destruct H as [H|[]]. discriminate H.
Qed.

(** C5, amended.  [stop()] sets the stop flag, closes the watcher and
    clears the poll and debounce timers, after which triggers schedule
    nothing and no run starts.  A batch run that is in flight when
    [stop()] is called ends after the bundle it is working on: that
    bundle gets its full processing step, and the bundles behind it in
    the batch are not picked up by that run and stay in the queue as they
    were. *)
Theorem stop_ends_inflight_batch env d w pre cur post :
  conventional (pendingDir w) ->
  take MAX_BATCH_SIZE (listPendingBundles w) = (pre ++ cur :: post)%list ->
  let w' := (processBatch env (Some (length pre)) d w).2 in
  (forall g, g ∈ post -> (g ∉ visitedDuring w w') /\ sameFile g w w')
  /\ (cur ∈ visitedDuring w w' ->
      exists d0 w0,
        options d0 = options d /\ sameFile cur w w0
        /\ sameFile cur (processFile env cur d0 w0).1.2 w')
  /\ (forall d0 w0,
         let d1 := (stop d0 w0).1 in
         stopped d1 = true /\ watcher d1 = false /\ pollTimer d1 = false
         /\ debounceTimer d1 = false
         /\ scheduleBatch d1 = d1 /\ pollFires d1 = d1
         /\ (forall p, watcherFires p d1 = d1)
         /\ (forall env' s w1,
                debounceFires env' s d1 w1 = (d1, w1)
                /\ processBatch env' s d1 w1 = (d1, w1))).
Proof.
  intros Hc Hbatch w'. subst w'. split.
  - intros g Hg.
    assert (g ∉ visitedDuring w (processBatch env (Some (length pre)) d w).2)
      as Hnot.
    { destruct (processing d || stopped d) eqn:Hgd.
      { rewrite processBatch_idle by exact Hgd. cbn.
        rewrite visitedDuring_same. apply not_elem_of_nil. }
      destruct (processBatch_run env (Some (length pre)) d w Hgd)
        as (_ & _ & _ & Hv).
      unfold visitedDuring. rewrite Hv, Hbatch.
      pose proof (visits_until_stop env cur post pre 0 (enterBatch env d w).1
                    (enterBatch env d w).2 Hc) as Hpre.
      cbn [Nat.add] in Hpre.
      intros Hin. pose proof (elem_of_prefix _ _ _ Hin Hpre) as Hin'.
      pose proof (batch_NoDup w MAX_BATCH_SIZE) as Hnd.
      rewrite Hbatch in Hnd.
      replace (pre ++ cur :: post)%list with ((pre ++ [cur]) ++ post)%list in Hnd
        by (rewrite <- app_assoc; reflexivity).
      apply NoDup_app in Hnd as (_ & Hdisj & _).
      exact (Hdisj g Hin' Hg). }
    split; [exact Hnot|].
    apply processBatch_frame; assumption.
  - split.
    { intros Hin.
      destruct (processBatch_file env (Some (length pre)) d w cur Hc Hin)
        as (d0 & w0 & Ho & _ & _ & Hs0 & Hs1).
      exists d0, w0. repeat split; try assumption; apply Hs0 || apply Hs1. }
    intros d0 w0 d1. subst d1.
    do 6 (split; [reflexivity|]).
    split; [intros p; reflexivity|].
    intros env' s w1. split; [reflexivity|].
    apply processBatch_idle. apply orb_true_r.
Qed.

(** ** The properties on concrete queues *)

Lemma writeErrorBundle_readErrorBundle_witness :
  readErrorBundle (pendingDir (writeErrorBundle sampleEnv sampleParams emptyWorld).2)
                  "error-u0.json"
  = Some (writeErrorBundle sampleEnv sampleParams emptyWorld).1.
Proof.
  apply (writeErrorBundle_readErrorBundle sampleEnv sampleParams emptyWorld
           (writeErrorBundle sampleEnv sampleParams emptyWorld).1
           (writeErrorBundle sampleEnv sampleParams emptyWorld).2).
  - reflexivity.
  - split; [discriminate|reflexivity].
  - intros m Hm. discriminate Hm.
Defined.

Lemma start_reinitializes_state_witness :
  state (start sampleEnv
               (setState (withStatus Error crashedState)
                         (setState crashedState (newDaemon noOptions)))
               crashedWorld).1
  = mkState Running (Some "2026-01-02T00:00:00.000Z") None 0 0 0 (Some 4242).
Proof.
  apply (start_reinitializes_state sampleEnv
           (setState (withStatus Error crashedState)
                     (setState crashedState (newDaemon noOptions)))
           crashedWorld).
  discriminate.
Defined.



Lemma invalid_file_is_quarantined_witness :
  pendingDir (processBatch sampleEnv None (newDaemon noOptions) futureWorld).2
    !! "error-b9.json" = None
  /\ invalidDir (processBatch sampleEnv None (newDaemon noOptions) futureWorld).2
       !! "error-b9.json" = Some futureContent.
Proof.
  destruct (invalid_file_is_quarantined sampleEnv None (newDaemon noOptions)
              futureWorld "error-b9.json" futureContent)
    as (_ & _ & Hgone & _ & Hinvalid & _).
  - apply map_Forall_singleton. vm_compute. reflexivity.
  - apply list_elem_of_In. vm_compute. left. reflexivity.
  - vm_compute. reflexivity.
  - right. discriminate.
  - split; [exact Hgone|exact Hinvalid].
Defined.

Lemma stale_bundle_is_moved_and_restamped_witness :
  exists n b',
    (ticks staleWorld <= n)%nat
    /\ movedTo (processBatch sampleEnv None (newDaemon noOptions) staleWorld).2
               "error-b1.json" b'
    /\ processedAt b' = Some (clockAt sampleEnv n)
    /\ id b' = id staleBundle /\ createdAt b' = createdAt staleBundle
    /\ version b' = version staleBundle /\ source b' = source staleBundle
    /\ context b' = context staleBundle /\ errors b' = errors staleBundle
    /\ retryCount b' = retryCount staleBundle
    /\ maxRetries b' = maxRetries staleBundle
    /\ processed b' = processed staleBundle
    /\ resolution b' = resolution staleBundle.
Proof.
  apply (stale_bundle_is_moved_and_restamped sampleEnv None
           (newDaemon noOptions) staleWorld "error-b1.json" staleBundle).
  - exact staleWorld_conventional.
  - apply list_elem_of_In. vm_compute. left. reflexivity.
  - vm_compute. reflexivity.
  - reflexivity.
Defined.

Lemma stop_ends_inflight_batch_witness :
  ("error-b2.json"
     ∉ visitedDuring twoWorld
         (processBatch sampleEnv (Some 0%nat) (newDaemon noOptions) twoWorld).2)
  /\ sameFile "error-b2.json" twoWorld
       (processBatch sampleEnv (Some 0%nat) (newDaemon noOptions) twoWorld).2.
Proof.
  destruct (stop_ends_inflight_batch sampleEnv (newDaemon noOptions) twoWorld
              [] "error-b1.json" ["error-b2.json"]) as (Hrest & _ & _).
  - exact twoWorld_conventional.
  - vm_compute. reflexivity.
  - apply (Hrest "error-b2.json"). left.
Defined.

(** ** Runs that nothing interrupts *)

Lemma processFile_no_escape env f d w :
  onProcessError (options d) = None -> (processFile env f d w).2 = None.
Proof.
  intros Hq.
  assert (forall b err d0 w0, options d0 = options d ->
            (processBundleCatch env b err d0 w0).2 = None) as Hcatch.
  { intros b err d0 w0 Ho. unfold processBundleCatch. cbn [options setState].
    rewrite Ho, Hq. reflexivity. }
  assert (forall b res d0 w0, options d0 = options d ->
            (processBundleMove env b res d0 w0).2 = None) as Hmove.
  { intros b res d0 w0 Ho. unfold processBundleMove.
    destruct (onBundleProcessed _ ≫= _); [|reflexivity].
    apply Hcatch. exact Ho. }
  unfold processFile.
  destruct (readErrorBundle _ f) as [b|]; [destruct (processed b)|];
    try reflexivity.
  unfold processBundle. destruct (processorOf d b) as [res|err].
  - destruct (resolved res); [apply Hmove; reflexivity|].
    destruct (retryTriggered res && _); [reflexivity|].
    apply Hmove. reflexivity.
  - apply Hcatch. reflexivity.
Qed.

(** Without a call of [stop()] and without an error handler that could
    throw, the loop visits the whole batch. *)
Lemma visits_all env batch :
  forall i d w,
    conventional (pendingDir w) ->
    stopped d = false ->
    onProcessError (options d) = None ->
    visits env None i batch d w = batch.
Proof.
  induction batch as [|f rest IH]; intros i d w Hc Hs Hq.
  - apply visits_nil.
  - rewrite visits_cons by assumption.
    destruct (turn_spec env None i f d w Hc)
      as (Ho & _ & Hc1 & _ & _ & Hthrown & Hstopped & _).
    rewrite Hthrown, (processFile_no_escape env f d w Hq).
    rewrite Hs, bool_decide_eq_false_2 in Hstopped by discriminate.
    f_equal. apply IH; [exact Hc1|exact Hstopped|congruence].
Qed.

Lemma processBatch_visits_all env d w :
  conventional (pendingDir w) ->
  processing d = false ->
  stopped d = false ->
  onProcessError (options d) = None ->
  visitedDuring w (processBatch env None d w).2
  = take MAX_BATCH_SIZE (listPendingBundles w).
Proof.
  intros Hc Hp Hs Hq.
  assert (processing d || stopped d = false) as Hg by (rewrite Hp, Hs; reflexivity).
  destruct (processBatch_run env None d w Hg) as (_ & _ & _ & Hv).
  unfold visitedDuring. rewrite Hv.
  apply (visits_all env _ 0 (enterBatch env d w).1 (enterBatch env d w).2);
    assumption.
Qed.

(** ** The scenarios of the specification, run on the model *)

(** Scenario A: three bundles without retries and a processor that gives
    up: one run leaves three files in [processed], none in [pending],
    three failures and no resolution. *)
Example scenario_A :
  let out := runs sampleEnv 1 (newDaemon (mkOptions None (Some giveUp) None None))
                  threeWorld in
  size (processedDir out.2) = 3%nat
  /\ size (pendingDir out.2) = 0%nat
  /\ bundlesFailed (state out.1) = 3%Z
  /\ bundlesResolved (state out.1) = 0%Z.
Proof. vm_compute. repeat split. Qed.

(** Scenario B: one bundle with three retries and a processor that always
    asks for a retry: after runs 1, 2 and 3 the bundle is in [pending]
    with [retryCount] 1, 2 and 3; run 4 moves it to [processed] with
    [retryCount = 3] and [resolved = false]. *)
Example scenario_B :
  let after n := (runs sampleEnv n (newDaemon retryOptions) sampleWorld).2 in
  retryCount <$> readErrorBundle (pendingDir (after 1%nat)) "error-b1.json"
  = Some (num 1)
  /\ retryCount <$> readErrorBundle (pendingDir (after 2%nat)) "error-b1.json"
     = Some (num 2)
  /\ retryCount <$> readErrorBundle (pendingDir (after 3%nat)) "error-b1.json"
     = Some (num 3)
  /\ pendingDir (after 4%nat) !! "error-b1.json" = None
  /\ (fun b => (retryCount b, processed b, resolved <$> resolution b))
       <$> readErrorBundle (processedDir (after 4%nat)) "error-b1.json"
     = Some (num 3, true, Some false).
Proof. vm_compute. repeat split. Qed.


(** * Further properties of the code *)

(** ** File names and the listing of [pending] *)

Lemma string_app_nil (b : string) : EmptyString +:+ b = b.
Proof. reflexivity. Qed.

Lemma string_app_cons (c : ascii) (a b : string) :
  String c a +:+ b = String c (a +:+ b).
Proof. reflexivity. Qed.

Lemma string_length_app (a b : string) :
  String.length (a +:+ b) = (String.length a + String.length b)%nat.
Proof.
  induction a as [|c a IH]; [reflexivity|].
  rewrite string_app_cons. cbn [String.length]. rewrite IH. reflexivity.
Qed.

Lemma string_app_assoc (a b c : string) : (a +:+ b) +:+ c = a +:+ (b +:+ c).
Proof.
  induction a as [|x a IH]; [reflexivity|].
  rewrite !string_app_cons, IH. reflexivity.
Qed.

Lemma substring_all (b : string) : String.substring 0 (String.length b) b = b.
Proof. induction b as [|c b IH]; cbn; [reflexivity|]. rewrite IH. reflexivity. Qed.

Lemma substring_app_tail (a b : string) :
  String.substring (String.length a) (String.length b) (a +:+ b) = b.
Proof.
  induction a as [|c a IH]; [apply substring_all|].
  rewrite string_app_cons. cbn [String.length String.substring]. exact IH.
Qed.

Lemma string_app_inv_tail (a b c : string) : a +:+ c = b +:+ c -> a = b.
Proof.
  revert b. induction a as [|x a IH]; intros [|y b] H.
  - reflexivity.
  - apply (f_equal String.length) in H.
    rewrite !string_length_app in H. cbn [String.length] in H. lia.
  - apply (f_equal String.length) in H.
    rewrite !string_length_app in H. cbn [String.length] in H. lia.
  - rewrite !string_app_cons in H. injection H as -> H.
    f_equal. apply IH. exact H.
Qed.

Lemma startsWith_app (p x : string) : startsWith (p +:+ x) p = true.
Proof.
  unfold startsWith. induction p as [|c p IH]; [destruct x; reflexivity|].
  rewrite string_app_cons. cbn [String.prefix].
  destruct (ascii_dec c c) as [_|Hc]; [exact IH|contradiction].
Qed.

Lemma endsWith_app (a p : string) : endsWith (a +:+ p) p = true.
Proof.
  unfold endsWith. rewrite string_length_app.
  replace (String.length a + String.length p - String.length p)%nat
    with (String.length a) by lia.
  rewrite substring_app_tail, String.eqb_refl, andb_true_r.
  apply Nat.leb_le. lia.
Qed.

Lemma substring_split (n : nat) (s : string) :
  (n <= String.length s)%nat ->
  s = String.substring 0 n s +:+ String.substring n (String.length s - n) s.
Proof.
  revert s. induction n as [|n IH]; intros s Hn.
  - rewrite Nat.sub_0_r, substring_all. destruct s; reflexivity.
  - destruct s as [|c s]; cbn [String.length] in *; [lia|].
    cbn [String.substring]. rewrite string_app_cons. f_equal.
    apply IH. lia.
Qed.

Lemma endsWith_suffix (s t : string) :
  endsWith s t = true -> exists front, s = front +:+ t.
Proof.
  unfold endsWith. intros H. apply andb_true_iff in H as [Hlen Heq].
  apply Nat.leb_le in Hlen. apply String.eqb_eq in Heq.
  exists (String.substring 0 (String.length s - String.length t) s).
  assert (String.length s - String.length t <= String.length s)%nat as Hle
      by lia.
  pose proof (substring_split _ s Hle) as Hs.
  replace (String.length s - (String.length s - String.length t))%nat
    with (String.length t) in Hs by lia.
  rewrite Heq in Hs. exact Hs.
Qed.

Lemma string_app_same_tail (a b p q : string) :
  a +:+ p = b +:+ q -> String.length p = String.length q -> p = q.
Proof.
  revert b. induction a as [|x a IH]; intros [|y b] H Hlen.
  - exact H.
  - apply (f_equal String.length) in H.
    rewrite !string_length_app in H. cbn [String.length] in H. lia.
  - apply (f_equal String.length) in H.
    rewrite !string_length_app in H. cbn [String.length] in H. lia.
  - rewrite !string_app_cons in H. injection H as _ H.
    exact (IH b H Hlen).
Qed.

(** A name whose last characters are [p] does not end with a longer
    [c :: q] when [q] is as long as [p] and differs from it. *)
Lemma endsWith_app_other (a p q : string) (c : ascii) :
  String.length p = String.length q -> p <> q ->
  endsWith (a +:+ p) (String c q) = false.
Proof.
  intros Hlen Hne. destruct (endsWith (a +:+ p) (String c q)) eqn:He;
    [|reflexivity].
  apply endsWith_suffix in He as [front He].
  change (String c q) with (String c EmptyString +:+ q) in He.
  rewrite <- string_app_assoc in He.
  apply string_app_same_tail in He; [contradiction|exact Hlen].
Qed.

Lemma insertSorted_ascending x l : ascending l -> ascending (insertSorted x l).
Proof.
  unfold ascending. intros Hs. induction Hs as [|y l Hs IH Hhd].
  - cbn. repeat constructor.
  - cbn [insertSorted]. destruct (String.leb x y) eqn:Hxy.
    + constructor; [constructor; assumption|]. constructor. exact Hxy.
    + constructor; [exact IH|].
      assert (String.leb y x = true) as Hyx.
      { destruct (String.leb_total x y) as [H|H]; [congruence|exact H]. }
      destruct Hhd as [|z l Hyz]; cbn [insertSorted].
      * constructor. exact Hyx.
      * destruct (String.leb x z); constructor; assumption.
Qed.

Lemma sortNames_ascending l : ascending (sortNames l).
Proof.
  induction l as [|x l IH]; cbn [sortNames foldr].
  - constructor.
  - apply insertSorted_ascending. exact IH.
Qed.

(** X1.  [listPendingBundles] returns, in ascending order and without
    repetition, exactly the names of the files of [pending] that start
    with "error-" and end with ".json". *)
Theorem listPendingBundles_sorted_exact w :
  ascending (listPendingBundles w)
  /\ NoDup (listPendingBundles w)
  /\ (forall name,
         name ∈ listPendingBundles w
         <-> is_Some (pendingDir w !! name)
             /\ startsWith name "error-" = true
             /\ endsWith name ".json" = true).
Proof.
  split; [apply sortNames_ascending|].
  split; [apply listPendingBundles_NoDup|].
  intros name. rewrite listPendingBundles_elem. unfold isBundleName.
  rewrite andb_true_iff. reflexivity.
Qed.

Lemma buildBundleFilename_inj a b :
  buildBundleFilename a = buildBundleFilename b -> a = b.
Proof.
  intros H. unfold buildBundleFilename in H.
  apply (inj (String.append "error-")) in H.
  apply string_app_inv_tail in H. exact H.
Qed.

Lemma isBundleName_buildBundleFilename a :
  isBundleName (buildBundleFilename a) = true.
Proof.
  unfold isBundleName, buildBundleFilename.
  rewrite startsWith_app. rewrite <- string_app_assoc, endsWith_app.
  reflexivity.
Qed.

Lemma isBundleName_tmp f u : isBundleName (f +:+ "." +:+ u +:+ ".tmp") = false.
Proof.
  unfold isBundleName. rewrite <- !string_app_assoc.
  rewrite (endsWith_app_other _ ".tmp" "json" ".")
    by (reflexivity || discriminate).
  apply andb_false_r.
Qed.

(** X2.  [buildBundleFilename] gives different names to different
    identifiers, every name it builds is one that [listPendingBundles]
    accepts, and the temporary name of an atomic write
    ([<name>.<uuid>.tmp]) is never one. *)
Theorem buildBundleFilename_names :
  (forall a b, buildBundleFilename a = buildBundleFilename b -> a = b)
  /\ (forall a, isBundleName (buildBundleFilename a) = true)
  /\ (forall a u,
         isBundleName (buildBundleFilename a +:+ "." +:+ u +:+ ".tmp") = false).
Proof.
  split; [exact buildBundleFilename_inj|].
  split; [exact isBundleName_buildBundleFilename|].
  intros a u. apply isBundleName_tmp.
Qed.

(** ** Writing and emitting bundles *)

Lemma tmp_name_differs (f u : string) : f +:+ "." +:+ u +:+ ".tmp" <> f.
Proof.
  intros H. apply (f_equal String.length) in H.
  rewrite !string_length_app in H. cbn [String.length] in H. lia.
Qed.

Lemma writeErrorBundle_pending env params w :
  pendingDir (writeErrorBundle env params w).2
  = <[buildBundleFilename (uuidAt env (uuids w)) :=
        Json (jsonOfBundle (writeErrorBundle env params w).1)]>
      (delete (buildBundleFilename (uuidAt env (uuids w)) +:+ "."
               +:+ uuidAt env (S (uuids w)) +:+ ".tmp")
              (pendingDir w)).
Proof.
  unfold writeErrorBundle. cbn [randomUUID now fst snd pendingDir setPending uuids].
  unfold renameIn. rewrite lookup_insert_eq, delete_insert_eq. reflexivity.
Qed.

Lemma writeErrorBundle_listed env params w :
  let bundle := (writeErrorBundle env params w).1 in
  let w' := (writeErrorBundle env params w).2 in
  pendingDir w' !! buildBundleFilename (id bundle)
  = Some (Json (jsonOfBundle bundle))
  /\ buildBundleFilename (id bundle) ∈ listPendingBundles w'.
Proof.
  intros bundle w'.
  assert (pendingDir w' !! buildBundleFilename (id bundle)
          = Some (Json (jsonOfBundle bundle))) as Hf.
  { subst w' bundle. rewrite writeErrorBundle_pending. apply lookup_insert_eq. }
  split; [exact Hf|].
  apply listPendingBundles_elem. split; [rewrite Hf; eauto|].
  apply isBundleName_buildBundleFilename.
Qed.

(** X3.  [writeErrorBundle] leaves the new bundle under
    [error-<id>.json] in [pending], where [listPendingBundles] finds it;
    its temporary file is gone; no other pending file changes, and
    [processed], [processed/invalid] and the state file are not touched.
    The bundle starts with [retryCount = 0], unprocessed, without
    resolution, and with [maxRetries] 3 unless the caller gave one. *)
Theorem writeErrorBundle_effect env params w :
  let bundle := (writeErrorBundle env params w).1 in
  let w' := (writeErrorBundle env params w).2 in
  let f := buildBundleFilename (id bundle) in
  let tmp := f +:+ "." +:+ uuidAt env (S (uuids w)) +:+ ".tmp" in
  pendingDir w' !! f = Some (Json (jsonOfBundle bundle))
  /\ f ∈ listPendingBundles w'
  /\ pendingDir w' !! tmp = None
  /\ (forall g, g <> f -> g <> tmp -> pendingDir w' !! g = pendingDir w !! g)
  /\ processedDir w' = processedDir w
  /\ invalidDir w' = invalidDir w
  /\ stateFile w' = stateFile w
  /\ retryCount bundle = 0%Z /\ processed bundle = false
  /\ processedAt bundle = None /\ resolution bundle = None
  /\ maxRetries bundle = default (num 3) (paramMaxRetries params).
Proof.
  intros bundle w' f tmp.
  destruct (writeErrorBundle_listed env params w) as [Hf Hl].
  split; [exact Hf|]. split; [exact Hl|].
  split.
  { subst w' tmp f bundle. rewrite writeErrorBundle_pending.
    rewrite lookup_insert_ne by (apply not_eq_sym, tmp_name_differs).
    apply lookup_delete_eq. }
  split.
  { intros g Hg Hg'. subst w' tmp f bundle. rewrite writeErrorBundle_pending.
    rewrite lookup_insert_ne by (apply not_eq_sym; exact Hg).
    apply lookup_delete_ne. apply not_eq_sym. exact Hg'. }
  repeat split.
Qed.

Lemma writeErrorBundle_keeps_convention env params w :
  conventional (pendingDir w) ->
  uuidAt env (uuids w) <> "" ->
  finiteMaxRetries params ->
  conventional (pendingDir (writeErrorBundle env params w).2).
Proof.
  intros Hc Hid Hm. rewrite writeErrorBundle_pending.
  apply map_Forall_insert_2; [|apply map_Forall_delete; exact Hc].
  apply (fileOk_jsonOfBundle (writeErrorBundle env params w).1).
  - split; [exact Hid|reflexivity].
  - apply writeErrorBundle_finite. exact Hm.
Qed.

(** The convention does not survive a write with a retry ceiling that is
    not finite: the file then holds [null] under [maxRetries], which is
    not the record format. *)
Lemma writeErrorBundle_unbounded_ceiling :
  conventional (pendingDir emptyWorld)
  /\ uuidAt sampleEnv (uuids emptyWorld) <> ""
  /\ ~ conventional
         (pendingDir (writeErrorBundle sampleEnv unboundedParams emptyWorld).2).
Proof.
  split; [apply map_Forall_empty|]. split; [discriminate|].
  intros H.
  pose proof (map_Forall_lookup_1 _ _
                (buildBundleFilename
                   (id (writeErrorBundle sampleEnv unboundedParams emptyWorld).1))
                (Json (jsonOfBundle
                         (writeErrorBundle sampleEnv unboundedParams emptyWorld).1))
                H) as Hok.
  cbv beta in Hok.
  assert (fileOk
            (buildBundleFilename
               (id (writeErrorBundle sampleEnv unboundedParams emptyWorld).1))
            (Json (jsonOfBundle
                     (writeErrorBundle sampleEnv unboundedParams emptyWorld).1))
          = false) as Hno by (vm_compute; reflexivity).
  rewrite Hok in Hno; [discriminate Hno|].
  rewrite writeErrorBundle_pending. apply lookup_insert_eq.
Qed.

(** X4.  [writeErrorBundle] keeps the naming convention of [pending]:
    when every readable pending file is named after its identifier, the
    same holds after a write whose identifier is not empty and whose
    retry ceiling is the default or a finite number. *)
Theorem writeErrorBundle_conventional env params w :
  conventional (pendingDir w) ->
  uuidAt env (uuids w) <> "" ->
  finiteMaxRetries params ->
  conventional (pendingDir (writeErrorBundle env params w).2).
Proof. apply writeErrorBundle_keeps_convention. Qed.

Lemma writeErrorBundle_conventional_witness :
  conventional (pendingDir (writeErrorBundle sampleEnv sampleParams sampleWorld).2).
Proof.
  apply (writeErrorBundle_conventional sampleEnv sampleParams sampleWorld).
  - exact sampleWorld_conventional.
  - discriminate.
  - intros m Hm. discriminate Hm.
Defined.

(** X5.  Every bundle that [emitErrorBundle] emits can be read back from
    [pending] and is listed for the daemon; it has exactly one error
    entry, built from the reported value, with severity [error] unless
    one was given; it is fresh ([retryCount = 0], unprocessed) and has the
    default budget of 3 retries. *)
Theorem emitErrorBundle_fresh env params w :
  uuidAt env (uuids w) <> "" ->
  let w' := emitErrorBundle env params w in
  let f := buildBundleFilename (uuidAt env (uuids w)) in
  exists b,
    readErrorBundle (pendingDir w') f = Some b
    /\ f ∈ listPendingBundles w'
    /\ source b = emitSource params
    /\ errors b
       = [mkEntry (formatErrorMessage (emitError params))
                  (thrownStack (emitError params))
                  (default SevError (emitSeverity params))
                  (extractErrorCode (emitError params))]
    /\ retryCount b = 0%Z /\ maxRetries b = DEFAULT_MAX_RETRIES
    /\ processed b = false /\ resolution b = None.
Proof.
  intros Hid w' f. subst w' f. unfold emitErrorBundle.
  set (p := mkParams _ _ _ _).
  destruct (writeErrorBundle_listed env p w) as (Hf & Hl).
  exists (writeErrorBundle env p w).1. split.
  { apply readErrorBundle_written; [| |exact Hf].
    - split; [exact Hid|reflexivity].
    - apply writeErrorBundle_finite. intros m Hm. discriminate Hm. }
  split; [exact Hl|]. repeat split.
Qed.

Lemma emitErrorBundle_fresh_witness :
  exists b,
    readErrorBundle
      (pendingDir
         (emitErrorBundle sampleEnv
            (mkEmit (mkSource (Some "deploy") None None None None) None
                    (mkThrown "boom" None None) (Some SevFatal)) emptyWorld))
      "error-u0.json" = Some b
    /\ severity <$> errors b = [SevFatal].
Proof.
  destruct (emitErrorBundle_fresh sampleEnv
              (mkEmit (mkSource (Some "deploy") None None None None) None
                      (mkThrown "boom" None None) (Some SevFatal)) emptyWorld)
    as (b & Hr & _ & _ & He & _).
  - discriminate.
  - exists b. split; [exact Hr|]. rewrite He. reflexivity.
Defined.

(** X6.  A cron failure is emitted under the job's name and id, with the
    job message as command, always with severity [error]; a skill
    failure is emitted under the skill's name, without a cron id, with
    the severity the caller gave ([error] when none).  Both write one
    pending bundle named after a fresh identifier. *)
Theorem emit_wrappers_fields env newError w :
  uuidAt env (uuids w) <> "" ->
  let f := buildBundleFilename (uuidAt env (uuids w)) in
  (forall params,
      exists b,
        readErrorBundle
          (pendingDir (emitCronJobErrorBundle env newError params w)) f = Some b
        /\ skillName (source b) = Some (cronJobName params)
        /\ cronJobId (source b) = Some (cronJobIdParam params)
        /\ command (context b) = cronMessage params
        /\ workspaceDir (context b) = cronWorkspaceDir params
        /\ (message <$> errors b)
           = [formatErrorMessage (newError (cronError params))]
        /\ (severity <$> errors b) = [SevError])
  /\ (forall params,
         exists b,
           readErrorBundle
             (pendingDir (emitSkillErrorBundle env params w)) f = Some b
           /\ skillName (source b) = Some (skillNameParam params)
           /\ cronJobId (source b) = None
           /\ command (context b) = skillCommand params
           /\ relatedFiles (context b) = skillRelatedFiles params
           /\ skillContent (context b) = skillContentParam params
           /\ (message <$> errors b) = [formatErrorMessage (skillError params)]
           /\ (severity <$> errors b)
              = [default SevError (skillSeverity params)]).
Proof.
  intros Hid f. subst f. split; intros params.
  - unfold emitCronJobErrorBundle, emitErrorBundle.
    set (p := mkParams _ _ _ _).
    destruct (writeErrorBundle_listed env p w) as (Hf & _).
    exists (writeErrorBundle env p w).1. split.
    { apply readErrorBundle_written; [| |exact Hf].
      - split; [exact Hid|reflexivity].
      - apply writeErrorBundle_finite. intros m Hm. discriminate Hm. }
    repeat split.
  - unfold emitSkillErrorBundle, emitErrorBundle.
    set (p := mkParams _ _ _ _).
    destruct (writeErrorBundle_listed env p w) as (Hf & _).
    exists (writeErrorBundle env p w).1. split.
    { apply readErrorBundle_written; [| |exact Hf].
      - split; [exact Hid|reflexivity].
      - apply writeErrorBundle_finite. intros m Hm. discriminate Hm. }
    repeat split.
Qed.

Lemma emit_wrappers_fields_witness :
  exists b,
    readErrorBundle
      (pendingDir
         (emitCronJobErrorBundle sampleEnv (fun s => mkThrown s None None)
            (mkCronParams "job-7" "nightly" None None (Some "sync") None "timeout")
            emptyWorld))
      "error-u0.json" = Some b
    /\ cronJobId (source b) = Some "job-7".
Proof.
  destruct (emit_wrappers_fields sampleEnv (fun s => mkThrown s None None)
              emptyWorld) as [Hcron _].
  - discriminate.
  - destruct (Hcron (mkCronParams "job-7" "nightly" None None (Some "sync")
                                  None "timeout"))
      as (b & Hr & _ & Hid & _).
    exists b. split; [exact Hr|exact Hid].
Defined.

(** ** What a batch run keeps *)

(** A property of daemon and world that every step keeps holds at the
    end of the loop. *)
Lemma batchLoop_invariant (P : ErrorFeedbackDaemon -> World -> Prop)
    env stopAt batch :
  (forall f d w,
      P d w -> P (processFile env f d w).1.1 (processFile env f d w).1.2) ->
  (stopAt <> None -> forall d w, P d w -> P (stop d w).1 (stop d w).2) ->
  forall i d w,
    P d w ->
    P (batchLoop env stopAt i batch d w).1.1 (batchLoop env stopAt i batch d w).1.2.
Proof.
  intros Hstep Hstop.
  induction batch as [|f rest IH]; intros i d w HP; [exact HP|].
  rewrite batchLoop_cons. destruct (stopped d); [exact HP|].
  assert (P (turn env stopAt i f d w).1.1 (turn env stopAt i f d w).1.2) as HP'.
  { unfold turn. specialize (Hstep f d w HP).
    destruct (processFile env f d w) as [[d1 w1] thrown]. cbn [fst snd] in *.
    destruct (decide (stopAt = Some i)) as [He|He]; [|exact Hstep].
    apply Hstop; [congruence|exact Hstep]. }
  destruct (turn env stopAt i f d w) as [[d1 w1] [err|]]; cbn [fst snd] in *.
  - exact HP'.
  - apply IH. exact HP'.
Qed.

(** The loop never visits more files than its batch holds. *)
Lemma batchLoop_visited_le env stopAt batch :
  forall i d w,
    exists vs,
      visited (batchLoop env stopAt i batch d w).1.2 = visited w ++ vs
      /\ (length vs <= length batch)%nat.
Proof.
  induction batch as [|f rest IH]; intros i d w.
  - exists []. cbn. rewrite app_nil_r. split; [reflexivity|lia].
  - rewrite batchLoop_cons. destruct (stopped d).
    { exists []. cbn. rewrite app_nil_r. split; [reflexivity|lia]. }
    assert (visited (turn env stopAt i f d w).1.2 = visited w ++ [f]) as Hv.
    { unfold turn. pose proof (processFile_control env f d w) as (_ & _ & Hv).
      destruct (processFile env f d w) as [[d1 w1] thrown].
      destruct (decide (stopAt = Some i)); exact Hv. }
    destruct (turn env stopAt i f d w) as [[d1 w1] [err|]]; cbn [fst snd] in *.
    + exists [f]. split; [exact Hv|cbn; lia].
    + destruct (IH (S i) d1 w1) as (vs & Hvs & Hlen).
      exists (f :: vs). split; [|cbn; lia].
      rewrite Hvs, Hv, <- app_assoc. reflexivity.
Qed.

(** Without an error handler no exception leaves the loop. *)
Lemma batchLoop_no_escape env stopAt batch :
  forall i d w,
    onProcessError (options d) = None ->
    (batchLoop env stopAt i batch d w).2 = None.
Proof.
  induction batch as [|f rest IH]; intros i d w Hq; [reflexivity|].
  rewrite batchLoop_cons. destruct (stopped d); [reflexivity|].
  assert ((turn env stopAt i f d w).2 = None
          /\ options (turn env stopAt i f d w).1.1 = options d) as [Ht Ho].
  { unfold turn. pose proof (processFile_no_escape env f d w Hq) as Hn.
    pose proof (processFile_control env f d w) as (Ho & _).
    destruct (processFile env f d w) as [[d1 w1] thrown]. cbn [fst snd] in *.
    destruct (decide (stopAt = Some i)); split; assumption. }
  destruct (turn env stopAt i f d w) as [[d1 w1] [err|]]; cbn [fst snd] in *;
    [discriminate|].
  apply IH. congruence.
Qed.

(** X7.  A batch run keeps the naming convention of [pending]: when every
    readable pending file is named after its identifier before the run,
    the same holds after it, however the run ends. *)
Theorem processBatch_conventional env stopAt d w :
  conventional (pendingDir w) ->
  conventional (pendingDir (processBatch env stopAt d w).2).
Proof.
  intros Hc. destruct (processing d || stopped d) eqn:Hg.
  { rewrite processBatch_idle by exact Hg. exact Hc. }
  destruct (processBatch_run env stopAt d w Hg) as (Hp & _).
  rewrite Hp.
  destruct (batchLoop_spec env stopAt (take MAX_BATCH_SIZE (listPendingBundles w))
              0 (enterBatch env d w).1 (enterBatch env d w).2 Hc)
    as (_ & _ & _ & _ & Hc' & _).
  exact Hc'.
Qed.

Lemma processBatch_conventional_witness :
  conventional
    (pendingDir (processBatch sampleEnv (Some 0%nat) (newDaemon retryOptions)
                              twoWorld).2).
Proof.
  apply (processBatch_conventional sampleEnv (Some 0%nat)
           (newDaemon retryOptions) twoWorld).
  exact twoWorld_conventional.
Defined.

(** X8.  A batch run works through the sorted listing from its start and
    stops after at most 10 files: the files it visits are a prefix of
    the first 10 listed names, and every listed file behind the tenth is
    left exactly as it was. *)
Theorem processBatch_order_and_cap env stopAt d w :
  conventional (pendingDir w) ->
  let w' := (processBatch env stopAt d w).2 in
  visitedDuring w w' `prefix_of` take MAX_BATCH_SIZE (listPendingBundles w)
  /\ (length (visitedDuring w w') <= 10)%nat
  /\ (forall g, g ∈ drop MAX_BATCH_SIZE (listPendingBundles w) ->
                sameFile g w w').
Proof.
  intros Hc w'. subst w'.
  assert (visitedDuring w (processBatch env stopAt d w).2
            `prefix_of` take MAX_BATCH_SIZE (listPendingBundles w)) as Hpre.
  { destruct (processing d || stopped d) eqn:Hg.
    { rewrite processBatch_idle by exact Hg. cbn.
      rewrite visitedDuring_same. apply prefix_nil. }
    destruct (processBatch_run env stopAt d w Hg) as (_ & _ & _ & Hv).
    destruct (batchLoop_spec env stopAt (take MAX_BATCH_SIZE (listPendingBundles w))
                0 (enterBatch env d w).1 (enterBatch env d w).2 Hc)
      as (vs & Hvs & Hpre & _).
    unfold visitedDuring. rewrite Hv.
    change (length (visited w)) with (length (visited (enterBatch env d w).2)).
    rewrite Hvs, drop_app_length. exact Hpre. }
  split; [exact Hpre|]. split.
  { apply prefix_length in Hpre. rewrite length_take in Hpre.
    unfold MAX_BATCH_SIZE in Hpre. lia. }
  intros g Hg. apply processBatch_frame; [exact Hc|].
  intros Hin. pose proof (elem_of_prefix _ _ _ Hin Hpre) as Hin'.
  pose proof (listPendingBundles_NoDup w) as Hnd.
  rewrite <- (take_drop MAX_BATCH_SIZE (listPendingBundles w)) in Hnd.
  apply NoDup_app in Hnd as (_ & Hdisj & _).
  exact (Hdisj g Hin' Hg).
Qed.

Lemma crowdedWorld_conventional : conventional (pendingDir crowdedWorld).
Proof.
  unfold conventional.
  refine (bool_decide_unpack (map_Forall _ (pendingDir crowdedWorld)) _).
  vm_compute. exact I.
Qed.

Lemma processBatch_order_and_cap_witness :
  let w' := (processBatch sampleEnv None (newDaemon (mkOptions None (Some giveUp) None None))
                          crowdedWorld).2 in
  length (listPendingBundles crowdedWorld) = 12%nat
  /\ visitedDuring crowdedWorld w'
       `prefix_of` take MAX_BATCH_SIZE (listPendingBundles crowdedWorld)
  /\ (length (visitedDuring crowdedWorld w') <= 10)%nat
  /\ sameFile "error-11.json" crowdedWorld w'
  /\ sameFile "error-12.json" crowdedWorld w'
  /\ length (visitedDuring crowdedWorld w') = 10%nat.
Proof.
  cbn zeta.
  destruct (processBatch_order_and_cap sampleEnv None
              (newDaemon (mkOptions None (Some giveUp) None None)) crowdedWorld
              crowdedWorld_conventional) as (Hpre & Hlen & Hrest).
  split; [vm_compute; reflexivity|]. split; [exact Hpre|].
  split; [exact Hlen|].
  split; [apply Hrest; apply list_elem_of_In; vm_compute; auto|].
  split; [apply Hrest; apply list_elem_of_In; vm_compute; auto|].
  vm_compute. reflexivity.
Defined.

(** X9.  A run that starts (no other run in flight, daemon not stopped),
    during which [stop()] is not called and whose daemon has no
    [onProcessError] handler, visits exactly the first 10 names of the
    sorted listing, in that order. *)
Theorem processBatch_visits_whole_batch env d w :
  conventional (pendingDir w) ->
  processing d = false ->
  stopped d = false ->
  onProcessError (options d) = None ->
  visitedDuring w (processBatch env None d w).2
  = take MAX_BATCH_SIZE (listPendingBundles w)
  /\ ascending (visitedDuring w (processBatch env None d w).2).
Proof.
  intros Hc Hp Hs Hq.
  rewrite (processBatch_visits_all env d w Hc Hp Hs Hq).
  split; [reflexivity|].
  pose proof (sortNames_ascending
                (List.filter isBundleName (readdir (pendingDir w)))) as Hsorted.
  change (sortNames _) with (listPendingBundles w) in Hsorted.
  unfold ascending in *.
  generalize MAX_BATCH_SIZE. intros n.
  revert n. induction Hsorted as [|x l Hs' IH Hhd]; intros n.
  - rewrite take_nil. constructor.
  - destruct n as [|n]; cbn [take]; [constructor|].
    constructor; [apply IH|].
    destruct Hhd as [|y l Hxy]; destruct n; cbn [take]; constructor.
    exact Hxy.
Qed.

Lemma processBatch_visits_whole_batch_witness :
  visitedDuring twoWorld (processBatch sampleEnv None (newDaemon noOptions) twoWorld).2
  = ["error-b1.json"; "error-b2.json"].
Proof.
  apply (processBatch_visits_whole_batch sampleEnv (newDaemon noOptions) twoWorld).
  - exact twoWorld_conventional.
  - reflexivity.
  - reflexivity.
  - reflexivity.
Defined.

(** ** Counters and status over a run *)

Lemma processBundleMove_counters env b res d w :
  let d' := (processBundleMove env b res d w).1.1 in
  bundlesProcessed (state d') = bundlesProcessed (state d)
  /\ bundlesResolved (state d') = bundlesResolved (state d)
  /\ (bundlesFailed (state d) <= bundlesFailed (state d')
      <= bundlesFailed (state d) + 1)%Z.
Proof.
  unfold processBundleMove.
  destruct (onBundleProcessed _ ≫= _) as [err|]; cbn zeta.
  - destruct (processBundleCatch_counters env b err d (moveBundleToProcessed env b w))
      as (Hp & Hr & Hf).
    rewrite Hp, Hr, Hf. repeat split; lia.
  - cbn. repeat split; lia.
Qed.

(** One visit: at most one bundle processed, resolved only if processed,
    at most two failures counted. *)
Lemma processFile_counters env f d w :
  let d' := (processFile env f d w).1.1 in
  (bundlesProcessed (state d) <= bundlesProcessed (state d')
   <= bundlesProcessed (state d) + 1)%Z
  /\ (0 <= bundlesResolved (state d') - bundlesResolved (state d)
      <= bundlesProcessed (state d') - bundlesProcessed (state d))%Z
  /\ (bundlesFailed (state d) <= bundlesFailed (state d')
      <= bundlesFailed (state d) + 2)%Z.
Proof.
  unfold processFile.
  destruct (readErrorBundle _ f) as [b|]; [destruct (processed b)|];
    cbn zeta; try (cbn; lia).
  unfold processBundle. destruct (processorOf d b) as [res|err].
  - destruct (resolved res).
    + destruct (processBundleMove_counters env (withResolution res b) res
                  (setState (incResolved (state (setState (incProcessed (state d)) d)))
                            (setState (incProcessed (state d)) d)) (visit f w))
        as (Hp & Hr & Hf).
      cbn zeta in Hp, Hr, Hf. rewrite Hp, Hr. cbn in *. lia.
    + destruct (retryTriggered res && _); [cbn; lia|].
      destruct (processBundleMove_counters env (withResolution res b) res
                  (setState (incFailed (state (setState (incProcessed (state d)) d)))
                            (setState (incProcessed (state d)) d)) (visit f w))
        as (Hp & Hr & Hf).
      cbn zeta in Hp, Hr, Hf. rewrite Hp, Hr. cbn in *. lia.
  - destruct (processBundleCatch_counters env b err d (visit f w))
      as (Hp & Hr & Hf).
    rewrite Hp, Hr, Hf. lia.
Qed.

(** X10.  Over one batch run no counter decreases; with [n] the number
    of files the run visited (at most 10), [bundlesProcessed] grows by at
    most [n], [bundlesResolved] by at most the growth of
    [bundlesProcessed], and [bundlesFailed] by at most [2 n].  So
    [bundlesResolved <= bundlesProcessed] is kept by every run. *)
Theorem processBatch_counter_bounds env stopAt d w :
  let d' := (processBatch env stopAt d w).1 in
  let n := Z.of_nat (length (visitedDuring w (processBatch env stopAt d w).2)) in
  (n <= 10)%Z
  /\ (0 <= bundlesProcessed (state d') - bundlesProcessed (state d) <= n)%Z
  /\ (0 <= bundlesResolved (state d') - bundlesResolved (state d)
      <= bundlesProcessed (state d') - bundlesProcessed (state d))%Z
  /\ (0 <= bundlesFailed (state d') - bundlesFailed (state d) <= 2 * n)%Z
  /\ ((bundlesResolved (state d) <= bundlesProcessed (state d))%Z ->
      (bundlesResolved (state d') <= bundlesProcessed (state d'))%Z).
Proof.
  intros d' n. subst d' n.
  destruct (processing d || stopped d) eqn:Hg.
  { rewrite processBatch_idle by exact Hg. cbn [fst snd].
    rewrite visitedDuring_same. cbn. lia. }
  destruct (processBatch_run env stopAt d w Hg) as (_ & _ & _ & Hv).
  destruct (processBatch_daemon env stopAt d w Hg) as (Hd & _).
  set (batch := take MAX_BATCH_SIZE (listPendingBundles w)) in *.
  set (d0 := (enterBatch env d w).1) in *.
  set (w0 := (enterBatch env d w).2) in *.
  pose (P := fun (d1 : ErrorFeedbackDaemon) (w1 : World) =>
    let m := (Z.of_nat (length (visited w1)) - Z.of_nat (length (visited w0)))%Z in
    (0 <= bundlesProcessed (state d1) - bundlesProcessed (state d0) <= m)%Z
    /\ (0 <= bundlesResolved (state d1) - bundlesResolved (state d0)
        <= bundlesProcessed (state d1) - bundlesProcessed (state d0))%Z
    /\ (0 <= bundlesFailed (state d1) - bundlesFailed (state d0) <= 2 * m)%Z).
  assert (P (batchLoop env stopAt 0 batch d0 w0).1.1
            (batchLoop env stopAt 0 batch d0 w0).1.2) as HP.
  { apply batchLoop_invariant.
    - intros f d1 w1 (H1 & H2 & H3). unfold P.
      pose proof (processFile_counters env f d1 w1) as (C1 & C2 & C3).
      pose proof (processFile_control env f d1 w1) as (_ & _ & Hv1).
      cbn zeta in C1, C2, C3. rewrite Hv1, length_app. cbn [length].
      cbn zeta in H1, H2, H3. lia.
    - intros _ d1 w1 HP. exact HP.
    - unfold P. cbn zeta. lia. }
  destruct (batchLoop_visited_le env stopAt batch 0 d0 w0) as (vs & Hvs & Hlen).
  unfold P in HP. cbn zeta in HP. rewrite Hvs, length_app in HP.
  unfold visitedDuring. rewrite Hv.
  change (length (visited w)) with (length (visited w0)).
  rewrite Hvs, drop_app_length.
  assert (length batch <= 10)%nat as Hb.
  { subst batch. rewrite length_take. unfold MAX_BATCH_SIZE. lia. }
  rewrite Hd.
  change (bundlesProcessed (state d0)) with (bundlesProcessed (state d)) in HP.
  change (bundlesResolved (state d0)) with (bundlesResolved (state d)) in HP.
  change (bundlesFailed (state d0)) with (bundlesFailed (state d)) in HP.
  destruct ((batchLoop env stopAt 0 batch d0 w0).2);
    cbn [setProcessing setState withStatus state bundlesProcessed
         bundlesResolved bundlesFailed]; lia.
Qed.

Lemma processFile_default_resolved env f d w :
  processor (options d) = None ->
  bundlesResolved (state (processFile env f d w).1.1)
  = bundlesResolved (state d).
Proof.
  intros Hp. unfold processFile.
  destruct (readErrorBundle _ f) as [b|]; [destruct (processed b)|];
    try reflexivity.
  unfold processBundle, processorOf. rewrite Hp. cbn [default defaultProcessor].
  cbn [resolved retryTriggered].
  destruct (_ && _); [reflexivity|].
  destruct (processBundleMove_counters env
              (withResolution (mkResolution false "relayed to Claude Code for analysis"
                                            None (jsLt (retryCount b) (maxRetries b))) b)
              (mkResolution false "relayed to Claude Code for analysis" None
                            (jsLt (retryCount b) (maxRetries b)))
              (setState (incFailed (state (setState (incProcessed (state d)) d)))
                        (setState (incProcessed (state d)) d)) (visit f w))
    as (_ & Hr & _).
  cbn zeta in Hr. rewrite Hr. reflexivity.
Qed.

(** X11.  The default processor only relays: a daemon configured without
    a processor never counts a bundle as resolved, so a batch run leaves
    [bundlesResolved] as it was. *)
Theorem default_processor_never_resolves env stopAt d w :
  processor (options d) = None ->
  bundlesResolved (state (processBatch env stopAt d w).1)
  = bundlesResolved (state d).
Proof.
  intros Hp. destruct (processing d || stopped d) eqn:Hg.
  { rewrite processBatch_idle by exact Hg. reflexivity. }
  destruct (processBatch_daemon env stopAt d w Hg) as (Hd & _).
  rewrite Hd.
  pose (P := fun (d1 : ErrorFeedbackDaemon) (w1 : World) =>
    options d1 = options d
    /\ bundlesResolved (state d1) = bundlesResolved (state d)).
  assert (P (batchLoop env stopAt 0 (take MAX_BATCH_SIZE (listPendingBundles w))
                       (enterBatch env d w).1 (enterBatch env d w).2).1.1
            (batchLoop env stopAt 0 (take MAX_BATCH_SIZE (listPendingBundles w))
                       (enterBatch env d w).1 (enterBatch env d w).2).1.2)
    as [_ HP].
  { apply batchLoop_invariant.
    - intros f d1 w1 [Ho Hr]. split.
      + pose proof (processFile_control env f d1 w1) as (Ho1 & _). congruence.
      + rewrite processFile_default_resolved; [exact Hr|]. rewrite Ho. exact Hp.
    - intros _ d1 w1 HP. exact HP.
    - split; reflexivity. }
  destruct (batchLoop _ _ _ _ _ _).2; exact HP.
Qed.

Lemma default_processor_never_resolves_witness :
  bundlesResolved
    (state (processBatch sampleEnv None (newDaemon noOptions) twoWorld).1) = 0%Z.
Proof.
  apply (default_processor_never_resolves sampleEnv None (newDaemon noOptions)
           twoWorld).
  reflexivity.
Defined.

(** X12.  A run that starts ends with the in-flight flag cleared, with
    [lastPollAt] set to the time it started, with the configuration
    unchanged, and with the state file holding exactly the daemon's
    final in-memory state.  When the queue follows its naming
    convention, the daemon has no [onProcessError] handler and [stop()]
    is not called, the run leaves the status as it was and the daemon
    not stopped. *)
Theorem processBatch_epilogue env stopAt d w :
  processing d = false ->
  stopped d = false ->
  let d' := (processBatch env stopAt d w).1 in
  let w' := (processBatch env stopAt d w).2 in
  processing d' = false
  /\ lastPollAt (state d') = Some (clockAt env (ticks w))
  /\ options d' = options d
  /\ stateFile w' = Some (state d')
  /\ (conventional (pendingDir w) ->
      onProcessError (options d) = None -> stopAt = None ->
      status (state d') = status (state d) /\ stopped d' = false).
Proof.
  intros Hp Hs d' w'. subst d' w'.
  assert (processing d || stopped d = false) as Hg by (rewrite Hp, Hs; reflexivity).
  destruct (processBatch_daemon env stopAt d w Hg) as (Hd & Hfile).
  set (batch := take MAX_BATCH_SIZE (listPendingBundles w)) in *.
  pose (P := fun (d1 : ErrorFeedbackDaemon) (w1 : World) =>
    lastPollAt (state d1) = Some (clockAt env (ticks w))
    /\ options d1 = options d
    /\ (stopAt = None ->
        status (state d1) = status (state d) /\ stopped d1 = false)).
  assert (P (batchLoop env stopAt 0 batch (enterBatch env d w).1
                       (enterBatch env d w).2).1.1
            (batchLoop env stopAt 0 batch (enterBatch env d w).1
                       (enterBatch env d w).2).1.2) as (HL & HO & HS).
  { apply batchLoop_invariant.
    - intros f d1 w1 (H1 & H2 & H3).
      pose proof (processFile_control env f d1 w1) as (Ho1 & Hs1 & _).
      assert (lastPollAt (state (processFile env f d1 w1).1.1)
              = lastPollAt (state d1)
              /\ status (state (processFile env f d1 w1).1.1)
                 = status (state d1)) as [Hl Hst].
      { unfold processFile.
        destruct (readErrorBundle _ f) as [b|]; [destruct (processed b)|];
          try (split; reflexivity).
        unfold processBundle, processBundleMove, processBundleCatch.
        destruct (processorOf d1 b) as [res|err].
        - destruct (resolved res); [|destruct (retryTriggered res && _)];
            cbn [options setState];
            repeat (match goal with
                    | |- context [match ?x ≫= ?g with _ => _ end] =>
                        destruct (x ≫= g)
                    end; cbn [options setState]);
            split; reflexivity.
        - cbn [options setState].
          destruct (onProcessError _ ≫= _); split; reflexivity. }
      split; [congruence|]. split; [congruence|].
      intros Hn. destruct (H3 Hn) as [H4 H5]. split; congruence.
    - intros Hne d1 w1 (H1 & H2 & H3). split; [exact H1|].
      split; [exact H2|]. intros Hn. contradiction.
    - split; [reflexivity|]. split; [reflexivity|].
      intros _. split; [reflexivity|exact Hs]. }
  rewrite Hfile, Hd.
  pose proof (batchLoop_no_escape env stopAt batch 0 (enterBatch env d w).1
                (enterBatch env d w).2) as Hesc.
  destruct ((batchLoop env stopAt 0 batch (enterBatch env d w).1
                       (enterBatch env d w).2).2) as [err|] eqn:Hthrown.
  - split; [reflexivity|]. split; [exact HL|]. split; [exact HO|].
    split; [reflexivity|].
    intros _ Hq Hn. specialize (Hesc Hq). discriminate.
  - split; [reflexivity|]. split; [exact HL|]. split; [exact HO|].
    split; [reflexivity|].
    intros _ Hq Hn. exact (HS Hn).
Qed.

Lemma processBatch_epilogue_witness :
  stateFile (processBatch sampleEnv None (newDaemon noOptions) twoWorld).2
  = Some (state (processBatch sampleEnv None (newDaemon noOptions) twoWorld).1)
  /\ status (state (processBatch sampleEnv None (newDaemon noOptions) twoWorld).1)
     = Stopped
  /\ stopped (processBatch sampleEnv None (newDaemon noOptions) twoWorld).1
     = false.
Proof.
  destruct (processBatch_epilogue sampleEnv None (newDaemon noOptions) twoWorld)
    as (_ & _ & _ & Hfile & Hquiet).
  - reflexivity.
  - reflexivity.
  - split; [exact Hfile|].
    apply Hquiet; [exact twoWorld_conventional|reflexivity|reflexivity].
Defined.

(** ** The retry budget *)

(** What a processing step does to the pending directory: nothing (an
    exception escaped before the move), the bundle's file is removed, or
    the bundle is written back with its retry count counted up. *)
Lemma processBundle_pending env b d w :
  let out := processBundle env b d w in
  (pendingDir out.1.2 = pendingDir w /\ out.2 <> None)
  \/ pendingDir out.1.2 = delete (buildBundleFilename (id b)) (pendingDir w)
  \/ (exists res,
         processorOf d b = Returns res
         /\ resolved res = false /\ retryTriggered res = true
         /\ jsLt (retryCount b) (maxRetries b) = true
         /\ pendingDir out.1.2
            = <[buildBundleFilename (id b) :=
                  Json (jsonOfBundle (incRetryCount (withResolution res b)))]>
                (pendingDir w)).
Proof.
  assert (forall b0 err d0 w0,
             let o := processBundleCatch env b0 err d0 w0 in
             (pendingDir o.1.2 = pendingDir w0 /\ o.2 <> None)
             \/ pendingDir o.1.2
                = delete (buildBundleFilename (id b0)) (pendingDir w0)) as Hcatch.
  { intros b0 err d0 w0. unfold processBundleCatch.
    destruct (onProcessError _ ≫= _); cbn [fst snd].
    - left. split; [reflexivity|discriminate].
    - right. reflexivity. }
  assert (forall res d0,
             pendingDir (processBundleMove env (withResolution res b) res d0 w).1.2
             = delete (buildBundleFilename (id b)) (pendingDir w)) as Hmove.
  { intros res d0. unfold processBundleMove.
    destruct (onBundleProcessed _ ≫= _) as [err|]; [|reflexivity].
    destruct (Hcatch (withResolution res b) err d0
                (moveBundleToProcessed env (withResolution res b) w))
      as [[-> _]| ->]; [reflexivity|].
    cbn [pendingDir moveBundleToProcessed now setPending setProcessed
         withResolution id].
    apply delete_delete_eq. }
  cbn zeta. unfold processBundle.
  destruct (processorOf d b) as [res|err] eqn:Hp.
  - destruct (resolved res) eqn:Hres.
    + right. left. apply Hmove.
    + destruct (retryTriggered res) eqn:Hretry; cbn [andb].
      * destruct (jsLt (retryCount (withResolution res b))
                       (maxRetries (withResolution res b))) eqn:Hlt.
        -- right. right. exists res. repeat split; try assumption.
        -- right. left. apply Hmove.
      * right. left. apply Hmove.
  - destruct (Hcatch b err d w) as [H|H]; [left|right; left]; exact H.
Qed.

(** The same for one visit of a file, seen at the file's own name. *)
Lemma processFile_pending_at env f d w :
  conventional (pendingDir w) ->
  let out := processFile env f d w in
  (pendingDir out.1.2 !! f = pendingDir w !! f /\ out.2 <> None)
  \/ pendingDir out.1.2 !! f = None
  \/ (exists b res,
         readErrorBundle (pendingDir w) f = Some b
         /\ processed b = false
         /\ processorOf d b = Returns res
         /\ resolved res = false /\ retryTriggered res = true
         /\ jsLt (retryCount b) (maxRetries b) = true
         /\ pendingDir out.1.2 !! f
            = Some (Json (jsonOfBundle (incRetryCount (withResolution res b))))).
Proof.
  intros Hc. cbn zeta. unfold processFile.
  change (pendingDir (visit f w)) with (pendingDir w).
  destruct (readErrorBundle (pendingDir w) f) as [b|] eqn:Hr.
  - pose proof (conventional_read _ _ _ Hc Hr) as Hf.
    destruct (processed b) eqn:Hproc; cbn [fst snd].
    + right. left.
      destruct (moveBundleToProcessed_dirs env b (visit f w)) as (Hp & _).
      rewrite Hp, <- Hf. apply lookup_delete_eq.
    + destruct (processBundle_pending env b d (visit f w))
        as [[Hs Ht]|[Hdel|(res & Hp & Hres & Hretry & Hlt & Hw)]].
      * left. split; [rewrite Hs; reflexivity|exact Ht].
      * right. left. rewrite Hdel, <- Hf. apply lookup_delete_eq.
      * right. right. exists b, res. repeat split; try assumption.
        rewrite Hw, <- Hf. apply lookup_insert_eq.
  - right. left. cbn [fst snd]. unfold quarantine.
    change (pendingDir (visit f w)) with (pendingDir w).
    destruct (pendingDir w !! f) eqn:Hl; [apply lookup_delete_eq|exact Hl].
Qed.

(** The outcome of a visited file at the end of a run. *)
Lemma processBatch_pending_at env stopAt d w f :
  conventional (pendingDir w) ->
  f ∈ visitedDuring w (processBatch env stopAt d w).2 ->
  let w' := (processBatch env stopAt d w).2 in
  (pendingDir w' !! f = pendingDir w !! f
   /\ onProcessError (options d) <> None)
  \/ pendingDir w' !! f = None
  \/ (exists b res,
         readErrorBundle (pendingDir w) f = Some b
         /\ processed b = false
         /\ processorOf d b = Returns res
         /\ resolved res = false /\ retryTriggered res = true
         /\ jsLt (retryCount b) (maxRetries b) = true
         /\ readErrorBundle (pendingDir w') f
            = Some (incRetryCount (withResolution res b))).
Proof.
  intros Hc Hin. cbn zeta.
  destruct (processBatch_file env stopAt d w f Hc Hin)
    as (d0 & w0 & Ho & Hc0 & _ & (Hs0 & _) & (Hs1 & _)).
  destruct (processFile_pending_at env f d0 w0 Hc0)
    as [[Hs Ht]|[Hdel|(b & res & Hr & Hproc & Hp & Hres & Hretry & Hlt & Hw)]].
  - left. split; [congruence|].
    intros Hq. apply Ht. apply processFile_no_escape. congruence.
  - right. left. congruence.
  - right. right. exists b, res.
    assert (readErrorBundle (pendingDir w) f = Some b) as Hr'.
    { rewrite <- Hr. apply readErrorBundle_lookup. exact Hs0. }
    rewrite (processorOf_options d d0 Ho) in Hp.
    repeat split; try assumption.
    apply readErrorBundle_written; [| |congruence].
    + apply (readErrorBundle_valid _ _ _ Hr').
    + apply finiteCounts_retry. apply (readErrorBundle_finite _ _ _ Hr').
Qed.

(** The retry step keeps an integer count within its budget. *)
Lemma countsWithinBudget_retry res b :
  countsWithinBudget b ->
  jsLt (retryCount b) (maxRetries b) = true ->
  countsWithinBudget (incRetryCount (withResolution res b)).
Proof.
  intros (r & m & Hr & Hm & Hlo & Hle & Hhi) Hlt.
  rewrite Hr, Hm, jsLt_num in Hlt. apply Z.ltb_lt in Hlt.
  exists (r + 1)%Z, m. cbn [incRetryCount withResolution retryCount maxRetries].
  rewrite Hr, jsAdd_num by lia.
  split; [reflexivity|]. split; [exact Hm|]. lia.
Qed.

(** A ceiling with a fraction does not bound the count: from
    [retryCount = 2], below [maxRetries = 2.5], the retry step goes to
    3, above it. *)
Lemma fractional_ceiling_is_passed :
  let ceiling := Finite (5 * 2 ^ 1073) in
  jsLt 2 ceiling = true
  /\ jsAdd 2 1 = 3
  /\ jsLt ceiling (jsAdd 2 1) = true.
Proof. cbn zeta. repeat split; vm_compute; reflexivity. Qed.

(** X13.  A batch run keeps the retry bound of integer counts: when
    every readable pending bundle has integer counts, up to [2^53], with
    [retryCount] not above [maxRetries] before the run, the same holds
    after it. *)
Theorem processBatch_keeps_retry_bound env stopAt d w :
  conventional (pendingDir w) ->
  withinBudget (pendingDir w) ->
  withinBudget (pendingDir (processBatch env stopAt d w).2).
Proof.
  intros Hc Hb name b' Hr'.
  destruct (decide (name ∈ visitedDuring w (processBatch env stopAt d w).2))
    as [Hin|Hin].
  - destruct (processBatch_pending_at env stopAt d w name Hc Hin)
      as [[Hs _]|[Hdel|(b & res & Hr & _ & _ & _ & _ & Hlt & Hw)]].
    + apply (Hb name). rewrite <- Hr'. apply readErrorBundle_lookup.
      symmetry. exact Hs.
    + rewrite (readErrorBundle_None _ _ Hdel) in Hr'. discriminate.
    + rewrite Hw in Hr'. injection Hr' as <-.
      apply countsWithinBudget_retry; [|exact Hlt]. exact (Hb name b Hr).
  - destruct (processBatch_frame env stopAt d w name Hc Hin) as (Hs & _).
    apply (Hb name). rewrite <- Hr'. apply readErrorBundle_lookup. exact Hs.
Qed.

Lemma twoWorld_withinBudget : withinBudget (pendingDir twoWorld).
Proof.
  assert (forall b, In b [sampleBundle2; sampleBundle] -> countsWithinBudget b)
    as Hok.
  { intros b [<-|[<-|[]]]; exists 0%Z, 3%Z;
      (split; [reflexivity|]; split; [reflexivity|]; lia). }
  intros name b Hr. apply readErrorBundle_Some in Hr as (j & Hl & _ & Has).
  unfold twoWorld in Hl. cbn [pendingDir] in Hl.
  apply lookup_insert_Some in Hl as [[_ Hj]|[_ Hl]].
  - injection Hj as <-. vm_compute in Has. injection Has as <-.
    apply Hok. left. reflexivity.
  - apply lookup_singleton_Some in Hl as [_ Hj]. injection Hj as <-.
    vm_compute in Has. injection Has as <-.
    apply Hok. right. left. reflexivity.
Qed.

Lemma processBatch_keeps_retry_bound_witness :
  withinBudget
    (pendingDir (processBatch sampleEnv None (newDaemon retryOptions) twoWorld).2).
Proof.
  apply (processBatch_keeps_retry_bound sampleEnv None (newDaemon retryOptions)
           twoWorld).
  - exact twoWorld_conventional.
  - exact twoWorld_withinBudget.
Defined.

(** X14.  Every visit makes progress: when the daemon has no
    [onProcessError] handler, a file that a batch run visited is at the
    end of the run either gone from [pending], or it holds a bundle that
    had [retryCount < maxRetries], whose processor result was unresolved
    with a retry requested, and whose [retryCount] is now the
    double-precision sum [retryCount + 1], with the same ceiling. *)
Theorem processBatch_visit_progress env stopAt d w f :
  conventional (pendingDir w) ->
  onProcessError (options d) = None ->
  f ∈ visitedDuring w (processBatch env stopAt d w).2 ->
  let w' := (processBatch env stopAt d w).2 in
  pendingDir w' !! f = None
  \/ (exists b b' res,
         readErrorBundle (pendingDir w) f = Some b
         /\ readErrorBundle (pendingDir w') f = Some b'
         /\ processorOf d b = Returns res
         /\ resolved res = false /\ retryTriggered res = true
         /\ jsLt (retryCount b) (maxRetries b) = true
         /\ maxRetries b' = maxRetries b
         /\ retryCount b' = jsAdd (retryCount b) 1).
Proof.
  intros Hc Hq Hin. cbn zeta.
  destruct (processBatch_pending_at env stopAt d w f Hc Hin)
    as [[_ Hne]|[Hdel|(b & res & Hr & _ & Hp & Hres & Hretry & Hlt & Hw)]].
  - contradiction.
  - left. exact Hdel.
  - right. exists b, (incRetryCount (withResolution res b)), res.
    repeat split; assumption.
Qed.

Lemma processBatch_visit_progress_witness :
  pendingDir (processBatch sampleEnv None (newDaemon retryOptions) sampleWorld).2
    !! "error-b1.json" = None
  \/ (exists b b' res,
         readErrorBundle (pendingDir sampleWorld) "error-b1.json" = Some b
         /\ readErrorBundle
              (pendingDir (processBatch sampleEnv None (newDaemon retryOptions)
                                        sampleWorld).2) "error-b1.json"
            = Some b'
         /\ processorOf (newDaemon retryOptions) b = Returns res
         /\ resolved res = false /\ retryTriggered res = true
         /\ jsLt (retryCount b) (maxRetries b) = true
         /\ maxRetries b' = maxRetries b
         /\ retryCount b' = jsAdd (retryCount b) 1).
Proof.
  apply (processBatch_visit_progress sampleEnv None (newDaemon retryOptions)
           sampleWorld "error-b1.json").
  - exact sampleWorld_conventional.
  - reflexivity.
  - apply list_elem_of_In. vm_compute. left. reflexivity.
Defined.

Lemma processFile_default_retry env f d w b :
  processor (options d) = None ->
  readErrorBundle (pendingDir w) f = Some b ->
  f = buildBundleFilename (id b) ->
  processed b = false ->
  jsLt (retryCount b) (maxRetries b) = true ->
  processFile env f d w
  = (setState (incProcessed (state d)) d,
     setPending (<[f := Json (jsonOfBundle (incRetryCount (withResolution relayed b)))]>
                   (pendingDir w)) (visit f w),
     None).
Proof.
  intros Hp Hr Hf Hproc Hlt.
  rewrite (processFile_read env f d w b Hr Hproc).
  rewrite (processBundle_retry env b d (visit f w) relayed);
    try reflexivity; try assumption.
  - rewrite <- Hf. reflexivity.
  - unfold processorOf. rewrite Hp. unfold default, defaultProcessor.
    rewrite Hlt. reflexivity.
Qed.




(** ** Pruning the processed directory *)

Lemma cleanupEntry_removable fs maxAgeMs n w entry :
  cleanupEntry fs maxAgeMs (n, w) entry
  = if removable fs maxAgeMs entry
    then (S n, setProcessed (delete entry (processedDir w)) w)
    else (n, w).
Proof.
  unfold cleanupEntry, removable, expired.
  destruct (endsWith entry ".json"); cbn [negb andb]; [|reflexivity].
  destruct (mtimeMs fs entry) as [m|]; [|reflexivity].
  destruct (jsLt maxAgeMs (jsSub (nowMs fs) m)); [|reflexivity].
  destruct (unlinkThrows fs entry); reflexivity.
Qed.

Lemma readdir_elem (dir : gmap string FileContent) name :
  name ∈ readdir dir <-> is_Some (dir !! name).
Proof.
  unfold readdir. rewrite list_elem_of_fmap. split.
  - intros ([k c] & -> & Hin). apply elem_of_map_to_list in Hin. cbn. eauto.
  - intros [c Hc]. exists (name, c). split; [reflexivity|].
    apply elem_of_map_to_list. exact Hc.
Qed.

(** The loop of [cleanupProcessedBundles] over distinct entries that are
    all present. *)
Lemma cleanup_fold fs maxAgeMs l :
  NoDup l ->
  forall n w,
    (forall e, e ∈ l -> is_Some (processedDir w !! e)) ->
    let out := foldl (cleanupEntry fs maxAgeMs) (n, w) l in
    pendingDir out.2 = pendingDir w
    /\ invalidDir out.2 = invalidDir w
    /\ stateFile out.2 = stateFile w
    /\ (forall name,
           processedDir out.2 !! name
           = if bool_decide (name ∈ l) && removable fs maxAgeMs name
             then None else processedDir w !! name)
    /\ (out.1 + size (processedDir out.2) = n + size (processedDir w))%nat.
Proof.
  induction 1 as [|e l Hnot Hnd IH]; intros n w Hpresent.
  - cbn. repeat split.
  - cbn [foldl]. rewrite cleanupEntry_removable.
    destruct (removable fs maxAgeMs e) eqn:He.
    + destruct (IH (S n) (setProcessed (delete e (processedDir w)) w))
        as (Hp & Hi & Hs & Hl & Hn).
      { intros x Hx. cbn [processedDir setProcessed].
        rewrite lookup_delete_ne by (intros ->; contradiction).
        apply Hpresent. right. exact Hx. }
      cbn zeta in Hp, Hi, Hs, Hl, Hn |- *.
      split; [exact Hp|]. split; [exact Hi|]. split; [exact Hs|]. split.
      * intros name. rewrite Hl. cbn [processedDir setProcessed].
        destruct (decide (name = e)) as [->|Hne].
        -- rewrite (bool_decide_eq_false_2 _ Hnot), lookup_delete_eq.
           rewrite bool_decide_eq_true_2 by left. cbn [andb]. rewrite He.
           reflexivity.
        -- rewrite lookup_delete_ne by congruence.
           destruct (decide (name ∈ l)) as [Hin|Hin].
           ++ rewrite (bool_decide_eq_true_2 _ Hin).
              rewrite bool_decide_eq_true_2 by (right; exact Hin).
              reflexivity.
           ++ rewrite (bool_decide_eq_false_2 _ Hin).
              rewrite bool_decide_eq_false_2; [reflexivity|].
              intros Hin'. apply elem_of_cons in Hin' as [?|?]; contradiction.
      * rewrite Hn. cbn [processedDir setProcessed].
        destruct (Hpresent e) as [c Hc]; [left|].
        pose proof (map_size_delete_Some e (processedDir w)) as Hsz.
        pose proof (map_size_ne_0_lookup_2 (processedDir w) e) as Hnz.
        rewrite Hsz by eauto. specialize (Hnz ltac:(eauto)). lia.
    + destruct (IH n w) as (Hp & Hi & Hs & Hl & Hn).
      { intros x Hx. apply Hpresent. right. exact Hx. }
      cbn zeta in Hp, Hi, Hs, Hl, Hn |- *.
      split; [exact Hp|]. split; [exact Hi|]. split; [exact Hs|].
      split; [|exact Hn].
      intros name. rewrite Hl.
      destruct (decide (name = e)) as [->|Hne].
      * rewrite He, !andb_false_r. reflexivity.
      * destruct (decide (name ∈ l)) as [Hin|Hin].
        -- rewrite (bool_decide_eq_true_2 _ Hin).
           rewrite bool_decide_eq_true_2 by (right; exact Hin). reflexivity.
        -- rewrite (bool_decide_eq_false_2 _ Hin).
           rewrite bool_decide_eq_false_2; [reflexivity|].
           intros Hin'. apply elem_of_cons in Hin' as [?|?]; contradiction.
Qed.

Lemma cleanup_fold_idle fs maxAgeMs l :
  forall n w,
    (forall e, e ∈ l -> removable fs maxAgeMs e = false) ->
    foldl (cleanupEntry fs maxAgeMs) (n, w) l = (n, w).
Proof.
  induction l as [|e l IH]; intros n w Hl; [reflexivity|].
  cbn [foldl]. rewrite cleanupEntry_removable, (Hl e) by left.
  apply IH. intros x Hx. apply Hl. right. exact Hx.
Qed.

Lemma cleanupProcessedBundles_lookup fs maxAgeMs w name :
  processedDir (cleanupProcessedBundles fs maxAgeMs w).2 !! name
  = if removable fs (default DEFAULT_MAX_AGE_MS maxAgeMs) name
    then None else processedDir w !! name.
Proof.
  unfold cleanupProcessedBundles.
  destruct (cleanup_fold fs (default DEFAULT_MAX_AGE_MS maxAgeMs)
              (readdir (processedDir w)) (NoDup_fst_map_to_list _) 0%nat w)
    as (_ & _ & _ & Hl & _).
  { intros e He. apply readdir_elem. exact He. }
  rewrite Hl.
  destruct (decide (name ∈ readdir (processedDir w))) as [Hin|Hin].
  - rewrite (bool_decide_eq_true_2 _ Hin). reflexivity.
  - rewrite (bool_decide_eq_false_2 _ Hin). cbn [andb].
    destruct (removable _ _ name); [|reflexivity].
    destruct (processedDir w !! name) eqn:Hn; [|reflexivity].
    exfalso. apply Hin. apply readdir_elem. eauto.
Qed.

(** X16.  [cleanupProcessedBundles] deletes from [processed] exactly the
    entries whose name ends with ".json", whose [stat] succeeds, whose
    age exceeds the limit and whose [unlink] does not throw; every other
    entry of [processed] is kept as it is, an entry whose [unlink] throws
    included, and [pending], [processed/invalid] and the state file are
    not touched.  The number it returns is the number of entries it
    removed. *)
Theorem cleanupProcessedBundles_scope fs maxAgeMs w :
  let cleaned := (cleanupProcessedBundles fs maxAgeMs w).1 in
  let w' := (cleanupProcessedBundles fs maxAgeMs w).2 in
  pendingDir w' = pendingDir w
  /\ invalidDir w' = invalidDir w
  /\ stateFile w' = stateFile w
  /\ (forall name,
         processedDir w' !! name
         = if removable fs (default DEFAULT_MAX_AGE_MS maxAgeMs) name
           then None else processedDir w !! name)
  /\ (cleaned + size (processedDir w') = size (processedDir w))%nat.
Proof.
  intros cleaned w'. subst cleaned w'.
  split; [|split; [|split; [|split]]];
    try (intros name; apply cleanupProcessedBundles_lookup);
    unfold cleanupProcessedBundles;
    destruct (cleanup_fold fs (default DEFAULT_MAX_AGE_MS maxAgeMs)
                (readdir (processedDir w)) (NoDup_fst_map_to_list _) 0%nat w)
      as (Hp & Hi & Hs & _ & Hn);
    try (intros e He; apply readdir_elem; exact He);
    assumption.
Qed.

(** X17.  Pruning is idempotent: a second [cleanupProcessedBundles] with
    the same clock, the same file times, the same outcomes of [unlink]
    and the same limit deletes nothing and returns 0. *)
Theorem cleanupProcessedBundles_idempotent fs maxAgeMs w :
  let w' := (cleanupProcessedBundles fs maxAgeMs w).2 in
  cleanupProcessedBundles fs maxAgeMs w' = (0%nat, w').
Proof.
  intros w'. unfold cleanupProcessedBundles at 1.
  apply cleanup_fold_idle. intros e He.
  apply readdir_elem in He as [c Hc]. subst w'.
  rewrite cleanupProcessedBundles_lookup in Hc.
  destruct (removable _ _ e); [discriminate|reflexivity].
Qed.

(** ** The age limit of the cleanup command *)

Lemma splitLast_app (ds : string) (u : ascii) :
  splitLast (ds +:+ String u EmptyString) = Some (ds, u).
Proof.
  induction ds as [|c ds IH]; [reflexivity|].
  rewrite string_app_cons. cbn [splitLast]. rewrite IH. reflexivity.
Qed.

Lemma parseDigits_app (a b : string) (acc : Z) :
  parseDigits acc (a +:+ b) = parseDigits (parseDigits acc a) b.
Proof.
  revert acc. induction a as [|c a IH]; intros acc; [reflexivity|].
  rewrite string_app_cons. cbn [parseDigits]. apply IH.
Qed.

Lemma parseDigits_nonneg (s : string) :
  forall acc, (0 <= acc)%Z -> allDigits s = true -> (0 <= parseDigits acc s)%Z.
Proof.
  induction s as [|c s IH]; intros acc Hacc Hd; [exact Hacc|].
  cbn [allDigits] in Hd. apply andb_true_iff in Hd as [Hc Hs].
  cbn [parseDigits]. apply IH; [|exact Hs].
  unfold isDigit in Hc. apply andb_true_iff in Hc as [Hlo _].
  apply Nat.leb_le in Hlo. lia.
Qed.

Lemma string_app_not_empty (ds : string) (u : ascii) :
  String.eqb (ds +:+ String u EmptyString) "" = false.
Proof. destruct ds; reflexivity. Qed.

Lemma parseMaxAge_match (ds : string) (u : ascii) :
  ds <> "" -> allDigits ds = true -> isUnit u = true ->
  matchMaxAge (ds +:+ String u EmptyString) = Some (ds, u).
Proof.
  intros Hne Hd Hu. unfold matchMaxAge. rewrite splitLast_app, Hd, Hu.
  apply String.eqb_neq in Hne. rewrite Hne. reflexivity.
Qed.

Lemma DEFAULT_MAX_AGE_MS_value : DEFAULT_MAX_AGE_MS = num 604800000.
Proof. vm_compute. reflexivity. Qed.

(** X18.  The age limit of the cleanup command.  A string of one or more
    digits followed by [d], [h] or [m] gives the decimal value of the
    digits times the milliseconds of a day, an hour or a minute, exactly
    so for values up to 100000000; a missing or empty option, and digits
    followed by any other unit, give the default of 7 days.  Large
    values are rounded: "9007199254740993m" gives 540431955284459520000
    milliseconds, which is 9007199254740992 minutes. *)
Theorem parseMaxAge_units :
  (forall ds,
      ds <> "" -> allDigits ds = true -> (parseDigits 0 ds <= 100000000)%Z ->
      parseMaxAge (Some (ds +:+ "d")) = num (parseDigits 0 ds * 86400000)
      /\ parseMaxAge (Some (ds +:+ "h")) = num (parseDigits 0 ds * 3600000)
      /\ parseMaxAge (Some (ds +:+ "m")) = num (parseDigits 0 ds * 60000))
  /\ (forall ds c,
         parseDigits 0 (ds +:+ String c EmptyString)
         = (parseDigits 0 ds * 10 + (Z.of_nat (nat_of_ascii c) - 48))%Z)
  /\ (forall ds u,
         isUnit u = false ->
         parseMaxAge (Some (ds +:+ String u EmptyString)) = num 604800000)
  /\ parseMaxAge None = num 604800000
  /\ parseMaxAge (Some "") = num 604800000
  /\ parseMaxAge (Some "9007199254740993m") = num 540431955284459520000.
Proof.
  split; [|split; [|split; [|split; [|split]]]].
  - intros ds Hne Hd Hv. unfold parseMaxAge.
    rewrite !string_app_not_empty, !parseMaxAge_match by (assumption || reflexivity).
    change (Ascii.eqb "d" "d") with true. change (Ascii.eqb "h" "d") with false.
    change (Ascii.eqb "h" "h") with true. change (Ascii.eqb "m" "d") with false.
    change (Ascii.eqb "m" "h") with false. change (Ascii.eqb "m" "m") with true.
    cbv iota. unfold parseInt.
    pose proof (parseDigits_nonneg ds 0 ltac:(lia) Hd) as Hv0.
    assert (2 ^ 53 = 9007199254740992)%Z as H53 by reflexivity.
    generalize dependent (parseDigits 0 ds). intros x Hx Hx0.
    rewrite ofInteger_num by lia.
    rewrite !jsMul_num by lia.
    split; [|split]; f_equal; lia.
  - intros ds c. rewrite parseDigits_app. reflexivity.
  - intros ds u Hu. unfold parseMaxAge, matchMaxAge.
    rewrite string_app_not_empty, splitLast_app, Hu, andb_false_r.
    apply DEFAULT_MAX_AGE_MS_value.
  - apply DEFAULT_MAX_AGE_MS_value.
  - apply DEFAULT_MAX_AGE_MS_value.
  - vm_compute. reflexivity.
Qed.

Lemma parseMaxAge_units_witness :
  parseMaxAge (Some "24h") = num 86400000.
Proof.
  destruct parseMaxAge_units as [H _].
  destruct (H "24") as (_ & Hh & _);
    [discriminate|reflexivity|vm_compute; discriminate|].
  exact Hh.
Defined.

(** ** The in-process instance *)

Lemma start_running env d w :
  status (state (start env d w).1) = Running
  \/ (start env d w = (d, w) /\ status (state d) = Running).
Proof.
  unfold start. destruct (status (state d)) eqn:Hs; cbn [isRunning].
  - right. split; reflexivity.
  - left. unfold scheduleBatch. cbn. reflexivity.
  - left. unfold scheduleBatch. cbn. reflexivity.
Qed.

(** X19.  [startErrorFeedbackDaemon] always leaves a running in-process
    instance, and starting again while it runs changes nothing: the same
    handle comes back and the world, state file included, is untouched,
    whatever options the second call gives. *)
Theorem startErrorFeedbackDaemon_idempotent env opts opts' activeDaemon w :
  let r := startErrorFeedbackDaemon env opts activeDaemon w in
  (exists d, r.1 = Some d /\ status (state d) = Running)
  /\ startErrorFeedbackDaemon env opts' r.1 r.2 = r.
Proof.
  intros r. subst r.
  assert (exists d w1,
             startErrorFeedbackDaemon env opts activeDaemon w = (Some d, w1)
             /\ status (state d) = Running) as (d & w1 & Hr & Hs).
  { unfold startErrorFeedbackDaemon.
    assert (status (state (start env (newDaemon opts) w).1) = Running) as Hn.
    { destruct (start_running env (newDaemon opts) w) as [H|[_ H]];
        [exact H|discriminate]. }
    destruct activeDaemon as [d0|].
    - unfold getState. destruct (status (state d0)) eqn:Hs0; cbn [isRunning].
      + exists d0, w. split; [reflexivity|exact Hs0].
      + destruct (start env (newDaemon opts) w) as [d1 w1].
        exists d1, w1. split; [reflexivity|exact Hn].
      + destruct (start env (newDaemon opts) w) as [d1 w1].
        exists d1, w1. split; [reflexivity|exact Hn].
    - destruct (start env (newDaemon opts) w) as [d1 w1].
      exists d1, w1. split; [reflexivity|exact Hn]. }
  rewrite Hr. cbn [fst snd]. split; [eauto|].
  unfold startErrorFeedbackDaemon, getState. rewrite Hs. reflexivity.
Qed.

(** X20.  Stopping the in-process instance clears the handle and
    persists its state with status [stopped]; a status query made
    afterwards answers exactly that state, counters included, without
    probing any process, and the three queue directories are as they
    were.  Stopping when no instance exists changes nothing. *)
Theorem stop_then_status env d w :
  let r := stopErrorFeedbackDaemon (Some d) w in
  r.1 = None
  /\ getErrorFeedbackDaemonStatus env r.1 r.2
     = (withStatus Stopped (state d), r.2)
  /\ pendingDir r.2 = pendingDir w
  /\ processedDir r.2 = processedDir w
  /\ invalidDir r.2 = invalidDir w
  /\ stopErrorFeedbackDaemon None w = (None, w).
Proof. cbn. repeat split. Qed.

(** X21.  A status query never changes the world.  It answers [running]
    only for a running in-process instance or, without one, for a state
    file that says [running] and whose recorded process answers the
    probe (or that records no usable process id); without an instance
    and without a readable state file it answers [stopped] with all
    counters 0. *)
Theorem status_query_sound env activeDaemon w :
  let r := getErrorFeedbackDaemonStatus env activeDaemon w in
  r.2 = w
  /\ (status r.1 = Running ->
      (exists d, activeDaemon = Some d /\ status (state d) = Running)
      \/ (activeDaemon = None
          /\ exists persisted,
               readDaemonState w = Some persisted
               /\ status persisted = Running
               /\ (pidTruthy (pid persisted) = false
                   \/ exists p, pid persisted = Some p
                                /\ processAlive env p = true)))
  /\ (activeDaemon = None -> readDaemonState w = None ->
      r.1 = mkState Stopped None None 0 0 0 None).
Proof.
  intros r. subst r. unfold getErrorFeedbackDaemonStatus.
  destruct activeDaemon as [d|].
  - cbn [fst snd]. split; [reflexivity|]. split; [|discriminate].
    intros Hs. left. exists d. split; [reflexivity|exact Hs].
  - destruct (readDaemonState w) as [persisted|] eqn:Hr.
    + destruct (isRunning (status persisted)) eqn:Hrun; cbn [andb].
      * destruct (pidTruthy (pid persisted)) eqn:Hpid.
        -- destruct (pid persisted) as [p|] eqn:Hp; [|discriminate].
           change (default 0%Z (Some p)) with p.
           destruct (processAlive env p) eqn:Halive; cbn [fst snd].
           ++ split; [reflexivity|]. split; [|discriminate].
              intros Hs. right. split; [reflexivity|].
              exists persisted. split; [reflexivity|]. split; [exact Hs|].
              right. exists p. split; assumption.
           ++ split; [reflexivity|]. split; discriminate.
        -- cbn [fst snd]. split; [reflexivity|]. split; [|discriminate].
           intros Hs. right. split; [reflexivity|].
           exists persisted. split; [reflexivity|]. split; [exact Hs|].
           left. exact Hpid.
      * cbn [fst snd]. split; [reflexivity|]. split; [|discriminate].
        intros Hs. rewrite Hs in Hrun. discriminate.
    + cbn [fst snd]. split; [reflexivity|]. split; [discriminate|].
      reflexivity.
Qed.

Lemma status_query_sound_witness :
  (getErrorFeedbackDaemonStatus sampleEnv None emptyWorld).1
  = mkState Stopped None None 0 0 0 None.
Proof.
  apply (status_query_sound sampleEnv None emptyWorld); reflexivity.
Defined.

(** ** Scheduling *)

Lemma setState_same d : setState (state d) d = d.
Proof. destruct d; reflexivity. Qed.

(** A visit changes nothing of the daemon but its state record. *)
Lemma processFile_setState env f d w :
  exists st, (processFile env f d w).1.1 = setState st d.
Proof.
  assert (forall b err d0 w0,
             exists st, (processBundleCatch env b err d0 w0).1.1 = setState st d0)
    as Hcatch.
  { intros b err d0 w0. unfold processBundleCatch.
    destruct (onProcessError _ ≫= _); eexists; reflexivity. }
  assert (forall b res st0 w0,
             exists st,
               (processBundleMove env b res (setState st0 d) w0).1.1
               = setState st d) as Hmove.
  { intros b res st0 w0. unfold processBundleMove.
    destruct (onBundleProcessed _ ≫= _) as [err|].
    - destruct (Hcatch b err (setState st0 d) (moveBundleToProcessed env b w0))
        as [st Hst].
      exists st. rewrite Hst. reflexivity.
    - exists st0. reflexivity. }
  unfold processFile.
  destruct (readErrorBundle _ f) as [b|]; [destruct (processed b)|];
    try (exists (state d); cbn [fst snd]; symmetry; apply setState_same).
  unfold processBundle. destruct (processorOf d b) as [res|err].
  - destruct (resolved res); [apply Hmove|].
    destruct (retryTriggered res && _); [eexists; reflexivity|apply Hmove].
  - apply Hcatch.
Qed.

(** X24.  Debouncing.  A burst of triggers, poll ticks and watcher events
    in any order, has the effect of at most one: it leaves the daemon as
    it was or with the debounce timer armed, and on a stopped daemon it
    does nothing.  When the timer fires it is disarmed, so a second
    firing without a new trigger starts no run. *)
Theorem triggers_coalesce :
  (forall ts d,
      (foldl trigger d ts = d \/ foldl trigger d ts = setDebounce true d)
      /\ (stopped d = true -> foldl trigger d ts = d))
  /\ (forall env stopAt d w,
         let r := debounceFires env stopAt d w in
         debounceTimer r.1 = false
         /\ forall env' stopAt', debounceFires env' stopAt' r.1 r.2 = r).
Proof.
  assert (forall t d,
             (trigger d t = d \/ trigger d t = setDebounce true d)
             /\ (stopped d = true -> trigger d t = d)) as Hone.
  { intros t d. unfold trigger, pollFires, watcherFires, scheduleBatch.
    destruct t as [|p]; destruct (stopped d);
      repeat match goal with
             | |- context [if ?c then _ else _] => destruct c
             end;
      (split; [(left; reflexivity) || (right; reflexivity)
              |intros Hs; (reflexivity || discriminate Hs)]). }
  split.
  - intros ts. induction ts as [|t ts IH]; intros d.
    + split; [left; reflexivity|reflexivity].
    + cbn [foldl]. destruct (Hone t d) as [[Ht|Ht] Hst]; rewrite Ht.
      * apply IH.
      * destruct (IH (setDebounce true d)) as [[H|H] Hs'].
        -- split; [right; exact H|]. intros Hs. specialize (Hst Hs).
           rewrite <- Ht, Hst. apply IH. exact Hs.
        -- split; [right; rewrite H; reflexivity|].
           intros Hs. specialize (Hst Hs). rewrite <- Ht, Hst.
           apply IH. exact Hs.
  - intros env stopAt d w r.
    assert (debounceTimer r.1 = false) as Hoff.
    { subst r. unfold debounceFires.
      destruct (debounceTimer d) eqn:Hd; [|exact Hd].
      set (d0 := setDebounce false d).
      destruct (processing d0 || stopped d0) eqn:Hg.
      { rewrite processBatch_idle by exact Hg. reflexivity. }
      destruct (processBatch_daemon env stopAt d0 w Hg) as (Hfin & _).
      rewrite Hfin.
      assert (debounceTimer
                (batchLoop env stopAt 0 (take MAX_BATCH_SIZE (listPendingBundles w))
                           (enterBatch env d0 w).1 (enterBatch env d0 w).2).1.1
              = false) as Hloop.
      { apply (batchLoop_invariant (fun d1 _ => debounceTimer d1 = false)).
        - intros f d1 w1 H1. destruct (processFile_setState env f d1 w1) as [st ->].
          exact H1.
        - intros _ d1 w1 _. reflexivity.
        - reflexivity. }
      destruct (batchLoop _ _ _ _ _ _).2; exact Hloop. }
    split; [exact Hoff|].
    intros env' stopAt'. unfold debounceFires at 1. rewrite Hoff.
    destruct r; reflexivity.
Qed.

(** X25.  The initial sweep.  Starting a fresh daemon arms the debounce
    timer, and when that timer fires the run visits the bundles that were
    already pending, the first 10 of the sorted listing, provided the
    daemon has no [onProcessError] handler and [stop()] is not called. *)
Theorem start_sweeps_pending env opts w :
  conventional (pendingDir w) ->
  onProcessError opts = None ->
  let started := start env (newDaemon opts) w in
  let swept := debounceFires env None started.1 started.2 in
  debounceTimer started.1 = true
  /\ pollTimer started.1 = true
  /\ visitedDuring started.2 swept.2
     = take MAX_BATCH_SIZE (listPendingBundles w).
Proof.
  intros Hc Hq started swept. subst swept started.
  set (d1 := (start env (newDaemon opts) w).1).
  set (w1 := (start env (newDaemon opts) w).2).
  assert (debounceTimer d1 = true) as Hdeb by reflexivity.
  split; [exact Hdeb|]. split; [reflexivity|].
  unfold debounceFires. rewrite Hdeb.
  change (listPendingBundles w) with (listPendingBundles w1).
  apply (processBatch_visits_all env (setDebounce false d1) w1).
  - exact Hc.
  - reflexivity.
  - reflexivity.
  - exact Hq.
Qed.

Lemma start_sweeps_pending_witness :
  visitedDuring (start sampleEnv (newDaemon noOptions) twoWorld).2
    (debounceFires sampleEnv None
       (start sampleEnv (newDaemon noOptions) twoWorld).1
       (start sampleEnv (newDaemon noOptions) twoWorld).2).2
  = ["error-b1.json"; "error-b2.json"].
Proof.
  apply (start_sweeps_pending sampleEnv noOptions twoWorld).
  - exact twoWorld_conventional.
  - reflexivity.
Defined.

(** ** From the emitter to the daemon *)

(** X26.  An emitted error reaches the default processor with the next
    sweep and is kept for a retry.  When [emitErrorBundle] has written a
    bundle and its file is among the first 10 of the listing, a run that
    starts, is not stopped, and belongs to a daemon without processor and
    without [onProcessError] handler leaves that bundle in [pending]
    with [retryCount = 1] of 3 and the relay resolution, and writes
    nothing under its name into [processed]. *)
Theorem emitted_bundle_is_relayed env params d w :
  conventional (pendingDir w) ->
  uuidAt env (uuids w) <> "" ->
  processing d = false ->
  stopped d = false ->
  processor (options d) = None ->
  onProcessError (options d) = None ->
  let w1 := emitErrorBundle env params w in
  let f := buildBundleFilename (uuidAt env (uuids w)) in
  f ∈ take MAX_BATCH_SIZE (listPendingBundles w1) ->
  let w2 := (processBatch env None d w1).2 in
  exists b,
    readErrorBundle (pendingDir w2) f = Some b
    /\ retryCount b = 1%Z /\ maxRetries b = 3%Z
    /\ processed b = false /\ resolution b = Some relayed
    /\ source b = emitSource params
    /\ processedDir w2 !! f = processedDir w !! f.
Proof.
  intros Hc Hid Hproc Hstop Hp Hq w1 f Hbatch w2. subst w2.
  set (p := mkParams (emitSource params) (emitContext params)
                     [mkRawError (emitError params)
                                 (Some (default SevError (emitSeverity params)))]
                     None).
  assert (w1 = (writeErrorBundle env p w).2) as Hw1 by reflexivity.
  set (b0 := (writeErrorBundle env p w).1).
  assert (validBundle b0) as Hvalid by (split; [exact Hid|reflexivity]).
  assert (finiteMaxRetries p) as Hm by (intros m Hm; discriminate Hm).
  assert (finiteCounts b0) as Hfin by (apply writeErrorBundle_finite; exact Hm).
  assert (conventional (pendingDir w1)) as Hc1.
  { rewrite Hw1. apply writeErrorBundle_keeps_convention; assumption. }
  assert (readErrorBundle (pendingDir w1) f = Some b0) as Hr1.
  { apply readErrorBundle_written; [exact Hvalid|exact Hfin|].
    rewrite Hw1. apply (writeErrorBundle_listed env p w). }
  assert (f ∈ visitedDuring w1 (processBatch env None d w1).2) as Hin.
  { rewrite (processBatch_visits_all env d w1 Hc1 Hproc Hstop Hq). exact Hbatch. }
  destruct (processBatch_file env None d w1 f Hc1 Hin)
    as (d0 & w0 & Ho & Hc0 & _ & (Hs0 & Hs0' & _) & (Hs1 & Hs1' & _)).
  assert (readErrorBundle (pendingDir w0) f = Some b0) as Hr0.
  { rewrite <- Hr1. apply readErrorBundle_lookup. symmetry. exact Hs0. }
  assert (processor (options d0) = None) as Hp0 by (rewrite Ho; exact Hp).
  assert (jsLt (retryCount b0) (maxRetries b0) = true) as Hlt
      by (vm_compute; reflexivity).
  rewrite (processFile_default_retry env f d0 w0 b0 Hp0 Hr0 eq_refl eq_refl Hlt)
    in Hs1, Hs1'.
  cbn [fst snd pendingDir processedDir setPending visit] in Hs1, Hs1'.
  rewrite lookup_insert_eq in Hs1.
  exists (incRetryCount (withResolution relayed b0)). split.
  { apply readErrorBundle_written; [exact Hvalid| |symmetry; exact Hs1].
    apply finiteCounts_retry. exact Hfin. }
  split; [apply (jsAdd_num 0 1); lia|].
  do 4 (split; [reflexivity|]).
  rewrite <- Hs1', <- Hs0'. rewrite Hw1. reflexivity.
Qed.

Lemma emitted_bundle_is_relayed_witness :
  exists b,
    readErrorBundle
      (pendingDir
         (processBatch sampleEnv None (newDaemon noOptions)
            (emitErrorBundle sampleEnv
               (mkEmit (mkSource (Some "deploy") None None None None) None
                       (mkThrown "boom" None None) None) emptyWorld)).2)
      "error-u0.json" = Some b
    /\ retryCount b = 1%Z.
Proof.
  destruct (emitted_bundle_is_relayed sampleEnv
              (mkEmit (mkSource (Some "deploy") None None None None) None
                      (mkThrown "boom" None None) None)
              (newDaemon noOptions) emptyWorld)
    as (b & Hr & Hrc & _).
  - apply map_Forall_empty.
  - discriminate.
  - reflexivity.
  - reflexivity.
  - reflexivity.
  - reflexivity.
  - apply list_elem_of_In. vm_compute. left. reflexivity.
  - exists b. split; [exact Hr|exact Hrc].
Defined.
